(** * dicom-viewer: cataloging engine and pixel windowing

    A shallow embedding of the parts of [db_handler.py], [dicom_server.py]
    and [dicom_viewer.py] that resolve the Patient/Study/Series/Image
    hierarchy, receive an instance and name its storage directory, guard
    stored-file references, window pixel samples and select the study and
    the image of a viewer page, followed by the properties checked against
    them.

    Conventions of the embedding:
    - Python strings are [string]s whose characters are the Unicode code
      points 0..255 (Latin-1): an [ascii] is a code point, not a byte of an
      encoding, and it is classified as Python classifies that code point
      ([str.isspace], [str.isalnum]). Code points above 255 are outside the
      embedding.
    - A Python value read from a dataset is a [pyvalue]: the code is
      duck-typed and only ever asks a value whether it is [None], whether it
      is a sequence, what [str()] gives and what [int()] gives.
    - Code that raises is a computation in the monad [M]: the world (record
      store, log, file system) is threaded through, and an exception leaves
      the world as it was when it was raised (the connection autocommits).
    - Pixel samples and window values are IEEE 754 floats with the rounding
      of the machine: binary32 for [np.float32] arrays and scalars, binary64
      for Python floats. Where NumPy versions differ (the type of a
      [np.float32] scalar combined with a Python float), the rules of
      NumPy 2 are followed. *)

From Stdlib Require Import ZArith String Ascii List Bool Lia.
From Stdlib Require Import Permutation.
From Stdlib Require Import DecimalString DecimalZ Floats.SpecFloat.
From stdpp Require Import base option list gmap strings.

Local Open Scope string_scope.
Local Open Scope Z_scope.

(** ** Python exceptions and results *)

Inductive pyexn : Type :=
| ValueError
| TypeError
| OverflowError
| IndexError
| AttributeError
| UnboundLocalError
| FileNotFoundError
| InvalidDicomError
| UniqueViolation
| HTTPException.

Inductive result (A : Type) : Type :=
| Ok (a : A)
| Raise (e : pyexn).
Arguments Ok {A} a.
Arguments Raise {A} e.

Definition rbind {A B : Type} (r : result A) (k : A -> result B) : result B :=
  match r with
  | Ok a => k a
  | Raise e => Raise e
  end.

Notation "'let+' x ':=' r 'in' k" := (rbind r (fun x => k))
  (at level 10, x name, r at level 100, k at level 200).

Definition pyexn_eqb (a b : pyexn) : bool :=
  match a, b with
  | ValueError, ValueError | TypeError, TypeError
  | OverflowError, OverflowError | IndexError, IndexError
  | AttributeError, AttributeError
  | UnboundLocalError, UnboundLocalError
  | FileNotFoundError, FileNotFoundError
  | InvalidDicomError, InvalidDicomError
  | UniqueViolation, UniqueViolation
  | HTTPException, HTTPException => true
  | _, _ => false
  end.

Definition exn_name (e : pyexn) : string :=
  match e with
  | ValueError => "ValueError"
  | TypeError => "TypeError"
  | OverflowError => "OverflowError"
  | IndexError => "IndexError"
  | AttributeError => "AttributeError"
  | UnboundLocalError => "UnboundLocalError"
  | FileNotFoundError => "FileNotFoundError"
  | InvalidDicomError => "InvalidDicomError"
  | UniqueViolation => "UniqueViolation"
  | HTTPException => "HTTPException"
  end.

(** ** Python values as the extractors see them *)

(** *** Code points *)

Definition code (c : ascii) : Z := Z.of_nat (nat_of_ascii c).

Definition in_range (lo hi n : Z) : bool := (lo <=? n) && (n <=? hi).

(** [str.isspace] on the code points below 256: TAB..CR, FS..US, the
    space, NEL (133) and the no-break space (160). They are the characters
    [str.strip()] removes. *)
Definition is_space (c : ascii) : bool :=
  let n := code c in
  in_range 9 13 n || in_range 28 32 n || (n =? 133) || (n =? 160).

(** The white space [int()] skips around a numeral: CPython maps the
    non-ASCII spaces to a blank and then skips the ASCII white space of C,
    so FS..US (28..31) are not skipped. *)
Definition is_int_space (c : ascii) : bool :=
  let n := code c in
  in_range 9 13 n || (n =? 32) || (n =? 133) || (n =? 160).

Definition is_digit (c : ascii) : bool := in_range 48 57 (code c).

Definition digit_value (c : ascii) : Z := code c - 48.

(** [str.isalnum] on the code points below 256: the digits, the ASCII
    letters, and the Latin-1 letters and numeric characters (the ordinal
    indicators, the superscript digits, the micro sign, the vulgar
    fractions and the accented letters; not the multiplication and division
    signs 215 and 247). *)
Definition is_alnum (c : ascii) : bool :=
  let n := code c in
  in_range 48 57 n || in_range 65 90 n || in_range 97 122 n
  || (n =? 170) || in_range 178 179 n || (n =? 181) || in_range 185 186 n
  || in_range 188 190 n || in_range 192 214 n || in_range 216 246 n
  || in_range 248 255 n.

(** *** [str(int)] *)

Definition str_of_Z (n : Z) : string := NilZero.string_of_int (Z.to_int n).

Fixpoint count_digits (s : string) : nat :=
  match s with
  | EmptyString => 0
  | String c s' => if is_digit c then S (count_digits s') else count_digits s'
  end.

(** [sys.get_int_max_str_digits()]: beyond that many digits both
    [str(int)] and [int(str)] raise a [ValueError] (CPython 3.11 and
    later). *)
Definition max_str_digits : nat := 4300.

(** [str(n)] returns (does not raise). *)
Definition int_prints (n : Z) : bool :=
  (count_digits (str_of_Z n) <=? max_str_digits)%nat.

(** A non-sequence value. [SInt] is an [int] that [str()] prints: the
    extractors call [str()] on every value, and the values [pydicom] hands
    them (integer strings of at most 12 characters, binary integers of at
    most 64 bits) are far below the limit. [SObj] stands for every object
    that is neither a [str] nor an [int]: it is given by what [str()]
    returns on it and by what [int()] does on it (a float, a [PersonName],
    a nested list, ...). *)
Inductive scalar : Type :=
| SStr (s : string)
| SInt (n : Z) (short : Is_true (int_prints n))
| SObj (str_form : string) (int_form : result Z).

Inductive seq_kind : Type := MultiValue | PyList | PyTuple.

Inductive pyvalue : Type :=
| PyNone
| PyScalar (x : scalar)
| PySeq (k : seq_kind) (items : list scalar).

(** [float('inf')]: prints as [inf], and [int()] on it raises
    [OverflowError]. *)
Definition py_float_inf : pyvalue := PyScalar (SObj "inf" (Raise OverflowError)).

(** [float('nan')]: [int()] on it raises [ValueError]. *)
Definition py_float_nan : pyvalue := PyScalar (SObj "nan" (Raise ValueError)).

(** *** [str.strip()] *)

Fixpoint lstrip (s : string) : string :=
  match s with
  | String c s' => if is_space c then lstrip s' else s
  | EmptyString => EmptyString
  end.

Fixpoint rstrip (s : string) : string :=
  match s with
  | EmptyString => EmptyString
  | String c s' =>
      match rstrip s' with
      | EmptyString => if is_space c then EmptyString else String c EmptyString
      | r => String c r
      end
  end.

Definition strip (s : string) : string := rstrip (lstrip s).

(** *** [int(str)] *)

Fixpoint int_lstrip (s : string) : string :=
  match s with
  | String c s' => if is_int_space c then int_lstrip s' else s
  | EmptyString => EmptyString
  end.

Fixpoint int_rstrip (s : string) : string :=
  match s with
  | EmptyString => EmptyString
  | String c s' =>
      match int_rstrip s' with
      | EmptyString => if is_int_space c then EmptyString else String c EmptyString
      | r => String c r
      end
  end.

(** Decimal digits, a single underscore allowed between two digits. *)
Fixpoint parse_digits (acc : Z) (after_digit : bool) (s : string) : option Z :=
  match s with
  | EmptyString => if after_digit then Some acc else None
  | String c s' =>
      if is_digit c then parse_digits (10 * acc + digit_value c) true s'
      else if Ascii.eqb c "_"%char then
        if after_digit then parse_digits acc false s' else None
      else None
  end.

(** [int(s)] for a [str]: surrounding white space, an optional sign, then
    digits (leading zeros allowed), at most [max_str_digits] of them;
    anything else is a [ValueError]. *)
Definition int_of_string (s : string) : result Z :=
  let body := int_rstrip (int_lstrip s) in
  let parsed :=
    match body with
    | String "-"%char d => option_map Z.opp (parse_digits 0 false d)
    | String "+"%char d => parse_digits 0 false d
    | d => parse_digits 0 false d
    end in
  match parsed with
  | Some n => if (count_digits body <=? max_str_digits)%nat then Ok n
              else Raise ValueError
  | None => Raise ValueError
  end.

Definition py_str (x : scalar) : string :=
  match x with
  | SStr s => s
  | SInt n _ => str_of_Z n
  | SObj str_form _ => str_form
  end.

Definition py_int (x : scalar) : result Z :=
  match x with
  | SStr s => int_of_string s
  | SInt n _ => Ok n
  | SObj _ int_form => int_form
  end.

(** ** TagExtractor: [get_str] and [get_int] (db_handler.py) *)

Definition get_str (value : pyvalue) : string :=
  match value with
  | PyNone => ""
  | PySeq _ items =>
      match items with
      | x :: _ => strip (py_str x)
      | [] => ""
      end
  | PyScalar x => strip (py_str x)
  end.

(** The body of the [try] block of [get_int]. *)
Definition get_int_try (value : pyvalue) : result Z :=
  match value with
  | PyNone => Ok 0
  | PySeq _ items =>
      match items with
      | x :: _ => py_int x
      | [] => Ok 0
      end
  | PyScalar x => py_int x
  end.

(** [except (ValueError, TypeError): return 0]; any other exception goes on
    to the caller. *)
Definition get_int (value : pyvalue) : result Z :=
  match get_int_try value with
  | Ok n => Ok n
  | Raise ValueError | Raise TypeError => Ok 0
  | Raise e => Raise e
  end.

(** ** The record store (the PostgreSQL schema behind [psycopg2]) *)

Module Patient.
Record row : Type := {
  patient_prkey : Z;
  patient_id : string;
  patient_name : string;
  patient_birthdate : string;
  patient_sex : string;
  character_set : string;
  patient_path : string
}.
End Patient.

Module Study.
Record row : Type := {
  study_prkey : Z;
  study_instance_uid : string;
  study_id : string;
  study_date : string;
  study_time : string;
  study_description : string;
  accession_number : string;
  refer_physician : string;
  modalities_in_study : string;
  series_in_study : string;
  images_in_study : string;
  station_name : string;
  institutional_department_name : string;
  patient_age : string;
  patient_weight : string;
  character_set : string;
  study_path : string;
  patient_prkey : Z;
  institution_name : string;
  frames_in_study : string;
  study_comments : string;
  study_status : Z;
  study_token : string
}.
End Study.

Module Series.
Record row : Type := {
  series_prkey : Z;
  series_instance_uid : string;
  series_number : string;
  series_date : string;
  series_time : string;
  series_description : string;
  modality : string;
  patient_position : string;
  contrast_bolus_agent : string;
  manufacturer : string;
  model_name : string;
  body_part_examined : string;
  protocol_name : string;
  images_in_series : string;
  frame_of_reference_uid : string;
  localizer_instance_uid : string;
  user_comments : string;
  series_priority : Z;
  series_rate : Z;
  series_review_date : string;
  series_review_time : string;
  series_insertion_date : string;
  character_set : string;
  series_path : string;
  study_instance_uid : string;
  study_prkey : Z;
  frames_in_series : string
}.
End Series.

Module Image.
Record row : Type := {
  image_prkey : Z;
  sop_instance_uid : string;
  sop_class_uid : string;
  image_type : string;
  image_number : string;
  image_date : string;
  image_time : string;
  acquisition_date : string;
  acquisition_time : string;
  acquisition_number : string;
  number_of_frames : string;
  samples_per_pixel : string;
  photometric_interpretation : string;
  bits_allocated : Z;
  rows : Z;
  columns : Z;
  image_path_name : string;
  patient_id : string;
  series_prkey : Z
}.
End Image.

(** A table: its rows in insertion order and the next value of the serial
    that generates its primary key. *)
Record table (R : Type) : Type := {
  tbl_rows : list R;
  tbl_next : Z
}.
Arguments tbl_rows {R} t.
Arguments tbl_next {R} t.

Record database : Type := {
  patient : table Patient.row;
  study : table Study.row;
  series : table Series.row;
  image : table Image.row
}.

(** [SELECT <prkey> FROM t WHERE <key> = k] followed by [fetchone()]. *)
Definition select_prkey {R : Type} (key : R -> string) (prkey : R -> Z)
    (k : string) (t : table R) : option Z :=
  option_map prkey (List.find (fun r => String.eqb (key r) k) (tbl_rows t)).

(** Modelled from the spec: the schema is not part of the sources; the
    record store enforces a uniqueness constraint on each natural key, so an
    [INSERT] of a key that is already there raises a uniqueness violation.
    The serial is consumed either way. *)
Definition insert_row {R : Type} (key : R -> string) (mk : Z -> R)
    (t : table R) : result Z * table R :=
  let k := tbl_next t in
  let r := mk k in
  if existsb (fun r' => String.eqb (key r') (key r)) (tbl_rows t)
  then (Raise UniqueViolation, {| tbl_rows := tbl_rows t; tbl_next := k + 1 |})
  else (Ok k, {| tbl_rows := tbl_rows t ++ [r]; tbl_next := k + 1 |}).

Definition with_patient (d : database) (t : table Patient.row) : database :=
  {| patient := t; study := study d; series := series d; image := image d |}.
Definition with_study (d : database) (t : table Study.row) : database :=
  {| patient := patient d; study := t; series := series d; image := image d |}.
Definition with_series (d : database) (t : table Series.row) : database :=
  {| patient := patient d; study := study d; series := t; image := image d |}.
Definition with_image (d : database) (t : table Image.row) : database :=
  {| patient := patient d; study := study d; series := series d; image := t |}.

(** ** The world: record store, log, file system, other connections *)

Inductive loglevel : Type := DEBUG | INFO | WARNING | ERROR.

(** A decoded dataset: keyword to value. *)
Abbreviation dataset := (gmap string pyvalue).

Inductive file : Type :=
| DicomFile (ds : dataset)
| NotDicom.

(** [others] is what the other connections commit: its head lands just
    before this connection's next statement. A run on its own has
    [others = []]. *)
Record world : Type := {
  db : database;
  log : list (loglevel * string);
  fs : gmap string file;
  others : list (database -> database)
}.

Definition M (A : Type) : Type := world -> result A * world.

Definition ret {A : Type} (a : A) : M A := fun w => (Ok a, w).
Definition raise {A : Type} (e : pyexn) : M A := fun w => (Raise e, w).
Definition bind {A B : Type} (m : M A) (k : A -> M B) : M B :=
  fun w =>
    match m w with
    | (Ok a, w') => k a w'
    | (Raise e, w') => (Raise e, w')
    end.

Notation "'let*' x ':=' m 'in' k" := (bind m (fun x => k))
  (at level 10, x name, m at level 100, k at level 200).
Notation "m ';;' k" := (bind m (fun _ => k))
  (at level 100, k at level 200, right associativity).

(** [try: m except Exception as e: h e]. *)
Definition try_except {A : Type} (m : M A) (h : pyexn -> M A) : M A :=
  fun w =>
    match m w with
    | (Ok a, w') => (Ok a, w')
    | (Raise e, w') => h e w'
    end.

(** The root logger is configured at level INFO: debug records are dropped. *)
Definition logging (lvl : loglevel) (msg : string) : M unit :=
  fun w =>
    match lvl with
    | DEBUG => (Ok tt, w)
    | _ => (Ok tt, {| db := db w; log := log w ++ [(lvl, msg)];
                      fs := fs w; others := others w |})
    end.

(** [cur.execute(stmt)]: the pending commit of another connection lands,
    then the statement runs on the store and autocommits. *)
Definition execute {A : Type} (stmt : database -> result A * database) : M A :=
  fun w =>
    let '(d, rest) :=
      match others w with
      | [] => (db w, [])
      | f :: rest => (f (db w), rest)
      end in
    let '(r, d') := stmt d in
    (r, {| db := d'; log := log w; fs := fs w; others := rest |}).

Definition ds_get (ds : dataset) (key : string) (default : pyvalue) : pyvalue :=
  match ds !! key with
  | Some v => v
  | None => default
  end.

(** Attribute access [ds.<key>]. *)
Definition ds_attr (ds : dataset) (key : string) : M pyvalue :=
  match ds !! key with
  | Some v => ret v
  | None => raise AttributeError
  end.

(** ** [os.path] *)

Fixpoint ends_with_slash (s : string) : bool :=
  match s with
  | EmptyString => false
  | String c EmptyString => Ascii.eqb c "/"%char
  | String _ s' => ends_with_slash s'
  end.

(** [posixpath.join(a, b)]. *)
Definition os_path_join (a b : string) : string :=
  if String.prefix "/" b then b
  else if String.eqb a "" || ends_with_slash a then a +:+ b
  else a +:+ "/" +:+ b.

(** [posixpath.isabs]. *)
Definition os_path_isabs (p : string) : bool := String.prefix "/" p.

Section Catalog.

(** [RECEIVED_DICOM_ROOT]: the canonical path of [received_dicom] next to
    the module, fixed when the module is loaded. *)
Variable RECEIVED_DICOM_ROOT : string.

(** [str()] of a multi-valued element, a list or a tuple (the printed form
    of a Python sequence is left to the runtime). *)
Variable py_repr_seq : seq_kind -> list scalar -> string.

(** [str(value)]. *)
Definition py_str_value (value : pyvalue) : string :=
  match value with
  | PyNone => "None"
  | PyScalar x => py_str x
  | PySeq k items => py_repr_seq k items
  end.

(** *** CatalogResolver (db_handler.py) *)

Definition get_or_create_patient (ds : dataset) (file_path_relative : string) : M Z :=
  let patient_id := get_str (ds_get ds "PatientID" PyNone) in
  let* patient_id :=
    (if String.eqb patient_id "" then
       let* sop := ds_attr ds "SOPInstanceUID" in
       let patient_id := "UNKNOWN_PATIENT_" +:+ py_str_value sop in
       logging WARNING ("PatientID kosong, menggunakan fallback: " +:+ patient_id) ;;
       ret patient_id
     else ret patient_id) in
  let* result :=
    execute (fun d =>
      (Ok (select_prkey Patient.patient_id Patient.patient_prkey patient_id (patient d)), d)) in
  match result with
  | Some prkey =>
      logging DEBUG ("Pasien dengan PatientID '" +:+ patient_id
                     +:+ "' sudah ada, menggunakan prkey: " +:+ str_of_Z prkey) ;;
      ret prkey
  | None =>
      logging DEBUG ("Membuat pasien baru dengan PatientID: " +:+ patient_id) ;;
      let patient_name := get_str (ds_get ds "PatientName" PyNone) in
      let patient_birthdate := get_str (ds_get ds "PatientBirthDate" PyNone) in
      let patient_sex := get_str (ds_get ds "PatientSex" PyNone) in
      let character_set := get_str (ds_get ds "SpecificCharacterSet" PyNone) in
      let patient_path := get_str (PyScalar (SStr file_path_relative)) in
      execute (fun d =>
        let '(r, t) :=
          insert_row Patient.patient_id
            (fun k => {| Patient.patient_prkey := k;
                         Patient.patient_id := patient_id;
                         Patient.patient_name := patient_name;
                         Patient.patient_birthdate := patient_birthdate;
                         Patient.patient_sex := patient_sex;
                         Patient.character_set := character_set;
                         Patient.patient_path := patient_path |})
            (patient d) in
        (r, with_patient d t))
  end.

Definition get_or_create_study (ds : dataset) (patient_prkey : Z)
    (file_path_relative : string) : M Z :=
  let study_instance_uid := get_str (ds_get ds "StudyInstanceUID" PyNone) in
  let* study_instance_uid :=
    (if String.eqb study_instance_uid "" then
       let* sop := ds_attr ds "SOPInstanceUID" in
       let study_instance_uid := "UNKNOWN_STUDY_" +:+ py_str_value sop in
       logging WARNING ("StudyInstanceUID kosong, menggunakan fallback: "
                        +:+ study_instance_uid) ;;
       ret study_instance_uid
     else ret study_instance_uid) in
  let* result :=
    execute (fun d =>
      (Ok (select_prkey Study.study_instance_uid Study.study_prkey
             study_instance_uid (study d)), d)) in
  match result with
  | Some prkey =>
      logging DEBUG ("Studi dengan StudyInstanceUID '" +:+ study_instance_uid
                     +:+ "' sudah ada, menggunakan prkey: " +:+ str_of_Z prkey) ;;
      ret prkey
  | None =>
      logging DEBUG ("Membuat studi baru dengan StudyInstanceUID: "
                     +:+ study_instance_uid) ;;
      let study_id := get_str (ds_get ds "StudyID" PyNone) in
      let study_date := get_str (ds_get ds "StudyDate" PyNone) in
      let study_time := get_str (ds_get ds "StudyTime" PyNone) in
      let study_description := get_str (ds_get ds "StudyDescription" PyNone) in
      let accession_number := get_str (ds_get ds "AccessionNumber" PyNone) in
      let* accession_number :=
        (if String.eqb accession_number "" then
           logging WARNING ("AccessionNumber kosong, menggunakan StudyInstanceUID '"
                            +:+ study_instance_uid +:+ "' sebagai fallback.") ;;
           ret study_instance_uid
         else ret accession_number) in
      let refer_physician := get_str (ds_get ds "ReferringPhysicianName" PyNone) in
      let modalities_in_study := get_str (ds_get ds "ModalitiesInStudy" PyNone) in
      let series_in_study := get_str (ds_get ds "NumberOfStudyRelatedSeries" PyNone) in
      let images_in_study := get_str (ds_get ds "NumberOfStudyRelatedInstances" PyNone) in
      let station_name := get_str (ds_get ds "StationName" PyNone) in
      let institutional_department_name :=
        get_str (ds_get ds "InstitutionalDepartmentName" PyNone) in
      let patient_age := get_str (ds_get ds "PatientAge" PyNone) in
      let patient_weight := get_str (ds_get ds "PatientWeight" PyNone) in
      let institution_name := get_str (ds_get ds "InstitutionName" PyNone) in
      let frames_in_study := get_str (ds_get ds "NumberOfFrames" PyNone) in
      let study_comments := get_str (ds_get ds "StudyComments" PyNone) in
      let character_set := get_str (ds_get ds "SpecificCharacterSet" PyNone) in
      let study_path := get_str (PyScalar (SStr file_path_relative)) in
      execute (fun d =>
        let '(r, t) :=
          insert_row Study.study_instance_uid
            (fun k => {| Study.study_prkey := k;
                         Study.study_instance_uid := study_instance_uid;
                         Study.study_id := study_id;
                         Study.study_date := study_date;
                         Study.study_time := study_time;
                         Study.study_description := study_description;
                         Study.accession_number := accession_number;
                         Study.refer_physician := refer_physician;
                         Study.modalities_in_study := modalities_in_study;
                         Study.series_in_study := series_in_study;
                         Study.images_in_study := images_in_study;
                         Study.station_name := station_name;
                         Study.institutional_department_name :=
                           institutional_department_name;
                         Study.patient_age := patient_age;
                         Study.patient_weight := patient_weight;
                         Study.character_set := character_set;
                         Study.study_path := study_path;
                         Study.patient_prkey := patient_prkey;
                         Study.institution_name := institution_name;
                         Study.frames_in_study := frames_in_study;
                         Study.study_comments := study_comments;
                         Study.study_status := 0;
                         Study.study_token := "none" |})
            (study d) in
        (r, with_study d t))
  end.

Definition get_or_create_series (ds : dataset) (study_prkey : Z)
    (file_path_relative : string) : M Z :=
  let series_instance_uid := get_str (ds_get ds "SeriesInstanceUID" PyNone) in
  let* series_instance_uid :=
    (if String.eqb series_instance_uid "" then
       let* sop := ds_attr ds "SOPInstanceUID" in
       let series_instance_uid := "UNKNOWN_SERIES_" +:+ py_str_value sop in
       logging WARNING ("SeriesInstanceUID kosong, menggunakan fallback: "
                        +:+ series_instance_uid) ;;
       ret series_instance_uid
     else ret series_instance_uid) in
  let* result :=
    execute (fun d =>
      (Ok (select_prkey Series.series_instance_uid Series.series_prkey
             series_instance_uid (series d)), d)) in
  match result with
  | Some prkey =>
      logging DEBUG ("Series dengan SeriesInstanceUID '" +:+ series_instance_uid
                     +:+ "' sudah ada, menggunakan prkey: " +:+ str_of_Z prkey) ;;
      ret prkey
  | None =>
      logging DEBUG ("Membuat series baru dengan SeriesInstanceUID: "
                     +:+ series_instance_uid) ;;
      let series_number := get_str (ds_get ds "SeriesNumber" PyNone) in
      let series_date := get_str (ds_get ds "SeriesDate" PyNone) in
      let series_time := get_str (ds_get ds "SeriesTime" PyNone) in
      let series_description := get_str (ds_get ds "SeriesDescription" PyNone) in
      let modality := get_str (ds_get ds "Modality" PyNone) in
      let patient_position := get_str (ds_get ds "PatientPosition" PyNone) in
      let contrast_bolus_agent := get_str (ds_get ds "ContrastBolusAgent" PyNone) in
      let manufacturer := get_str (ds_get ds "Manufacturer" PyNone) in
      let model_name := get_str (ds_get ds "ManufacturerModelName" PyNone) in
      let body_part_examined := get_str (ds_get ds "BodyPartExamined" PyNone) in
      let protocol_name := get_str (ds_get ds "ProtocolName" PyNone) in
      let images_in_series :=
        get_str (ds_get ds "NumberOfSeriesRelatedInstances" PyNone) in
      let frame_of_reference_uid := get_str (ds_get ds "FrameOfReferenceUID" PyNone) in
      let localizer_instance_uid := get_str (ds_get ds "SOPInstanceUID" PyNone) in
      let user_comments := "none" in
      let series_priority := 0 in
      let series_rate := 0 in
      let series_review_date := "none" in
      let series_review_time := "none" in
      let series_insertion_date := "none" in
      let character_set := get_str (ds_get ds "SpecificCharacterSet" PyNone) in
      let study_instance_uid_ref := get_str (ds_get ds "StudyInstanceUID" PyNone) in
      let frames_in_series := get_str (ds_get ds "NumberOfFrames" PyNone) in
      let series_path := get_str (PyScalar (SStr file_path_relative)) in
      execute (fun d =>
        let '(r, t) :=
          insert_row Series.series_instance_uid
            (fun k => {| Series.series_prkey := k;
                         Series.series_instance_uid := series_instance_uid;
                         Series.series_number := series_number;
                         Series.series_date := series_date;
                         Series.series_time := series_time;
                         Series.series_description := series_description;
                         Series.modality := modality;
                         Series.patient_position := patient_position;
                         Series.contrast_bolus_agent := contrast_bolus_agent;
                         Series.manufacturer := manufacturer;
                         Series.model_name := model_name;
                         Series.body_part_examined := body_part_examined;
                         Series.protocol_name := protocol_name;
                         Series.images_in_series := images_in_series;
                         Series.frame_of_reference_uid := frame_of_reference_uid;
                         Series.localizer_instance_uid := localizer_instance_uid;
                         Series.user_comments := user_comments;
                         Series.series_priority := series_priority;
                         Series.series_rate := series_rate;
                         Series.series_review_date := series_review_date;
                         Series.series_review_time := series_review_time;
                         Series.series_insertion_date := series_insertion_date;
                         Series.character_set := character_set;
                         Series.series_path := series_path;
                         Series.study_instance_uid := study_instance_uid_ref;
                         Series.study_prkey := study_prkey;
                         Series.frames_in_series := frames_in_series |})
            (series d) in
        (r, with_series d t))
  end.

(** [get_int] inside the monad: what it raises goes on to the caller. *)
Definition lift {A : Type} (r : result A) : M A := fun w => (r, w).

Definition save_image_metadata (ds : dataset) (patient_prkey series_prkey : Z) : M unit :=
  let sop_instance_uid := get_str (ds_get ds "SOPInstanceUID" PyNone) in
  if String.eqb sop_instance_uid "" then
    logging ERROR "SOPInstanceUID kosong, tidak bisa menyimpan image metadata." ;;
    ret tt
  else
    let* result :=
      execute (fun d =>
        (Ok (select_prkey Image.sop_instance_uid Image.image_prkey
               sop_instance_uid (image d)), d)) in
    match result with
    | Some _ =>
        logging INFO ("Image dengan SOPInstanceUID '" +:+ sop_instance_uid
                      +:+ "' sudah ada, tidak ada penyisipan baru.") ;;
        ret tt
    | None =>
        logging DEBUG ("Membuat image baru dengan SOPInstanceUID: "
                       +:+ sop_instance_uid) ;;
        let sop_class_uid := get_str (ds_get ds "SOPClassUID" PyNone) in
        let image_type := get_str (ds_get ds "ImageType" PyNone) in
        let image_number := get_str (ds_get ds "InstanceNumber" PyNone) in
        let image_date := get_str (ds_get ds "ContentDate" PyNone) in
        let image_time := get_str (ds_get ds "ContentTime" PyNone) in
        let acquisition_date := get_str (ds_get ds "AcquisitionDate" PyNone) in
        let acquisition_time := get_str (ds_get ds "AcquisitionTime" PyNone) in
        let acquisition_number := get_str (ds_get ds "AcquisitionNumber" PyNone) in
        let number_of_frames := get_str (ds_get ds "NumberOfFrames" PyNone) in
        let samples_per_pixel := get_str (ds_get ds "SamplesPerPixel" PyNone) in
        let photometric_interpretation :=
          get_str (ds_get ds "PhotometricInterpretation" PyNone) in
        let* bits_allocated := lift (get_int (ds_get ds "BitsAllocated" PyNone)) in
        let* rows := lift (get_int (ds_get ds "Rows" PyNone)) in
        let* columns := lift (get_int (ds_get ds "Columns" PyNone)) in
        let image_path_name := get_str (ds_get ds "Path" PyNone) in
        let patient_id := get_str (ds_get ds "PatientID" PyNone) in
        let* _ :=
          execute (fun d =>
            let '(r, t) :=
              insert_row Image.sop_instance_uid
                (fun k => {| Image.image_prkey := k;
                             Image.sop_instance_uid := sop_instance_uid;
                             Image.sop_class_uid := sop_class_uid;
                             Image.image_type := image_type;
                             Image.image_number := image_number;
                             Image.image_date := image_date;
                             Image.image_time := image_time;
                             Image.acquisition_date := acquisition_date;
                             Image.acquisition_time := acquisition_time;
                             Image.acquisition_number := acquisition_number;
                             Image.number_of_frames := number_of_frames;
                             Image.samples_per_pixel := samples_per_pixel;
                             Image.photometric_interpretation :=
                               photometric_interpretation;
                             Image.bits_allocated := bits_allocated;
                             Image.rows := rows;
                             Image.columns := columns;
                             Image.image_path_name := image_path_name;
                             Image.patient_id := patient_id;
                             Image.series_prkey := series_prkey |})
                (image d) in
            (r, with_image d t)) in
        ret tt
    end.

(** Lines 289-299 of [save_metadata]: the file is looked up under the
    root and decoded, and the relative path is attached to the dataset. *)
Definition read_dataset (path_relative_to_received_dir : string) : M dataset :=
  let filepath_absolute :=
    os_path_join RECEIVED_DICOM_ROOT path_relative_to_received_dir in
  fun w =>
    match fs w !! filepath_absolute with
    | None =>
        (logging ERROR ("File DICOM tidak ditemukan di jalur absolut: "
                        +:+ filepath_absolute) ;;
         raise FileNotFoundError) w
    | Some NotDicom => (Raise InvalidDicomError, w)
    | Some (DicomFile ds) =>
        (Ok (<["Path" := PyScalar (SStr path_relative_to_received_dir)]> ds), w)
    end.

(** Lines 302-305: the four ordered resolutions. The three keys are the
    locals [patient_prkey], [study_prkey] and [series_prkey]. *)
Definition resolve_chain (ds : dataset) (path : string) : M (Z * Z * Z) :=
  let* patient_prkey := get_or_create_patient ds path in
  let* study_prkey := get_or_create_study ds patient_prkey path in
  let* series_prkey := get_or_create_series ds study_prkey path in
  save_image_metadata ds patient_prkey series_prkey ;;
  ret (patient_prkey, study_prkey, series_prkey).

(** The two [except] clauses of [save_metadata]: log, then re-raise. The
    text of an exception is modelled by its class name. *)
Definition save_metadata_except {A : Type} (path : string) (e : pyexn) : M A :=
  (if pyexn_eqb e InvalidDicomError
   then logging ERROR ("File DICOM tidak valid '" +:+ path +:+ "': " +:+ exn_name e)
   else logging ERROR ("Terjadi kesalahan saat menyimpan metadata untuk '"
                       +:+ path +:+ "': " +:+ exn_name e)) ;;
  raise e.

(** [save_metadata], returning the keys the chain resolved (Python returns
    [None]). The cursor [cur] is bound only after the dataset is read:
    when reading fails, the [finally] clause looks up the unbound local
    [cur], and that [UnboundLocalError] replaces the exception in flight. *)
Definition save_metadata (path_relative_to_received_dir : string) : M (Z * Z * Z) :=
  fun w =>
    match try_except (read_dataset path_relative_to_received_dir)
            (save_metadata_except path_relative_to_received_dir) w with
    | (Raise _, w') => (Raise UnboundLocalError, w')
    | (Ok ds, w') =>
        try_except
          (let* keys := resolve_chain ds path_relative_to_received_dir in
           logging INFO ("Metadata dari '" +:+ path_relative_to_received_dir
                         +:+ "' berhasil disimpan ke database.") ;;
           ret keys)
          (save_metadata_except path_relative_to_received_dir) w'
    end.

(** *** StorageLayout (dicom_server.py, [handle_store]) *)

Definition is_safe_char (c : ascii) : bool :=
  is_alnum c || Ascii.eqb c "-"%char || Ascii.eqb c "_"%char.

Fixpoint filter_string (f : ascii -> bool) (s : string) : string :=
  match s with
  | EmptyString => EmptyString
  | String c s' => if f c then String c (filter_string f s') else filter_string f s'
  end.

(** Lines 52-59 of [handle_store]: the name of the directory the file is
    stored under. *)
Definition handle_store_directory (ds : dataset) : M string :=
  let accession_number :=
    get_str (ds_get ds "AccessionNumber" (PyScalar (SStr "UNKNOWN_ACCESSION"))) in
  let accession_number_safe := strip (filter_string is_safe_char accession_number) in
  if String.eqb accession_number_safe "" then
    let* sop := ds_attr ds "SOPInstanceUID" in
    let accession_number_safe := py_str_value sop in
    logging WARNING ("AccessionNumber kosong atau tidak valid, menggunakan "
                     +:+ "SOPInstanceUID sebagai nama folder: "
                     +:+ accession_number_safe) ;;
    ret accession_number_safe
  else ret accession_number_safe.

End Catalog.

(** ** Pixel arrays *)

(** A [numpy] array of any dimension: a sample, or a sequence of arrays
    along the first axis. *)
#[warnings="-register-all"]
Inductive ndarray (A : Type) : Type :=
| Sample (x : A)
| Axis (items : list (ndarray A)).
Arguments Sample {A} x.
Arguments Axis {A} items.

Fixpoint nd_map {A B : Type} (f : A -> B) (a : ndarray A) : ndarray B :=
  match a with
  | Sample x => Sample (f x)
  | Axis items => Axis (List.map (nd_map f) items)
  end.

Fixpoint nd_leaves {A : Type} (a : ndarray A) : list A :=
  match a with
  | Sample x => [x]
  | Axis items => List.flat_map nd_leaves items
  end.

Fixpoint ndim {A : Type} (a : ndarray A) : Z :=
  match a with
  | Sample _ => 0
  | Axis [] => 1
  | Axis (a' :: _) => 1 + ndim a'
  end.

(** [a[0]]. *)
Definition nd_first {A : Type} (a : ndarray A) : result (ndarray A) :=
  match a with
  | Axis (a' :: _) => Ok a'
  | _ => Raise IndexError
  end.

(** A two-dimensional array from its rows. *)
Definition array2 {A : Type} (rows : list (list A)) : ndarray A :=
  Axis (List.map (fun r => Axis (List.map Sample r)) rows).

(** ** IEEE 754 floats

    [numpy] computes on [np.float32] arrays in binary32, Python on its
    floats in binary64. Both are the [spec_float]s of the Standard Library
    with the operations of [SpecFloat] at the precision of the format
    (round to nearest, ties to even; signed zeros, infinities and NaN). *)

Record format : Type := { fmt_prec : Z; fmt_emax : Z }.

Definition binary32 : format := {| fmt_prec := 24; fmt_emax := 128 |}.
Definition binary64 : format := {| fmt_prec := 53; fmt_emax := 1024 |}.

(** The float of the format nearest to [m * 2 ^ e]. *)
Definition fl_dyadic (f : format) (m e : Z) : spec_float :=
  binary_normalize (fmt_prec f) (fmt_emax f) m e false.

Definition fl_of_Z (f : format) (n : Z) : spec_float := fl_dyadic f n 0.

(** Conversion to a format: the nearest float of that format. *)
Definition fl_cast (f : format) (x : spec_float) : spec_float :=
  match x with
  | S754_finite s m e => binary_round (fmt_prec f) (fmt_emax f) s m e
  | _ => x
  end.

Definition fl_add (f : format) : spec_float -> spec_float -> spec_float :=
  SFadd (fmt_prec f) (fmt_emax f).
Definition fl_sub (f : format) : spec_float -> spec_float -> spec_float :=
  SFsub (fmt_prec f) (fmt_emax f).
Definition fl_mul (f : format) : spec_float -> spec_float -> spec_float :=
  SFmul (fmt_prec f) (fmt_emax f).
Definition fl_div (f : format) : spec_float -> spec_float -> spec_float :=
  SFdiv (fmt_prec f) (fmt_emax f).

Definition fl_zero : spec_float := S754_zero false.

Definition fl_is_nan (x : spec_float) : bool :=
  match x with
  | S754_nan => true
  | _ => false
  end.

(** [a < b] and [a <= b] on two floats of one format: false when either
    is NaN. *)
Definition fl_lt (a b : spec_float) : bool := SFltb a b.
Definition fl_le (a b : spec_float) : bool := SFleb a b.

(** [float(s)] for a numeral [s] (or [inf], [nan]) whose value is [x]: the
    nearest binary64 float. Every Python float is obtained so. *)
Definition py_float (x : spec_float) : spec_float := fl_cast binary64 x.

(** A scalar or an array element with its type: a Python [float] or an
    element of a [float64] array, or a [np.float32] scalar or element.
    Arithmetic on two scalars follows the promotion rules of NumPy 2
    (NEP 50): two Python floats compute in binary64, two [np.float32] in
    binary32, and a Python float that meets a [np.float32] scalar or array
    is first converted to binary32. *)
Inductive number : Type :=
| Float64 (x : spec_float)
| Float32 (x : spec_float).

Definition num_value (a : number) : spec_float :=
  match a with
  | Float64 x | Float32 x => x
  end.

Definition num_format (a : number) : format :=
  match a with
  | Float64 _ => binary64
  | Float32 _ => binary32
  end.

(** The scalar as an operand of a [float32] array. *)
Definition as_float32 (a : number) : spec_float :=
  match a with
  | Float64 x => fl_cast binary32 x
  | Float32 x => x
  end.

Definition num_binop (op : format -> spec_float -> spec_float -> spec_float)
    (a b : number) : number :=
  match a, b with
  | Float64 x, Float64 y => Float64 (op binary64 x y)
  | _, _ => Float32 (op binary32 (as_float32 a) (as_float32 b))
  end.

Definition num_add : number -> number -> number := num_binop fl_add.
Definition num_sub : number -> number -> number := num_binop fl_sub.
Definition num_div : number -> number -> number := num_binop fl_div.

(** ** Sample arithmetic *)

(** The element type of a stored pixel array: an integer of [dt_bits]
    bits, signed or not. *)
Record dtype : Type := { dt_signed : bool; dt_bits : Z }.

Definition uint8 : dtype := {| dt_signed := false; dt_bits := 8 |}.
Definition int16 : dtype := {| dt_signed := true; dt_bits := 16 |}.

(** The value of an integer in the type: arithmetic on the scalars of an
    integer array wraps around. *)
Definition wrap (t : dtype) (n : Z) : Z :=
  if dt_signed t
  then (n + 2 ^ (dt_bits t - 1)) mod 2 ^ dt_bits t - 2 ^ (dt_bits t - 1)
  else n mod 2 ^ dt_bits t.

(** The decoded [ds.pixel_array]: integer samples of one type. *)
Record pixel_array : Type := { pa_dtype : dtype; pa_samples : ndarray Z }.

(** The samples as the array holds them, each within its type. *)
Definition decoded (pa : pixel_array) : ndarray Z :=
  nd_map (wrap (pa_dtype pa)) (pa_samples pa).

(** [np.clip(x, lo, hi)] on one float sample: the minimum with [hi] of the
    maximum with [lo], where a NaN sample stays and a NaN bound makes the
    result NaN. *)
Definition clip_max (a b : spec_float) : spec_float :=
  if fl_is_nan a then a else if fl_lt b a then a else b.
Definition clip_min (a b : spec_float) : spec_float :=
  if fl_is_nan a then a else if fl_lt a b then a else b.
Definition np_clip (x lo hi : spec_float) : spec_float :=
  clip_min (clip_max x lo) hi.

(** One step of the reductions [np.min] and [np.max] over floats: a NaN
    goes through. *)
Definition np_minimum (a b : spec_float) : spec_float :=
  if fl_le a b || fl_is_nan a then a else b.
Definition np_maximum (a b : spec_float) : spec_float :=
  if fl_le b a || fl_is_nan a then a else b.

(** [np.min] and [np.max] over all samples, in index order; an empty array
    is a [ValueError]. *)
Definition reduce {A : Type} (f : A -> A -> A) (a : ndarray A) : result A :=
  match nd_leaves a with
  | [] => Raise ValueError
  | x :: xs => Ok (List.fold_left f xs x)
  end.

Definition np_min (a : ndarray spec_float) : result spec_float := reduce np_minimum a.
Definition np_max (a : ndarray spec_float) : result spec_float := reduce np_maximum a.

(** The integer part of a float (truncation toward zero); none for an
    infinity or NaN. *)
Definition fl_trunc (x : spec_float) : option Z :=
  match x with
  | S754_zero _ => Some 0
  | S754_finite s m e =>
      let v := if 0 <=? e then Zpos m * 2 ^ e else Z.quot (Zpos m) (2 ^ (- e)) in
      Some (if s then - v else v)
  | _ => None
  end.

(** ** PixelPipeline: the windowing stages of [image_data] *)

(** A value of [request.args.get(name)], by what the route does with it:
    absent ([None]), the empty string, a string [float()] converts (a
    numeral, [inf] or [nan], given by its value), or a string [float()]
    rejects. *)
Inductive query_arg : Type :=
| ArgAbsent
| ArgEmpty
| ArgFloat (x : spec_float)
| ArgOther.

(** A decimal-string dataset element, decoded by [pydicom] to a float (or
    to several): one value, or a multi-valued one. *)
Inductive ds_number : Type :=
| DSingle (x : spec_float)
| DMulti (items : list spec_float).

(** What [dcmread] gives the viewer. [PixelData] is the decoded
    [pixel_array] when the element is present. *)
Record image_file : Type := {
  PixelData : option pixel_array;
  NumberOfFrames : option Z;
  RescaleSlope : option spec_float;
  RescaleIntercept : option spec_float;
  WindowLevel : option ds_number;
  WindowWidth : option ds_number
}.

(** Frame selection (lines 385-394). *)
Definition select_frame (ds : image_file) (pixel_array_raw : ndarray Z)
    : result (ndarray Z) :=
  let num_frames := match NumberOfFrames ds with Some n => n | None => 1 end in
  if (1 <? num_frames) && (2 <? ndim pixel_array_raw)
  then nd_first pixel_array_raw
  else Ok pixel_array_raw.

(** [astype(np.float32)] (lines 390 and 394). *)
Definition astype_float32 (a : ndarray Z) : ndarray spec_float :=
  nd_map (fl_of_Z binary32) a.

(** Rescale (lines 397-400): a [float32] array times and plus a Python
    float stays [float32]. *)
Definition rescale (ds : image_file) (pixel_array_orig : ndarray spec_float)
    : ndarray spec_float :=
  match RescaleSlope ds, RescaleIntercept ds with
  | Some slope, Some intercept =>
      let rescale_slope := Float64 (py_float slope) in
      let rescale_intercept := Float64 (py_float intercept) in
      nd_map (fun x => fl_add binary32
                         (fl_mul binary32 x (as_float32 rescale_slope))
                         (as_float32 rescale_intercept))
        pixel_array_orig
  | _, _ => pixel_array_orig
  end.

(** [ds.get(name, None)], first value of a multi-valued element
    (lines 405-411). *)
Definition first_value (v : option ds_number) : result (option number) :=
  match v with
  | None => Ok None
  | Some (DSingle x) => Ok (Some (Float64 (py_float x)))
  | Some (DMulti (x :: _)) => Ok (Some (Float64 (py_float x)))
  | Some (DMulti []) => Raise IndexError
  end.

(** [float(request.args.get(n, default)) if request.args.get(n) else default]
    (lines 413-414). *)
Definition override (arg : query_arg) (default : option number)
    : result (option number) :=
  match arg with
  | ArgFloat x => Ok (Some (Float64 (py_float x)))
  | ArgOther => Raise ValueError
  | ArgAbsent | ArgEmpty => Ok default
  end.

(** Lines 417-421: when either of the two is still [None], both are
    computed from the samples, from the [np.float32] scalars [np.min] and
    [np.max] return. *)
Definition determine_window (pixel_array_processed : ndarray spec_float)
    (wl ww : option number) : result (number * number) :=
  match wl, ww with
  | Some wl, Some ww => Ok (wl, ww)
  | _, _ =>
      let+ min_pixel := np_min pixel_array_processed in
      let+ max_pixel := np_max pixel_array_processed in
      let min_pixel := Float32 min_pixel in
      let max_pixel := Float32 max_pixel in
      let wl := num_div (num_add min_pixel max_pixel) (Float64 (fl_of_Z binary64 2)) in
      let ww :=
        if fl_lt fl_zero (num_value (num_sub max_pixel min_pixel))
        then num_sub max_pixel min_pixel
        else Float64 (fl_of_Z binary64 1) in
      Ok (wl, ww)
  end.

(** Lines 424-431 on one sample of the [float32] array: an element of a
    [float32] array in the linear branch, of the [float64] array
    [np.where] builds in the other. *)
Definition apply_window (wl ww : number) (x : spec_float) : number :=
  if fl_lt fl_zero (num_value ww) then
    let two := Float64 (fl_of_Z binary64 2) in
    let min_val := num_sub wl (num_div ww two) in
    let max_val := num_add wl (num_div ww two) in
    let x := np_clip x (as_float32 min_val) (as_float32 max_val) in
    Float32
      (fl_mul binary32
         (fl_div binary32 (fl_sub binary32 x (as_float32 min_val))
            (as_float32 (num_sub max_val min_val)))
         (as_float32 (Float64 (fl_of_Z binary64 255))))
  else
    if fl_le (as_float32 wl) x
    then Float64 (fl_of_Z binary64 255)
    else Float64 (fl_of_Z binary64 0).

Section PixelPipeline.

(** What the conversion of a float to [np.uint8] gives where C leaves it
    undefined (NaN, and any value outside the type): a byte that depends
    on the platform. *)
Variable uint8_of_nan : Z.

(** [astype(np.uint8)] on one sample: truncation toward zero. *)
Definition to_uint8 (x : spec_float) : Z :=
  match fl_trunc x with
  | Some v => if in_range 0 255 v then v else uint8_of_nan mod 256
  | None => uint8_of_nan mod 256
  end.

(** Line 433: the final clip, in the type of the array, and the cast to 8
    bits. *)
Definition to_display (y : number) : Z :=
  to_uint8 (np_clip (num_value y) (fl_of_Z (num_format y) 0)
              (fl_of_Z (num_format y) 255)).

(** Windowing of a whole array (lines 424-433). *)
Definition window_array (wl ww : number) (a : ndarray spec_float) : ndarray Z :=
  nd_map (fun x => to_display (apply_window wl ww x)) a.

(** The windowing stages of the [try] block of [image_data] (lines 373-433):
    the 8-bit array handed to the enhancement and photometric stages, and
    the effective level and width. [abort(400)] inside the block raises an
    [HTTPException]. *)
Definition image_data_try (ds : image_file) (wl_arg ww_arg : query_arg)
    : result (ndarray Z * number * number) :=
  match PixelData ds with
  | None => Raise HTTPException
  | Some pixel_array_raw =>
      let+ pixel_array_orig := select_frame ds (decoded pixel_array_raw) in
      let pixel_array_orig := astype_float32 pixel_array_orig in
      let pixel_array_orig := rescale ds pixel_array_orig in
      let pixel_array_processed := pixel_array_orig in
      let+ default_wl := first_value (WindowLevel ds) in
      let+ default_ww := first_value (WindowWidth ds) in
      let+ wl := override wl_arg default_wl in
      let+ ww := override ww_arg default_ww in
      let+ window := determine_window pixel_array_processed wl ww in
      let '(wl, ww) := window in
      Ok (window_array wl ww pixel_array_processed, wl, ww)
  end.

End PixelPipeline.

(** *** The default window of [image_metadata] *)

(** Lines 557-560 on the scalars of an integer array: the sum and the
    difference are integers of the type of the array and wrap around; the
    division by [2.0] and the final [float()] are binary64. *)
Definition integer_window (t : dtype) (min_pixel max_pixel : Z)
    : spec_float * spec_float :=
  let default_wl :=
    fl_div binary64 (fl_of_Z binary64 (wrap t (min_pixel + max_pixel)))
      (fl_of_Z binary64 2) in
  let default_ww :=
    if 0 <? wrap t (max_pixel - min_pixel)
    then fl_of_Z binary64 (wrap t (max_pixel - min_pixel))
    else fl_of_Z binary64 1 in
  (default_wl, default_ww).

(** The same lines on the scalars of a [float64] array. *)
Definition float_window (min_pixel max_pixel : spec_float)
    : spec_float * spec_float :=
  let default_wl :=
    fl_div binary64 (fl_add binary64 min_pixel max_pixel) (fl_of_Z binary64 2) in
  let default_ww :=
    if fl_lt fl_zero (fl_sub binary64 max_pixel min_pixel)
    then fl_sub binary64 max_pixel min_pixel
    else fl_of_Z binary64 1 in
  (default_wl, default_ww).

(** The [try] block of [image_metadata] (lines 528-570). [ds.pixel_array]
    is read first, so a dataset without pixel data raises there. The
    samples keep their integer type unless they are rescaled: an integer
    array times a Python float is a [float64] array. *)
Definition image_metadata_try (ds : image_file) : result (spec_float * spec_float) :=
  match PixelData ds with
  | None => Raise AttributeError
  | Some pixel_array_raw =>
      let+ pixel_array_for_minmax := select_frame ds (decoded pixel_array_raw) in
      let+ default_wl := first_value (WindowLevel ds) in
      let+ default_ww := first_value (WindowWidth ds) in
      match default_wl, default_ww with
      | Some default_wl, Some default_ww =>
          Ok (num_value default_wl, num_value default_ww)
      | _, _ =>
          match RescaleSlope ds, RescaleIntercept ds with
          | Some slope, Some intercept =>
              let rescale_slope := py_float slope in
              let rescale_intercept := py_float intercept in
              let pixel_array :=
                nd_map (fun n => fl_add binary64
                                   (fl_mul binary64 (fl_of_Z binary64 n) rescale_slope)
                                   rescale_intercept)
                  pixel_array_for_minmax in
              let+ min_pixel := np_min pixel_array in
              let+ max_pixel := np_max pixel_array in
              Ok (float_window min_pixel max_pixel)
          | _, _ =>
              let+ min_pixel := reduce Z.min pixel_array_for_minmax in
              let+ max_pixel := reduce Z.max pixel_array_for_minmax in
              Ok (integer_window (pa_dtype pixel_array_raw) min_pixel max_pixel)
          end
      end
  end.

(** ** PathResolver *)

Fixpoint split_on (sep : ascii) (s : string) : list string :=
  match s with
  | EmptyString => [EmptyString]
  | String c s' =>
      if Ascii.eqb c sep then EmptyString :: split_on sep s'
      else match split_on sep s' with
           | h :: t => String c h :: t
           | [] => [String c EmptyString]
           end
  end.

(** One component of [posixpath.normpath]; [new_comps] is kept in reverse. *)
Definition normpath_step (initial_slashes : bool) (new_comps : list string)
    (comp : string) : list string :=
  if String.eqb comp "" || String.eqb comp "." then new_comps
  else if negb (String.eqb comp "..")
          || (negb initial_slashes && match new_comps with [] => true | _ => false end)
          || match new_comps with c :: _ => String.eqb c ".." | [] => false end
  then comp :: new_comps
  else match new_comps with
       | _ :: rest => rest
       | [] => []
       end.

(** [posixpath.normpath]: the canonical form of a path on a file system
    without symbolic links. *)
Definition normpath (path : string) : string :=
  let initial_slashes :=
    if String.prefix "/" path
    then if String.prefix "//" path && negb (String.prefix "///" path) then "//" else "/"
    else "" in
  let comps := split_on "/"%char path in
  let new_comps :=
    List.fold_left (normpath_step (negb (String.eqb initial_slashes ""))) comps [] in
  let path := initial_slashes +:+ String.concat "/" (List.rev new_comps) in
  if String.eqb path "" then "." else path.

Inductive fs_op : Type :=
| FsExists (path : string)
| FsRead (path : string).

Inductive response : Type :=
| Abort (status : Z)
| Windowed (pixels : ndarray Z) (wl ww : number)
| DefaultWindow (default_wl default_ww : spec_float).

Section Viewer.

Variable RECEIVED_DICOM_ROOT : string.

(** [os.path.realpath]: the canonical path, as the file system resolves
    it. *)
Variable realpath : string -> string.

(** The byte a cast of NaN to [np.uint8] gives on the platform. *)
Variable uint8_of_nan : Z.

Definition resolve_dicom_path_for_viewer (db_path : string) : string :=
  if os_path_isabs db_path
  then realpath db_path
  else realpath (os_path_join RECEIVED_DICOM_ROOT db_path).

(** The route [/image_data/<path>], with the files under their canonical
    paths, and the file operations it performs in order. An exception of
    the [try] block ends in [abort(500)]. *)
Definition image_data (files : gmap string image_file) (filename_from_db : string)
    (wl_arg ww_arg : query_arg) : response * list fs_op :=
  let full_dicom_path := resolve_dicom_path_for_viewer filename_from_db in
  if negb (String.prefix RECEIVED_DICOM_ROOT full_dicom_path) then (Abort 403, [])
  else
    match files !! full_dicom_path with
    | None => (Abort 404, [FsExists full_dicom_path])
    | Some ds =>
        (match image_data_try uint8_of_nan ds wl_arg ww_arg with
         | Ok (pixels, wl, ww) => Windowed pixels wl ww
         | Raise _ => Abort 500
         end,
         [FsExists full_dicom_path; FsRead full_dicom_path])
    end.

(** The route [/image_metadata/<path>]. *)
Definition image_metadata (files : gmap string image_file) (filename_from_db : string)
    : response * list fs_op :=
  let full_dicom_path := resolve_dicom_path_for_viewer filename_from_db in
  if negb (String.prefix RECEIVED_DICOM_ROOT full_dicom_path) then (Abort 403, [])
  else
    match files !! full_dicom_path with
    | None => (Abort 404, [FsExists full_dicom_path])
    | Some ds =>
        (match image_metadata_try ds with
         | Ok (default_wl, default_ww) => DefaultWindow default_wl default_ww
         | Raise _ => Abort 500
         end,
         [FsExists full_dicom_path; FsRead full_dicom_path])
    end.

End Viewer.

(** The binarization of the windowing stage as the specification words
    it: a sample at or above the level maps to 255, any other to 0. The
    samples are [float32], and so is the level they are compared with. *)
Definition binarize (wl : number) (x : spec_float) : Z :=
  if fl_le (as_float32 wl) x then 255 else 0.

(** A canonical path lies within the root when it is the root or continues
    it after a separator. *)
Definition within_root (root path : string) : bool :=
  String.eqb path root || String.prefix (root +:+ "/") path.

(** ** Vocabulary of the windowing properties *)

(** The place of a float in the order of its format: sign class, then
    exponent, then mantissa. *)
Definition fl_rank (x : spec_float) : Z * Z * Z :=
  match x with
  | S754_infinity true => (-2, 0, 0)
  | S754_finite true m e => (-1, - e, - Zpos m)
  | S754_zero _ | S754_nan => (0, 0, 0)
  | S754_finite false m e => (1, e, Zpos m)
  | S754_infinity false => (2, 0, 0)
  end.

Definition lex_compare (p q : Z * Z * Z) : comparison :=
  let '(a1, a2, a3) := p in
  let '(b1, b2, b3) := q in
  match a1 ?= b1 with
  | Eq => match a2 ?= b2 with
          | Eq => a3 ?= b3
          | c => c
          end
  | c => c
  end.

Definition lex_lt (p q : Z * Z * Z) : Prop :=
  let '(a1, a2, a3) := p in
  let '(b1, b2, b3) := q in
  a1 < b1 \/ (a1 = b1 /\ (a2 < b2 \/ (a2 = b2 /\ a3 < b3))).

Definition fl_is_finite (x : spec_float) : bool :=
  match x with
  | S754_zero _ | S754_finite _ _ _ => true
  | _ => false
  end.

(** The rescaled sample as the specification words it: the stored integer
    as a [float32], times the slope plus the intercept when the dataset has
    both. *)
Definition rescaled_sample (ds : image_file) (n : Z) : spec_float :=
  match RescaleSlope ds, RescaleIntercept ds with
  | Some slope, Some intercept =>
      fl_add binary32
        (fl_mul binary32 (fl_of_Z binary32 n) (fl_cast binary32 (py_float slope)))
        (fl_cast binary32 (py_float intercept))
  | _, _ => fl_of_Z binary32 n
  end.

(** [m] is the minimum (the maximum) of the samples as a NumPy reduction
    gives it: NaN when a sample is NaN, otherwise one of the samples, with
    no sample below (above) it. *)
Definition is_minimum (m : spec_float) (xs : list spec_float) : Prop :=
  if existsb fl_is_nan xs then fl_is_nan m = true
  else In m xs /\ Forall (fun x => fl_le m x = true) xs.

Definition is_maximum (m : spec_float) (xs : list spec_float) : Prop :=
  if existsb fl_is_nan xs then fl_is_nan m = true
  else In m xs /\ Forall (fun x => fl_le x m = true) xs.

(** The computed default window of a [float32] array with the extremes
    [min_pixel] and [max_pixel]: the midpoint, and the full range or 1.0. *)
Definition midpoint (min_pixel max_pixel : spec_float) : number :=
  Float32 (fl_div binary32 (fl_add binary32 min_pixel max_pixel) (fl_of_Z binary32 2)).

Definition full_range (min_pixel max_pixel : spec_float) : number :=
  if fl_lt fl_zero (fl_sub binary32 max_pixel min_pixel)
  then Float32 (fl_sub binary32 max_pixel min_pixel)
  else Float64 (fl_of_Z binary64 1).

(** The window as the [float32] samples meet it. Half the width is
    computed in the type of the width; a bound is computed in binary64 and
    then converted when level and width are Python floats, in binary32
    otherwise. *)
Definition half_width (ww : number) : number :=
  match ww with
  | Float64 w => Float64 (fl_div binary64 w (fl_of_Z binary64 2))
  | Float32 w => Float32 (fl_div binary32 w (fl_of_Z binary32 2))
  end.

Definition window_bound (op : format -> spec_float -> spec_float -> spec_float)
    (wl ww : number) : number :=
  match wl, half_width ww with
  | Float64 l, Float64 h => Float64 (op binary64 l h)
  | _, h => Float32 (op binary32 (as_float32 wl) (as_float32 h))
  end.

Definition window_low (wl ww : number) : spec_float :=
  as_float32 (window_bound fl_sub wl ww).

Definition window_high (wl ww : number) : spec_float :=
  as_float32 (window_bound fl_add wl ww).

(** The divisor: the width between the two bounds, before they are
    converted. *)
Definition window_span (wl ww : number) : spec_float :=
  match window_bound fl_add wl ww, window_bound fl_sub wl ww with
  | Float64 hi, Float64 lo => fl_cast binary32 (fl_sub binary64 hi lo)
  | hi, lo => fl_sub binary32 (as_float32 hi) (as_float32 lo)
  end.

(** The clipped sample [c] rescaled linearly to [0, 255], in [float32]. *)
Definition linear_rescale (lo span c : spec_float) : spec_float :=
  fl_mul binary32 (fl_div binary32 (fl_sub binary32 c lo) span) (fl_of_Z binary32 255).

(** The dataset without its window elements. *)
Definition without_window (ds : image_file) : image_file :=
  {| PixelData := PixelData ds;
     NumberOfFrames := NumberOfFrames ds;
     RescaleSlope := RescaleSlope ds;
     RescaleIntercept := RescaleIntercept ds;
     WindowLevel := None;
     WindowWidth := None |}.

(** ** Vocabulary of the catalog properties *)

(** The natural key a resolver looks up: the identifier the extractor
    reads, or the sentinel followed by [str(ds.SOPInstanceUID)] when that is
    empty ([None] when the attribute needed for the fallback is absent). *)
Definition natural_key (py_repr_seq : seq_kind -> list scalar -> string)
    (field fallback : string) (ds : dataset) : option string :=
  let v := get_str (ds_get ds field PyNone) in
  if String.eqb v ""
  then option_map (fun sop => fallback +:+ py_str_value py_repr_seq sop)
         (ds !! "SOPInstanceUID")
  else Some v.

(** The table after one more row. *)
Definition extend {R : Type} (t : table R) (r : R) : table R :=
  {| tbl_rows := tbl_rows t ++ [r]; tbl_next := tbl_next t + 1 |}.

(** What a refused insert leaves behind. From the world [w] the connection
    reaches [w'] with the statements of the other connections used up to
    [rest], and the rows of the four tables in [w'] are the rows of
    [committed], the store the insert was tried on: this connection added
    no row to any table. Only the log may have grown. *)
Definition refused (w w' : world) (committed : database)
    (rest : list (database -> database)) : Prop :=
  others w' = rest /\
  fs w' = fs w /\
  (exists extra, log w' = (log w ++ extra)%list) /\
  tbl_rows (patient (db w')) = tbl_rows (patient committed) /\
  tbl_rows (study (db w')) = tbl_rows (study committed) /\
  tbl_rows (series (db w')) = tbl_rows (series committed) /\
  tbl_rows (image (db w')) = tbl_rows (image committed).

(** The world after the second [except] clause of [save_metadata] has
    logged the exception [e]: one more ERROR record, nothing else. *)
Definition with_error_record (path : string) (e : pyexn) (w : world) : world :=
  {| db := db w;
     log := (log w ++ [(ERROR, "Terjadi kesalahan saat menyimpan metadata untuk '"
                               +:+ path +:+ "': " +:+ exn_name e)])%list;
     fs := fs w;
     others := others w |}.

(** Number of rows of a table under a natural key. *)
Definition count_key {R : Type} (key : R -> string) (k : string) (t : table R) : nat :=
  length (List.filter (fun r => String.eqb (key r) k) (tbl_rows t)).

(** The dataset is catalogued in a store under the three keys: each natural
    key is stored under its key, and the SOP instance identifier, when there
    is one, has an Image row. *)
Definition catalogued (py_repr_seq : seq_kind -> list scalar -> string)
    (ds : dataset) (keys : Z * Z * Z) (d : database) : Prop :=
  let '(patient_prkey, study_prkey, series_prkey) := keys in
  (exists key, natural_key py_repr_seq "PatientID" "UNKNOWN_PATIENT_" ds = Some key /\
     select_prkey Patient.patient_id Patient.patient_prkey key (patient d)
       = Some patient_prkey) /\
  (exists key, natural_key py_repr_seq "StudyInstanceUID" "UNKNOWN_STUDY_" ds = Some key /\
     select_prkey Study.study_instance_uid Study.study_prkey key (study d)
       = Some study_prkey) /\
  (exists key, natural_key py_repr_seq "SeriesInstanceUID" "UNKNOWN_SERIES_" ds = Some key /\
     select_prkey Series.series_instance_uid Series.series_prkey key (series d)
       = Some series_prkey) /\
  (get_str (ds_get ds "SOPInstanceUID" PyNone) <> "" ->
   exists z, select_prkey Image.sop_instance_uid Image.image_prkey
               (get_str (ds_get ds "SOPInstanceUID" PyNone)) (image d) = Some z).

(** The directory name as the specification words it: the AccessionNumber
    read by the string extractor, every character other than alphanumerics,
    [-] and [_] removed, and the SOP instance identifier when nothing is
    left ([None] when the dataset has no such attribute to fall back on). *)
Definition directoryFor_spec (py_repr_seq : seq_kind -> list scalar -> string)
    (ds : dataset) : option string :=
  let sanitized :=
    filter_string is_safe_char (get_str (ds_get ds "AccessionNumber" PyNone)) in
  if String.eqb sanitized ""
  then option_map (py_str_value py_repr_seq) (ds !! "SOPInstanceUID")
  else Some sanitized.

Fixpoint all_string (f : ascii -> bool) (s : string) : bool :=
  match s with
  | EmptyString => true
  | String c s' => f c && all_string f s'
  end.

(** ** [os.path.relpath] *)

(** [[x for x in path.split(sep) if x]]. *)
Definition path_components (path : string) : list string :=
  List.filter (fun x => negb (String.eqb x "")) (split_on "/"%char path).

(** [len(commonprefix([a, b]))] on two lists of components. *)
Fixpoint common_prefix_length (a b : list string) : nat :=
  match a, b with
  | x :: a', y :: b' => if String.eqb x y then S (common_prefix_length a' b') else O
  | _, _ => O
  end.

(** [posixpath.abspath], given the working directory. *)
Definition os_path_abspath (getcwd path : string) : string :=
  if String.prefix "/" path then normpath path
  else normpath (os_path_join getcwd path).

(** [posixpath.relpath(path, start)]. *)
Definition os_path_relpath (getcwd path start : string) : result string :=
  if String.eqb path "" then Raise ValueError
  else
    let start_list := path_components (os_path_abspath getcwd start) in
    let path_list := path_components (os_path_abspath getcwd path) in
    let i := common_prefix_length start_list path_list in
    let rel_list :=
      (List.repeat ".." (length start_list - i) ++ List.skipn i path_list)%list in
    match rel_list with
    | [] => Ok "."
    | a :: p => Ok (List.fold_left os_path_join p a)
    end.

(** [path.split(os.sep)[-1]]. *)
Definition last_component (path : string) : string :=
  List.last (split_on "/"%char path) "".

(** A name that [normpath] keeps as one component: not empty, not [.] or
    [..], and without a separator. *)
Definition is_plain_component (c : string) : bool :=
  negb (String.eqb c "") && negb (String.eqb c ".") && negb (String.eqb c "..")
  && all_string (fun a => negb (Ascii.eqb a "/")) c.

(** The absolute path with the given components. *)
Definition absolute_path (comps : list string) : string :=
  "/" +:+ String.concat "/" comps.

Definition no_slash (s : string) : bool :=
  all_string (fun a => negb (Ascii.eqb a "/")) s.

(** ** StoreHandler (dicom_server.py, [handle_store]) *)

Section StoreHandler.

(** [RECEIVED_DIR] of [dicom_server.py] and [RECEIVED_DICOM_ROOT] of
    [db_handler.py]. *)
Variable RECEIVED_DIR : string.
Variable RECEIVED_DICOM_ROOT : string.
Variable py_repr_seq : seq_kind -> list scalar -> string.

(** The working directory of the process. *)
Variable getcwd : string.

(** [os.makedirs(path, exist_ok=True)] and
    [ds.save_as(path, write_like_original=False)], as the file system and
    [pydicom] carry them out. *)
Variable makedirs : string -> M unit.
Variable save_as : dataset -> string -> M unit.

(** The C-STORE handler (lines 43-88), by the status it answers with.
    [ds.file_meta = event.file_meta] changes no element of the dataset. The
    text of an exception is its class name, as in [save_metadata]. Files are
    found under the path string they were written under. *)
Definition handle_store (ds : dataset) : M Z :=
  try_except
    (let* accession_number_safe := handle_store_directory py_repr_seq ds in
     let study_dir := os_path_join RECEIVED_DIR accession_number_safe in
     makedirs study_dir ;;
     logging DEBUG ("Memastikan direktori studi ada: " +:+ study_dir) ;;
     let* sop := ds_attr ds "SOPInstanceUID" in
     let filepath_absolute :=
       os_path_join study_dir (py_str_value py_repr_seq sop +:+ ".dcm") in
     save_as ds filepath_absolute ;;
     logging INFO ("Berhasil menerima dan menyimpan file DICOM: "
                   +:+ filepath_absolute) ;;
     try_except
       (let* filepath_relative_for_db :=
          lift (os_path_relpath getcwd filepath_absolute RECEIVED_DIR) in
        save_metadata RECEIVED_DICOM_ROOT py_repr_seq filepath_relative_for_db ;;
        logging INFO ("Metadata untuk " +:+ last_component filepath_absolute
                      +:+ " berhasil disimpan ke database menggunakan jalur relatif: "
                      +:+ filepath_relative_for_db) ;;
        ret 0x0000)
       (fun e =>
          logging ERROR ("Gagal menyimpan metadata DICOM ke database untuk "
                         +:+ last_component filepath_absolute +:+ ": " +:+ exn_name e) ;;
          ret 0xC001))
    (fun e =>
       logging ERROR ("Terjadi exception tak tertangani saat memproses C-STORE request: "
                      +:+ exn_name e) ;;
       ret 0xC210).

End StoreHandler.

(** ** Study routes of the viewer (dicom_viewer.py)

    A route is modelled by the page it answers with and the messages it
    flashes; its log records are left out. Each SQL statement is given by
    what it finds: the store as committed when it runs, or the exception
    [psycopg2] raises on the way (connecting included). A result row is kept
    as the joined rows it was selected from. *)

Inductive page : Type :=
| RedirectTo (flashed : list (string * string)) (endpoint : string)
    (values : list (string * string))
| StudyViewer (flashed : list (string * string))
    (study : option (Study.row * Patient.row))
    (images : list (Image.row * Series.row))
    (error : option string)
    (initial_image_to_load : option string)
| AbortPage (status : Z).

(** [study st JOIN patient p ON st.patient_prkey = p.patient_prkey]. *)
Definition study_join_patient (d : database) : list (Study.row * Patient.row) :=
  List.flat_map
    (fun st =>
       List.map (fun p => (st, p))
         (List.filter (fun p => Study.patient_prkey st =? Patient.patient_prkey p)
            (tbl_rows (patient d))))
    (tbl_rows (study d)).

(** [image i JOIN series s ON i.series_prkey = s.series_prkey
     JOIN study st ON s.study_prkey = st.study_prkey
     WHERE st.study_instance_uid = %s]; the columns selected are of [i] and
    [s]. *)
Definition images_of_study (study_instance_uid : string) (d : database)
    : list (Image.row * Series.row) :=
  List.flat_map
    (fun i =>
       List.flat_map
         (fun s =>
            List.map (fun _ => (i, s))
              (List.filter
                 (fun st => (Series.study_prkey s =? Study.study_prkey st)
                            && String.eqb (Study.study_instance_uid st) study_instance_uid)
                 (tbl_rows (study d))))
         (List.filter (fun s => Image.series_prkey i =? Series.series_prkey s)
            (tbl_rows (series d))))
    (tbl_rows (image d)).

(** [not x] on a string or [None]. *)
Definition py_not (x : option string) : bool :=
  match x with
  | None => true
  | Some s => String.eqb s ""
  end.

Section StudyRoutes.

(** The order in which the store returns the rows of each of the three
    statements that fetch more than a key: as [ORDER BY] and the planner
    decide. *)
Variable order_studies : list (Study.row * Patient.row) -> list (Study.row * Patient.row).
Variable order_details : list (Study.row * Patient.row) -> list (Study.row * Patient.row).
Variable order_images : list (Image.row * Series.row) -> list (Image.row * Series.row).

Definition _fetch_study_details (details images : result database)
    (study_instance_uid : string)
    : option (Study.row * Patient.row) * list (Image.row * Series.row) * option string :=
  match details with
  | Raise e => (None, [], Some ("Failed to load study details: " +:+ exn_name e))
  | Ok d =>
      let study_info :=
        List.head
          (order_details
             (List.filter
                (fun r => String.eqb (Study.study_instance_uid (fst r)) study_instance_uid)
                (study_join_patient d))) in
      match study_info with
      | Some _ =>
          match images with
          | Raise e =>
              (study_info, [], Some ("Failed to load study details: " +:+ exn_name e))
          | Ok d' =>
              (study_info, order_images (images_of_study study_instance_uid d'), None)
          end
      | None =>
          (None, [], Some ("Study with UID '" +:+ study_instance_uid +:+ "' not found."))
      end
  end.

Definition view_study (details images : result database) (study_instance_uid : string)
    : page :=
  let '(study_info, images_in_study, error_message) :=
    _fetch_study_details details images study_instance_uid in
  if match study_info with None => true | Some _ => false end && py_not error_message
  then AbortPage 404
  else StudyViewer [] study_info images_in_study error_message None.

(** [request.args.get(name, '')]. *)
Definition args_get (args : gmap string string) (name : string) : string :=
  match args !! name with
  | Some v => v
  | None => ""
  end.

(** The [WHERE] clause of the EMR query. *)
Definition emr_criteria (patient_id accession_number : string)
    (r : Study.row * Patient.row) : bool :=
  (String.eqb patient_id "" || String.eqb (Patient.patient_id (snd r)) patient_id)
  && (String.eqb accession_number ""
      || String.eqb (Study.accession_number (fst r)) accession_number).

(** The image the viewer opens first (lines 305-319 of [studyid]). *)
Definition initial_image (image_sop_instance_uid : string)
    (images_in_study : list (Image.row * Series.row))
    : list (string * string) * option string :=
  let initial_image_path :=
    if String.eqb image_sop_instance_uid "" then None
    else option_map (fun img => Image.image_path_name (fst img))
           (List.find
              (fun img => String.eqb (Image.sop_instance_uid (fst img)) image_sop_instance_uid)
              images_in_study) in
  let flashed :=
    if negb (String.eqb image_sop_instance_uid "") && py_not initial_image_path
    then [("warning", "Image with SOP Instance UID '" +:+ image_sop_instance_uid
                      +:+ "' not found in study.")]
    else [] in
  (flashed,
   if py_not initial_image_path
   then match images_in_study with
        | img :: _ => Some (Image.image_path_name (fst img))
        | [] => initial_image_path
        end
   else initial_image_path).

Definition studyid (emr details images : result database) (args : gmap string string)
    : page :=
  let patient_id := strip (args_get args "patient_id") in
  let accession_number := strip (args_get args "accession_number") in
  let image_sop_instance_uid := strip (args_get args "image_sop_instance_uid") in
  if String.eqb patient_id "" && String.eqb accession_number "" then
    RedirectTo [("error", "Patient ID or Accession Number (or both) are required "
                        +:+ "for EMR integration link.")] "index" []
  else
    match emr with
    | Raise e =>
        RedirectTo [("error", "An error occurred while trying to link to the study: "
                            +:+ exn_name e)] "index" []
    | Ok d =>
        let results :=
          List.firstn 2
            (order_studies
               (List.filter (emr_criteria patient_id accession_number)
                  (study_join_patient d))) in
        match results with
        | [] =>
            RedirectTo [("error", "No study found for the provided criteria. Patient ID: '"
                                +:+ patient_id +:+ "', Accession Number: '"
                                +:+ accession_number +:+ "'.")]
              "index" [("patient_id", patient_id); ("accession_number", accession_number)]
        | [r] =>
            let study_instance_uid_found := Study.study_instance_uid (fst r) in
            if String.eqb study_instance_uid_found "" then
              RedirectTo [("error", "Study not found.")] "index" []
            else
              let '(study_info, images_in_study, error_message) :=
                _fetch_study_details details images study_instance_uid_found in
              let '(flashed, initial_image_path) :=
                initial_image image_sop_instance_uid images_in_study in
              StudyViewer flashed study_info images_in_study error_message
                initial_image_path
        | _ =>
            RedirectTo [("warning", "Multiple studies found for the provided criteria. "
                                  +:+ "Please refine your search. Patient ID: '"
                                  +:+ patient_id +:+ "', Accession Number: '"
                                  +:+ accession_number +:+ "'.")]
              "index" [("patient_id", patient_id); ("accession_number", accession_number)]
        end
    end.

End StudyRoutes.

(** ** Vocabulary of the catalog invariants *)

(** One table across an ingestion: left as it was, or one more row, under a
    natural key that was not stored, keyed by the next value of the serial. *)
Definition grown {R : Type} (key : R -> string) (prkey : R -> Z) (t t' : table R) : Prop :=
  t' = t \/
  exists r, t' = extend t r /\ select_prkey key prkey (key r) t = None /\
            prkey r = tbl_next t.

(** The store across an ingestion: each table grown, and each new row
    referring to a row of its parent table. *)
Definition ingest_step (d d' : database) : Prop :=
  grown Patient.patient_id Patient.patient_prkey (patient d) (patient d') /\
  grown Study.study_instance_uid Study.study_prkey (study d) (study d') /\
  grown Series.series_instance_uid Series.series_prkey (series d) (series d') /\
  grown Image.sop_instance_uid Image.image_prkey (image d) (image d') /\
  (forall r, study d' = extend (study d) r ->
     exists p, In p (tbl_rows (patient d')) /\
               Patient.patient_prkey p = Study.patient_prkey r) /\
  (forall r, series d' = extend (series d) r ->
     exists s, In s (tbl_rows (study d')) /\
               Study.study_prkey s = Series.study_prkey r) /\
  (forall r, image d' = extend (image d) r ->
     exists s, In s (tbl_rows (series d')) /\
               Series.series_prkey s = Image.series_prkey r).

(** Natural keys and primary keys are unique in a table, and the serial is
    above every primary key handed out. *)
Definition keyed {R : Type} (key : R -> string) (prkey : R -> Z) (t : table R) : Prop :=
  NoDup (List.map key (tbl_rows t)) /\
  NoDup (List.map prkey (tbl_rows t)) /\
  Forall (fun r => prkey r < tbl_next t) (tbl_rows t).

Definition keyed_store (d : database) : Prop :=
  keyed Patient.patient_id Patient.patient_prkey (patient d) /\
  keyed Study.study_instance_uid Study.study_prkey (study d) /\
  keyed Series.series_instance_uid Series.series_prkey (series d) /\
  keyed Image.sop_instance_uid Image.image_prkey (image d).

(** Every Study row refers to a Patient row, every Series row to a Study
    row, every Image row to a Series row. *)
Definition linked_store (d : database) : Prop :=
  (forall s, In s (tbl_rows (study d)) ->
     exists p, In p (tbl_rows (patient d)) /\
               Patient.patient_prkey p = Study.patient_prkey s) /\
  (forall s, In s (tbl_rows (series d)) ->
     exists p, In p (tbl_rows (study d)) /\
               Study.study_prkey p = Series.study_prkey s) /\
  (forall s, In s (tbl_rows (image d)) ->
     exists p, In p (tbl_rows (series d)) /\
               Series.series_prkey p = Image.series_prkey s).

(** ** Vocabulary of the extractor properties *)

(** The first and the last character of a string are not white space. *)
Definition starts_clean (s : string) : bool :=
  match s with
  | EmptyString => true
  | String c _ => negb (is_space c)
  end.

Fixpoint ends_clean (s : string) : bool :=
  match s with
  | EmptyString => true
  | String c EmptyString => negb (is_space c)
  | String _ s' => ends_clean s'
  end.

(** ** Sample data *)

(** The 2x2 array of the windowing example, as stored bytes and as the
    [float32] array the windowing works on. *)
Definition example_pixels : pixel_array :=
  {| pa_dtype := uint8; pa_samples := array2 [[0; 100]; [200; 255]] |}.

Definition example_samples : ndarray spec_float :=
  astype_float32 (decoded example_pixels).

Definition example_image : image_file :=
  {| PixelData := Some example_pixels;
     NumberOfFrames := None;
     RescaleSlope := None;
     RescaleIntercept := None;
     WindowLevel := None;
     WindowWidth := None |}.

(** A CT slice of 16-bit samples with a rescale slope and intercept (the
    rescaled values are -1024, 0, 40 and 1000), a window level of its own
    and no window width. *)
Definition ct_pixels : pixel_array :=
  {| pa_dtype := int16; pa_samples := array2 [[0; 512]; [532; 1012]] |}.

Definition ct_image : image_file :=
  {| PixelData := Some ct_pixels;
     NumberOfFrames := None;
     RescaleSlope := Some (fl_of_Z binary64 2);
     RescaleIntercept := Some (fl_of_Z binary64 (-1024));
     WindowLevel := Some (DSingle (fl_of_Z binary64 40));
     WindowWidth := None |}.

(** The window of the example, level 128 and width 256, as the Python
    floats a caller supplies, and the width 0. *)
Definition level_128 : number := Float64 (fl_of_Z binary64 128).
Definition width_256 : number := Float64 (fl_of_Z binary64 256).
Definition width_0 : number := Float64 (fl_of_Z binary64 0).

(** The Python float [0.3]. *)
Definition width_03 : number :=
  Float64 (fl_div binary64 (fl_of_Z binary64 3) (fl_of_Z binary64 10)).

Definition example_root : string := "/srv/pacs/received_dicom".

(** A file in a sibling directory whose name continues the name of the
    root. *)
Definition sibling_path : string := "/srv/pacs/received_dicom_backup/secret.dcm".

Definition sibling_files : gmap string image_file := {[ sibling_path := example_image ]}.

(** The printed form of sequences used in the examples. *)
Definition example_repr (k : seq_kind) (items : list scalar) : string :=
  "[" +:+ String.concat ", " (List.map py_str items) +:+ "]".

Definition empty_table {R : Type} : table R := {| tbl_rows := []; tbl_next := 1 |}.

Definition empty_world : world :=
  {| db := {| patient := empty_table; study := empty_table;
              series := empty_table; image := empty_table |};
     log := [];
     fs := ∅;
     others := [] |}.

(** A dataset that carries no AccessionNumber element. *)
Definition ds_no_accession : dataset :=
  {[ "SOPInstanceUID" := PyScalar (SStr "1.2.840.1") ]}.

(** A well-formed dataset and the path it is stored under. *)
Definition example_dataset : dataset :=
  list_to_map
    [("PatientID", PyScalar (SStr "P1"));
     ("PatientName", PyScalar (SObj "Doe^Jane" (Raise TypeError)));
     ("StudyInstanceUID", PyScalar (SStr "1.2.3"));
     ("SeriesInstanceUID", PyScalar (SStr "1.2.3.4"));
     ("SOPInstanceUID", PyScalar (SStr "1.2.3.4.5"));
     ("AccessionNumber", PyScalar (SStr "ACC1"));
     ("ImageType", PySeq MultiValue [SStr "ORIGINAL"; SStr "PRIMARY"]);
     ("BitsAllocated", PyScalar (SInt 16 I));
     ("Rows", PyScalar (SInt 512 I));
     ("Columns", PyScalar (SInt 512 I))].

Definition example_path : string := "ACC1/1.2.3.4.5.dcm".

(** The same dataset without its SOP instance identifier. *)
Definition ds_no_sop : dataset := delete "SOPInstanceUID" example_dataset.

(** A dataset whose PatientID is an empty multi-value and whose
    AccessionNumber is blank. *)
Definition ds_blank_ids : dataset :=
  <["PatientID" := PySeq MultiValue []]>
    (<["AccessionNumber" := PyScalar (SStr "  ")]> example_dataset).

(** An empty store on its own, with one file under the root. *)
Definition stored_world (ds : dataset) : world :=
  {| db := db empty_world;
     log := [];
     fs := {[ os_path_join example_root example_path := DicomFile ds ]};
     others := [] |}.

(** Another connection commits a Patient row under [pid]. *)
Definition other_commits_patient (pid : string) (d : database) : database :=
  with_patient d
    (extend (patient d)
       {| Patient.patient_prkey := tbl_next (patient d);
          Patient.patient_id := pid;
          Patient.patient_name := "";
          Patient.patient_birthdate := "";
          Patient.patient_sex := "";
          Patient.character_set := "";
          Patient.patient_path := "" |}).

(** Another connection commits a Study row under [uid], for the patient
    [pk]. *)
Definition other_commits_study (uid : string) (pk : Z) (d : database) : database :=
  with_study d
    (extend (study d)
       {| Study.study_prkey := tbl_next (study d);
          Study.study_instance_uid := uid;
          Study.study_id := "";
          Study.study_date := "";
          Study.study_time := "";
          Study.study_description := "";
          Study.accession_number := uid;
          Study.refer_physician := "";
          Study.modalities_in_study := "";
          Study.series_in_study := "";
          Study.images_in_study := "";
          Study.station_name := "";
          Study.institutional_department_name := "";
          Study.patient_age := "";
          Study.patient_weight := "";
          Study.character_set := "";
          Study.study_path := "";
          Study.patient_prkey := pk;
          Study.institution_name := "";
          Study.frames_in_study := "";
          Study.study_comments := "";
          Study.study_status := 0;
          Study.study_token := "" |}).

(** Another connection commits a Series row under [uid], for the study
    [sk]. *)
Definition other_commits_series (uid : string) (sk : Z) (d : database) : database :=
  with_series d
    (extend (series d)
       {| Series.series_prkey := tbl_next (series d);
          Series.series_instance_uid := uid;
          Series.series_number := "";
          Series.series_date := "";
          Series.series_time := "";
          Series.series_description := "";
          Series.modality := "";
          Series.patient_position := "";
          Series.contrast_bolus_agent := "";
          Series.manufacturer := "";
          Series.model_name := "";
          Series.body_part_examined := "";
          Series.protocol_name := "";
          Series.images_in_series := "";
          Series.frame_of_reference_uid := "";
          Series.localizer_instance_uid := "";
          Series.user_comments := "";
          Series.series_priority := 0;
          Series.series_rate := 0;
          Series.series_review_date := "";
          Series.series_review_time := "";
          Series.series_insertion_date := "";
          Series.character_set := "";
          Series.series_path := "";
          Series.study_instance_uid := "";
          Series.study_prkey := sk;
          Series.frames_in_series := "" |}).

(** Another connection commits nothing before this statement. *)
Definition no_commit (d : database) : database := d.

(** The race of two ingestions of one new patient: nothing lands before
    the lookup of this connection, the row of the other one lands before
    its insert. *)
Definition race_world : world :=
  {| db := db empty_world;
     log := [];
     fs := fs (stored_world example_dataset);
     others := [no_commit; other_commits_patient "P1"] |}.

(** The dataset [save_metadata] resolves for the example file: the decoded
    one with its [Path] element. *)
Definition example_decoded : dataset :=
  <["Path" := PyScalar (SStr example_path)]> example_dataset.

(** The race on the study: the patient is resolved undisturbed (two
    statements), and the Study row of the other connection lands between
    the lookup and the insert of this one. *)
Definition study_race_world : world :=
  {| db := db empty_world;
     log := [];
     fs := fs (stored_world example_dataset);
     others := [no_commit; no_commit; no_commit; other_commits_study "1.2.3" 1] |}.

Definition study_race_patient_resolved : world :=
  snd (get_or_create_patient example_repr example_decoded example_path
         study_race_world).

(** The race on the series: patient and study are resolved undisturbed
    (four statements), and the Series row of the other connection lands
    between the lookup and the insert of this one. *)
Definition series_race_world : world :=
  {| db := db empty_world;
     log := [];
     fs := fs (stored_world example_dataset);
     others := [no_commit; no_commit; no_commit; no_commit; no_commit;
                other_commits_series "1.2.3.4" 1] |}.

Definition series_race_patient_resolved : world :=
  snd (get_or_create_patient example_repr example_decoded example_path
         series_race_world).

Definition series_race_study_resolved : world :=
  snd (get_or_create_study example_repr example_decoded 1 example_path
         series_race_patient_resolved).

(** The store after a first ingestion of the example. *)
Definition ingested_world : world :=
  snd (save_metadata example_root example_repr example_path
         (stored_world example_dataset)).

(** A second instance of the same series, received after the first one
    was ingested. *)
Definition second_dataset : dataset :=
  <["SOPInstanceUID" := PyScalar (SStr "1.2.3.4.6")]> example_dataset.

Definition second_path : string := "ACC1/1.2.3.4.6.dcm".

Definition second_world : world :=
  {| db := db ingested_world;
     log := [];
     fs := <[os_path_join example_root second_path := DicomFile second_dataset]>
             (fs ingested_world);
     others := [] |}.

(** The file system as [handle_store] finds it in the examples: every
    directory can be made, and [save_as] stores the dataset under the
    path. *)
Definition example_makedirs (path : string) : M unit := ret tt.

Definition example_save_as (ds : dataset) (path : string) : M unit :=
  fun w =>
    (Ok tt, {| db := db w; log := log w;
               fs := <[path := DicomFile ds]> (fs w); others := others w |}).

(** The components of [example_root]. *)
Definition example_dirs : list string := ["srv"; "pacs"; "received_dicom"].

(** The world after [save_as] wrote the example. *)
Definition written_world : world :=
  snd (example_save_as example_dataset (os_path_join example_root example_path)
         empty_world).

(** The store the viewer reads in the examples: both instances ingested. *)
Definition viewer_store : database :=
  db (snd (save_metadata example_root example_repr second_path second_world)).

(** The query string [?patient_id=+P1+&image_sop_instance_uid=1.2.3.4.6]. *)
Definition example_args : gmap string string :=
  <["patient_id" := " P1 "]> {[ "image_sop_instance_uid" := "1.2.3.4.6" ]}.

(** The pixel file of the example under its stored path. *)
Definition stored_files : gmap string image_file :=
  {[ absolute_path (example_dirs ++ ["ACC1"; "1.2.3.4.5.dcm"]) := example_image ]}.

(** The example with a blank StudyInstanceUID. *)
Definition ds_blank_study : dataset :=
  <["StudyInstanceUID" := PyScalar (SStr " ")]> example_dataset.

(** * Properties *)

(** ** TagExtractor *)

Lemma get_str_none : get_str PyNone = "".
Proof. reflexivity. Qed.

Lemma get_str_scalar (x : scalar) : get_str (PyScalar x) = strip (py_str x).
Proof. reflexivity. Qed.

Lemma get_str_seq_first (k : seq_kind) (x : scalar) (rest : list scalar) :
  get_str (PySeq k (x :: rest)) = strip (py_str x).
Proof. reflexivity. Qed.

Lemma get_str_seq_empty (k : seq_kind) : get_str (PySeq k []) = "".
Proof. reflexivity. Qed.

Lemma get_int_none : get_int PyNone = Ok 0.
Proof. reflexivity. Qed.

Lemma get_int_seq_empty (k : seq_kind) : get_int (PySeq k []) = Ok 0.
Proof. reflexivity. Qed.

Lemma get_int_seq_first (k : seq_kind) (x : scalar) (rest : list scalar) :
  get_int (PySeq k (x :: rest)) = get_int (PyScalar x).
Proof. reflexivity. Qed.

Lemma get_int_converted (x : scalar) (n : Z) :
  py_int x = Ok n -> get_int (PyScalar x) = Ok n.
Proof. unfold get_int; simpl; intros ->; reflexivity. Qed.

Lemma get_int_value_error (x : scalar) :
  py_int x = Raise ValueError \/ py_int x = Raise TypeError ->
  get_int (PyScalar x) = Ok 0.
Proof. unfold get_int; simpl; intros [-> | ->]; reflexivity. Qed.

(** What [get_int] lets through is exactly what [int()] raised outside
    the two classes of its [except] clause; every other input yields an
    integer. *)
Lemma get_int_raise (value : pyvalue) (e : pyexn) :
  get_int value = Raise e <->
  get_int_try value = Raise e /\ e <> ValueError /\ e <> TypeError.
Proof.
  unfold get_int; split.
  - destruct (get_int_try value) as [n | e']; [discriminate |].
    destruct e'; intros H; inversion H; subst; repeat split; discriminate.
  - intros (-> & Hv & Ht); destruct e; congruence.
Qed.

Example get_int_examples :
  get_int (PyScalar (SStr " 1_6 ")) = Ok 16 /\
  get_int (PyScalar (SStr "-7")) = Ok (-7) /\
  get_int (PyScalar (SStr "1__6")) = Ok 0 /\
  get_int (PyScalar (SStr "abc")) = Ok 0 /\
  get_int py_float_nan = Ok 0 /\
  get_int (PySeq PyTuple []) = Ok 0 /\
  get_str (PyScalar (SInt (-512) I)) = "-512" /\
  get_str (PySeq MultiValue [SStr " CT "; SStr "MR"]) = "CT".
Proof. repeat split; reflexivity. Qed.

(** The no-break space and NEL are stripped by [str.strip()] and skipped by
    [int()]; the separators FS..US are stripped by [str.strip()] only. *)
Example latin1_space_examples :
  get_str (PyScalar (SStr (String "160"%char ("CT" +:+ String "133"%char "")))) = "CT" /\
  get_str (PyScalar (SStr (String "028"%char "12"))) = "12" /\
  get_int (PyScalar (SStr (String "160"%char "12"))) = Ok 12 /\
  get_int (PyScalar (SStr (String "028"%char "12"))) = Ok 0 /\
  get_int (PyScalar (SStr "012")) = Ok 12.
Proof. repeat split; reflexivity. Qed.

(** C7 - the integer extractor does not return on every input: [int()] of
    an infinite float raises [OverflowError], which the [except] clause of
    [get_int] does not name, so the exception leaves the extractor (the
    same value read through a multi-valued field leaves it as well). *)
Theorem get_int_overflow_escapes :
  get_int py_float_inf = Raise OverflowError /\
  get_int (PySeq MultiValue [SObj "inf" (Raise OverflowError)]) = Raise OverflowError.
Proof. split; reflexivity. Qed.

(** ** Floats: the order *)

Lemma SFcompare_rank (a b : spec_float) :
  fl_is_nan a = false -> fl_is_nan b = false ->
  SFcompare a b = Some (lex_compare (fl_rank a) (fl_rank b)).
Proof.
  destruct a as [sa | sa | | sa ma ea], b as [sb | sb | | sb mb eb];
    try discriminate; intros _ _;
    try (destruct sa, sb; reflexivity); try (destruct sa; reflexivity);
    try (destruct sb; reflexivity).
  destruct sa, sb; try reflexivity; cbn [SFcompare fl_rank lex_compare].
  change (-1 ?= -1) with Eq. cbv iota.
  rewrite Z.compare_opp, (Z.compare_antisym ea eb).
  destruct (ea ?= eb); cbn [CompOpp]; reflexivity.
Qed.

Lemma lex_compare_spec (p q : Z * Z * Z) :
  CompareSpec (p = q) (lex_lt p q) (lex_lt q p) (lex_compare p q).
Proof.
  destruct p as [[a1 a2] a3], q as [[b1 b2] b3]. unfold lex_compare, lex_lt.
  destruct (Z.compare_spec a1 b1); [| constructor; lia ..].
  destruct (Z.compare_spec a2 b2); [| constructor; lia ..].
  destruct (Z.compare_spec a3 b3); constructor; [congruence | lia ..].
Qed.

Lemma lex_lt_irrefl (p : Z * Z * Z) : ~ lex_lt p p.
Proof. destruct p as [[a1 a2] a3]. unfold lex_lt. lia. Qed.

Lemma lex_lt_trans (p q r : Z * Z * Z) : lex_lt p q -> lex_lt q r -> lex_lt p r.
Proof.
  destruct p as [[a1 a2] a3], q as [[b1 b2] b3], r as [[c1 c2] c3].
  unfold lex_lt. lia.
Qed.

Lemma lex_lt_asym (p q : Z * Z * Z) : lex_lt p q -> ~ lex_lt q p.
Proof. intros H1 H2. exact (lex_lt_irrefl p (lex_lt_trans _ _ _ H1 H2)). Qed.

Lemma fl_lt_iff (a b : spec_float) :
  fl_lt a b = true <->
  fl_is_nan a = false /\ fl_is_nan b = false /\ lex_lt (fl_rank a) (fl_rank b).
Proof.
  unfold fl_lt, SFltb.
  destruct (fl_is_nan a) eqn:Ea.
  { destruct a; try discriminate. simpl. split; [discriminate | intros [? _]; discriminate]. }
  destruct (fl_is_nan b) eqn:Eb.
  { destruct b; try discriminate. destruct a; simpl;
      (split; [discriminate | intros (_ & ? & _); discriminate]). }
  rewrite (SFcompare_rank a b Ea Eb).
  destruct (lex_compare_spec (fl_rank a) (fl_rank b)) as [H | H | H].
  - split; [discriminate |]. intros (_ & _ & Hlt). rewrite H in Hlt.
    destruct (lex_lt_irrefl _ Hlt).
  - split; [intros _; repeat split; exact H | reflexivity].
  - split; [discriminate |]. intros (_ & _ & Hlt). destruct (lex_lt_asym _ _ H Hlt).
Qed.

Lemma fl_le_iff (a b : spec_float) :
  fl_le a b = true <->
  fl_is_nan a = false /\ fl_is_nan b = false /\ ~ lex_lt (fl_rank b) (fl_rank a).
Proof.
  unfold fl_le, SFleb.
  destruct (fl_is_nan a) eqn:Ea.
  { destruct a; try discriminate. simpl. split; [discriminate | intros [? _]; discriminate]. }
  destruct (fl_is_nan b) eqn:Eb.
  { destruct b; try discriminate. destruct a; simpl;
      (split; [discriminate | intros (_ & ? & _); discriminate]). }
  rewrite (SFcompare_rank a b Ea Eb).
  destruct (lex_compare_spec (fl_rank a) (fl_rank b)) as [H | H | H].
  - split; [| reflexivity]. intros _. repeat split. rewrite H. apply lex_lt_irrefl.
  - split; [| reflexivity]. intros _. repeat split. apply lex_lt_asym, H.
  - split; [discriminate |]. intros (_ & _ & Hn). destruct (Hn H).
Qed.

Lemma lex_lt_total (p q : Z * Z * Z) : lex_lt p q \/ p = q \/ lex_lt q p.
Proof. destruct (lex_compare_spec p q); auto. Qed.

Lemma lex_le_trans (p q r : Z * Z * Z) :
  ~ lex_lt q p -> ~ lex_lt r q -> ~ lex_lt r p.
Proof.
  destruct p as [[a1 a2] a3], q as [[b1 b2] b3], r as [[c1 c2] c3].
  unfold lex_lt. lia.
Qed.

Lemma lex_lt_le_trans (p q r : Z * Z * Z) :
  lex_lt p q -> ~ lex_lt r q -> lex_lt p r.
Proof.
  destruct p as [[a1 a2] a3], q as [[b1 b2] b3], r as [[c1 c2] c3].
  unfold lex_lt. lia.
Qed.

Lemma fl_le_not_lt (a b : spec_float) : fl_le a b = true -> fl_lt b a = false.
Proof.
  intros H. apply fl_le_iff in H as (_ & _ & H).
  destruct (fl_lt b a) eqn:E; [| reflexivity].
  apply fl_lt_iff in E as (_ & _ & E). destruct (H E).
Qed.

Lemma fl_lt_le (a b : spec_float) : fl_lt a b = true -> fl_le a b = true.
Proof.
  intros H. apply fl_lt_iff in H as (Ha & Hb & H). apply fl_le_iff.
  repeat split; try assumption. apply lex_lt_asym, H.
Qed.

Lemma fl_lt_not_lt (a b : spec_float) : fl_lt a b = true -> fl_lt b a = false.
Proof. intros H. apply fl_le_not_lt, fl_lt_le, H. Qed.

Lemma fl_le_trans (a b c : spec_float) :
  fl_le a b = true -> fl_le b c = true -> fl_le a c = true.
Proof.
  intros H1 H2. apply fl_le_iff in H1 as (Ha & Hb & H1).
  apply fl_le_iff in H2 as (_ & Hc & H2). apply fl_le_iff.
  repeat split; try assumption. exact (lex_le_trans _ _ _ H1 H2).
Qed.

Lemma fl_lt_le_trans (a b c : spec_float) :
  fl_lt a b = true -> fl_le b c = true -> fl_lt a c = true.
Proof.
  intros H1 H2. apply fl_lt_iff in H1 as (Ha & Hb & H1).
  apply fl_le_iff in H2 as (_ & Hc & H2). apply fl_lt_iff.
  repeat split; try assumption. exact (lex_lt_le_trans _ _ _ H1 H2).
Qed.

Lemma fl_le_refl (a : spec_float) : fl_is_nan a = false -> fl_le a a = true.
Proof. intros H. apply fl_le_iff. repeat split; try assumption. apply lex_lt_irrefl. Qed.

Lemma fl_le_total (a b : spec_float) :
  fl_is_nan a = false -> fl_is_nan b = false ->
  fl_le a b = false -> fl_le b a = true.
Proof.
  intros Ha Hb H. apply fl_le_iff. repeat split; try assumption.
  intros Hlt. assert (E : fl_le a b = true); [| congruence].
  apply fl_le_iff. repeat split; try assumption. apply lex_lt_asym, Hlt.
Qed.

Lemma fl_le_not_nan (a b : spec_float) :
  fl_le a b = true -> fl_is_nan a = false /\ fl_is_nan b = false.
Proof. intros H. apply fl_le_iff in H as (Ha & Hb & _). split; assumption. Qed.

(** ** Floats: zeros *)

Lemma fl_sub_diag (f : format) (x : spec_float) :
  fl_is_finite x = true -> fl_sub f x x = S754_zero false.
Proof.
  destruct x as [[] | | | s m e]; try discriminate; intros _; try reflexivity.
  unfold fl_sub, SFsub. rewrite Z.sub_diag. reflexivity.
Qed.

Lemma fl_div_zero (f : format) (d : spec_float) :
  fl_lt fl_zero d = true -> fl_div f (S754_zero false) d = S754_zero false.
Proof. destruct d as [| [] | | [] m e]; try discriminate; reflexivity. Qed.

Lemma positive_not_below (x : spec_float) :
  fl_lt x fl_zero = true -> fl_lt fl_zero x = false.
Proof. apply fl_lt_not_lt. Qed.

(** ** Pixel arrays and sample arithmetic *)


Lemma nd_map_map {A B C : Type} (f : A -> B) (g : B -> C) :
  forall a, nd_map g (nd_map f a) = nd_map (fun x => g (f x)) a.
Proof.
  fix IH 1. intros [x | items]; simpl; [reflexivity |].
  f_equal. induction items as [| a items IHitems]; simpl; [reflexivity |].
  f_equal; [apply IH | apply IHitems].
Qed.

Lemma nd_leaves_map {A B : Type} (f : A -> B) :
  forall a, nd_leaves (nd_map f a) = List.map f (nd_leaves a).
Proof.
  fix IH 1. intros [x | items]; simpl; [reflexivity |].
  induction items as [| a items IHitems]; simpl; [reflexivity |].
  rewrite List.map_app, IH. f_equal. exact IHitems.
Qed.

(** The array the windowing works on holds the rescaled samples. *)
Lemma rescale_samples (ds : image_file) (frame : ndarray Z) :
  rescale ds (astype_float32 frame) = nd_map (rescaled_sample ds) frame.
Proof.
  unfold rescale, astype_float32, rescaled_sample.
  destruct (RescaleSlope ds) as [slope |], (RescaleIntercept ds) as [intercept |];
    try reflexivity.
  apply nd_map_map.
Qed.

(** *** [np.clip] *)

Lemma np_clip_below (x lo hi : spec_float) :
  fl_le x lo = true -> fl_lt lo hi = true -> np_clip x lo hi = lo.
Proof.
  intros Hx Hlo. destruct (fl_le_not_nan _ _ Hx) as [Hnx Hnlo].
  unfold np_clip, clip_max, clip_min.
  rewrite Hnx, (fl_le_not_lt _ _ Hx), Hnlo, Hlo. reflexivity.
Qed.

Lemma np_clip_above (x lo hi : spec_float) :
  fl_lt lo hi = true -> fl_le hi x = true -> np_clip x lo hi = hi.
Proof.
  intros Hlo Hx. destruct (fl_le_not_nan _ _ Hx) as [Hnhi Hnx].
  unfold np_clip, clip_max, clip_min.
  rewrite Hnx, (fl_lt_le_trans _ _ _ Hlo Hx), Hnx, (fl_le_not_lt _ _ Hx).
  reflexivity.
Qed.

(** *** [np.min] and [np.max] *)

Lemma fl_nan_eq (x : spec_float) : fl_is_nan x = true -> x = S754_nan.
Proof. destruct x; try discriminate; reflexivity. Qed.

Lemma fold_minimum_nan (xs : list spec_float) (acc : spec_float) :
  fl_is_nan acc || existsb fl_is_nan xs = true ->
  fl_is_nan (List.fold_left np_minimum xs acc) = true.
Proof.
  revert acc. induction xs as [| x xs IH]; intros acc H; simpl in *.
  - rewrite orb_false_r in H. exact H.
  - apply IH. unfold np_minimum.
    destruct (fl_is_nan acc) eqn:Ea.
    + rewrite orb_true_r, Ea. reflexivity.
    + simpl in H. destruct (fl_is_nan x) eqn:Ex.
      * rewrite (fl_nan_eq x Ex).
        replace (fl_le acc S754_nan) with false by (destruct acc; reflexivity).
        reflexivity.
      * rewrite orb_false_r. destruct (fl_le acc x); [rewrite Ea | rewrite Ex]; exact H.
Qed.

Lemma fold_maximum_nan (xs : list spec_float) (acc : spec_float) :
  fl_is_nan acc || existsb fl_is_nan xs = true ->
  fl_is_nan (List.fold_left np_maximum xs acc) = true.
Proof.
  revert acc. induction xs as [| x xs IH]; intros acc H; simpl in *.
  - rewrite orb_false_r in H. exact H.
  - apply IH. unfold np_maximum.
    destruct (fl_is_nan acc) eqn:Ea.
    + rewrite orb_true_r, Ea. reflexivity.
    + simpl in H. destruct (fl_is_nan x) eqn:Ex.
      * rewrite (fl_nan_eq x Ex). reflexivity.
      * rewrite orb_false_r. destruct (fl_le x acc); [rewrite Ea | rewrite Ex]; exact H.
Qed.

Lemma fold_minimum_least (xs : list spec_float) (acc : spec_float) :
  fl_is_nan acc || existsb fl_is_nan xs = false ->
  In (List.fold_left np_minimum xs acc) (acc :: xs) /\
  Forall (fun x => fl_le (List.fold_left np_minimum xs acc) x = true) (acc :: xs).
Proof.
  revert acc. induction xs as [| x xs IH]; intros acc H; simpl in H.
  - rewrite orb_false_r in H. simpl. split; [left; reflexivity |].
    constructor; [apply fl_le_refl, H | constructor].
  - apply orb_false_iff in H as [Ha H]. apply orb_false_iff in H as [Hx Hxs].
    cbn [List.fold_left].
    assert (Estep : np_minimum acc x = if fl_le acc x then acc else x)
      by (unfold np_minimum; rewrite Ha, orb_false_r; reflexivity).
    rewrite Estep. destruct (fl_le acc x) eqn:E.
    + destruct (IH acc) as [Hin Hall]; [rewrite Ha, Hxs; reflexivity |].
      split.
      * destruct Hin as [Hin | Hin]; [left; exact Hin | right; right; exact Hin].
      * inversion Hall as [| ? ? Hacc Hrest]; subst.
        constructor; [exact Hacc |]. constructor; [| exact Hrest].
        exact (fl_le_trans _ _ _ Hacc E).
    + destruct (IH x) as [Hin Hall]; [rewrite Hx, Hxs; reflexivity |].
      split; [right; exact Hin |].
      inversion Hall as [| ? ? Hx' Hrest]; subst.
      constructor; [| constructor; [exact Hx' | exact Hrest]].
      exact (fl_le_trans _ _ _ Hx' (fl_le_total _ _ Ha Hx E)).
Qed.

Lemma fold_maximum_greatest (xs : list spec_float) (acc : spec_float) :
  fl_is_nan acc || existsb fl_is_nan xs = false ->
  In (List.fold_left np_maximum xs acc) (acc :: xs) /\
  Forall (fun x => fl_le x (List.fold_left np_maximum xs acc) = true) (acc :: xs).
Proof.
  revert acc. induction xs as [| x xs IH]; intros acc H; simpl in H.
  - rewrite orb_false_r in H. simpl. split; [left; reflexivity |].
    constructor; [apply fl_le_refl, H | constructor].
  - apply orb_false_iff in H as [Ha H]. apply orb_false_iff in H as [Hx Hxs].
    cbn [List.fold_left].
    assert (Estep : np_maximum acc x = if fl_le x acc then acc else x)
      by (unfold np_maximum; rewrite Ha, orb_false_r; reflexivity).
    rewrite Estep. destruct (fl_le x acc) eqn:E.
    + destruct (IH acc) as [Hin Hall]; [rewrite Ha, Hxs; reflexivity |].
      split.
      * destruct Hin as [Hin | Hin]; [left; exact Hin | right; right; exact Hin].
      * inversion Hall as [| ? ? Hacc Hrest]; subst.
        constructor; [exact Hacc |]. constructor; [| exact Hrest].
        exact (fl_le_trans _ _ _ E Hacc).
    + destruct (IH x) as [Hin Hall]; [rewrite Hx, Hxs; reflexivity |].
      split; [right; exact Hin |].
      inversion Hall as [| ? ? Hx' Hrest]; subst.
      constructor; [| constructor; [exact Hx' | exact Hrest]].
      exact (fl_le_trans _ _ _ (fl_le_total _ _ Hx Ha E) Hx').
Qed.

(** [np.min] and [np.max] of a non-empty array return, and what they
    return is the minimum and the maximum of its samples. *)
Lemma np_min_max_spec (a : ndarray spec_float) :
  nd_leaves a <> [] ->
  exists min_pixel max_pixel,
    np_min a = Ok min_pixel /\ np_max a = Ok max_pixel /\
    is_minimum min_pixel (nd_leaves a) /\ is_maximum max_pixel (nd_leaves a).
Proof.
  unfold np_min, np_max, reduce, is_minimum, is_maximum.
  destruct (nd_leaves a) as [| x xs]; [congruence |]. intros _.
  eexists; eexists. split; [reflexivity |]. split; [reflexivity |].
  change (existsb fl_is_nan (x :: xs)) with (fl_is_nan x || existsb fl_is_nan xs).
  destruct (fl_is_nan x || existsb fl_is_nan xs) eqn:E.
  - split; [apply fold_minimum_nan | apply fold_maximum_nan]; exact E.
  - split; [apply fold_minimum_least | apply fold_maximum_greatest]; exact E.
Qed.

(** ** PixelPipeline: windowing *)

Section Windowing.

Variable uint8_of_nan : Z.

Lemma to_uint8_range (x : spec_float) : 0 <= to_uint8 uint8_of_nan x <= 255.
Proof.
  unfold to_uint8.
  assert (H : 0 <= uint8_of_nan mod 256 <= 255)
    by (pose proof (Z.mod_pos_bound uint8_of_nan 256); lia).
  destruct (fl_trunc x) as [v |]; [| exact H].
  unfold in_range. destruct (0 <=? v) eqn:E0; [| exact H].
  destruct (v <=? 255) eqn:E1; [| exact H]. simpl. lia.
Qed.

(** In the linear branch the code computes the bounds and the span of the
    window as the vocabulary words them. *)
Lemma apply_window_linear (wl ww : number) (x : spec_float) :
  fl_lt fl_zero (num_value ww) = true ->
  apply_window wl ww x
    = Float32 (linear_rescale (window_low wl ww) (window_span wl ww)
                 (np_clip x (window_low wl ww) (window_high wl ww))).
Proof.
  intros H. unfold apply_window. rewrite H.
  destruct wl as [l | l], ww as [w | w]; reflexivity.
Qed.

Lemma apply_window_binary (wl ww : number) (x : spec_float) :
  fl_lt fl_zero (num_value ww) = false ->
  to_display uint8_of_nan (apply_window wl ww x) = binarize wl x.
Proof.
  intros H. unfold apply_window, binarize. rewrite H.
  destruct (fl_le (as_float32 wl) x); reflexivity.
Qed.

Lemma linear_rescale_low (lo span : spec_float) :
  fl_is_finite lo = true -> fl_lt fl_zero span = true ->
  linear_rescale lo span lo = S754_zero false.
Proof.
  intros Hlo Hspan. unfold linear_rescale.
  rewrite (fl_sub_diag binary32 lo Hlo), (fl_div_zero binary32 span Hspan).
  reflexivity.
Qed.

(** Above the window every sample is displayed as the upper bound is. *)
Lemma apply_window_saturates (wl ww : number) (x : spec_float) :
  fl_lt fl_zero (num_value ww) = true ->
  fl_lt (window_low wl ww) (window_high wl ww) = true ->
  fl_le (window_high wl ww) x = true ->
  to_display uint8_of_nan (apply_window wl ww x)
    = to_display uint8_of_nan (apply_window wl ww (window_high wl ww)).
Proof.
  intros Hww Hord Hx. rewrite !(apply_window_linear wl ww _ Hww).
  rewrite (np_clip_above _ _ _ Hord Hx).
  destruct (fl_le_not_nan _ _ Hx) as [Hhi _].
  rewrite (np_clip_above _ _ _ Hord (fl_le_refl _ Hhi)). reflexivity.
Qed.

(** C3 (amended) - the windowing of one [float32] sample under the
    effective window. For a width above 0 the sample is clipped to the two
    bounds of the window, level minus and plus half the width as [float32]
    values, and the clipped range is rescaled linearly, (clipped - low) /
    span * 255 in [float32], then clipped to [0, 255] and truncated to an
    8-bit integer. When the two bounds differ, a sample at or below the
    lower bound gives 0 (the bound being finite and the span positive), and
    all the samples at or above the upper bound give the value of the
    upper bound itself. For a width that is not above 0 a sample at or
    above the level gives 255, any other 0. The result is always within
    0..255. On [[0,100],[200,255]] with level 128, width 256 the output is
    [[0,99],[199,254]] (0 is preserved, 255 becomes 254); with width 0 it
    is [[0,0],[255,255]]. *)
Theorem windowing_transform (wl ww : number) (x : spec_float) :
  (fl_lt fl_zero (num_value ww) = true ->
   to_display uint8_of_nan (apply_window wl ww x)
     = to_uint8 uint8_of_nan
         (np_clip
            (linear_rescale (window_low wl ww) (window_span wl ww)
               (np_clip x (window_low wl ww) (window_high wl ww)))
            (fl_of_Z binary32 0) (fl_of_Z binary32 255)) /\
   (fl_lt (window_low wl ww) (window_high wl ww) = true ->
    (fl_is_finite (window_low wl ww) = true ->
     fl_lt fl_zero (window_span wl ww) = true ->
     fl_le x (window_low wl ww) = true ->
     to_display uint8_of_nan (apply_window wl ww x) = 0) /\
    (fl_le (window_high wl ww) x = true ->
     to_display uint8_of_nan (apply_window wl ww x)
       = to_display uint8_of_nan (apply_window wl ww (window_high wl ww))))) /\
  (fl_lt fl_zero (num_value ww) = false ->
   to_display uint8_of_nan (apply_window wl ww x) = binarize wl x) /\
  0 <= to_display uint8_of_nan (apply_window wl ww x) <= 255 /\
  window_array uint8_of_nan level_128 width_256 example_samples
    = array2 [[0; 99]; [199; 254]] /\
  window_array uint8_of_nan level_128 width_0 example_samples
    = array2 [[0; 0]; [255; 255]].
Proof.
  split; [| split; [| split; [| split]]].
  - intros Hww. rewrite (apply_window_linear wl ww x Hww). split; [reflexivity |].
    intros Hord. split.
    + intros Hfin Hspan Hx. rewrite (np_clip_below _ _ _ Hx Hord).
      rewrite (linear_rescale_low _ _ Hfin Hspan). reflexivity.
    + intros Hx. rewrite <- (apply_window_linear wl ww x Hww).
      apply apply_window_saturates; assumption.
  - apply apply_window_binary.
  - apply to_uint8_range.
  - vm_compute. reflexivity.
  - vm_compute. reflexivity.
Qed.


(** ** PixelPipeline: window determination *)

Lemma full_range_constant (m : spec_float) :
  full_range m m = Float64 (fl_of_Z binary64 1).
Proof.
  unfold full_range. destruct (fl_is_finite m) eqn:E.
  - rewrite (fl_sub_diag binary32 m E). reflexivity.
  - destruct m as [| [] | |]; try discriminate; reflexivity.
Qed.

Lemma extremes_of_constant (xs : list spec_float) (x mn mx : spec_float) :
  (forall y, In y xs -> y = x) ->
  is_minimum mn xs -> is_maximum mx xs -> mn = mx.
Proof.
  unfold is_minimum, is_maximum. intros Hall.
  destruct (existsb fl_is_nan xs).
  - intros Hmn Hmx. rewrite (fl_nan_eq _ Hmn), (fl_nan_eq _ Hmx). reflexivity.
  - intros [Hmn _] [Hmx _]. rewrite (Hall _ Hmn), (Hall _ Hmx). reflexivity.
Qed.

Lemma determine_window_computed (a : ndarray spec_float) (wl ww : option number)
    (min_pixel max_pixel : spec_float) :
  wl = None \/ ww = None ->
  np_min a = Ok min_pixel -> np_max a = Ok max_pixel ->
  determine_window a wl ww
    = Ok (midpoint min_pixel max_pixel, full_range min_pixel max_pixel).
Proof.
  intros Hnone Hmin Hmax.
  assert (E : determine_window a wl ww = determine_window a None None)
    by (destruct Hnone as [-> | ->]; [| destruct wl]; reflexivity).
  rewrite E. unfold determine_window. rewrite Hmin, Hmax. reflexivity.
Qed.

Lemma image_data_try_without_window (ds : image_file) :
  image_data_try uint8_of_nan (without_window ds) ArgAbsent ArgAbsent
    = match PixelData ds with
      | None => Raise HTTPException
      | Some pa =>
          let+ frame := select_frame ds (decoded pa) in
          let+ window := determine_window (rescale ds (astype_float32 frame))
                           None None in
          let '(wl, ww) := window in
          Ok (window_array uint8_of_nan wl ww (rescale ds (astype_float32 frame)),
              wl, ww)
      end.
Proof. reflexivity. Qed.

(** C9 - when, after the caller's values and the dataset's, exactly one of
    level and width is still missing, the render of a frame with samples
    returns, and its effective window is computed from the rescaled
    samples alone: the level is the midpoint of their minimum and maximum
    and the width is the maximum minus the minimum, or 1.0 when that is not
    above 0, as it is when all the samples are equal. The value that was
    available has no effect: the output and the effective window are those
    of the same dataset without window elements and without caller
    values. *)
Theorem lone_window_value_is_discarded (ds : image_file) (pa : pixel_array)
    (frame : ndarray Z) (wl_arg ww_arg : query_arg)
    (default_wl default_ww wl ww : option number) :
  PixelData ds = Some pa ->
  select_frame ds (decoded pa) = Ok frame ->
  nd_leaves frame <> [] ->
  first_value (WindowLevel ds) = Ok default_wl ->
  first_value (WindowWidth ds) = Ok default_ww ->
  override wl_arg default_wl = Ok wl ->
  override ww_arg default_ww = Ok ww ->
  (wl = None /\ ww <> None) \/ (wl <> None /\ ww = None) ->
  exists min_pixel max_pixel,
    is_minimum min_pixel (List.map (rescaled_sample ds) (nd_leaves frame)) /\
    is_maximum max_pixel (List.map (rescaled_sample ds) (nd_leaves frame)) /\
    image_data_try uint8_of_nan ds wl_arg ww_arg
      = Ok (window_array uint8_of_nan (midpoint min_pixel max_pixel)
              (full_range min_pixel max_pixel)
              (nd_map (rescaled_sample ds) frame),
            midpoint min_pixel max_pixel, full_range min_pixel max_pixel) /\
    ((forall y, In y (List.map (rescaled_sample ds) (nd_leaves frame)) ->
                y = rescaled_sample ds 0) ->
     full_range min_pixel max_pixel = Float64 (fl_of_Z binary64 1)) /\
    image_data_try uint8_of_nan ds wl_arg ww_arg
      = image_data_try uint8_of_nan (without_window ds) ArgAbsent ArgAbsent.
Proof.
  intros Hpix Hframe Hne Hdwl Hdww Hwl Hww Hone.
  destruct (np_min_max_spec (nd_map (rescaled_sample ds) frame))
    as (mn & mx & Hmin & Hmax & Hismin & Hismax).
  { rewrite nd_leaves_map. destruct (nd_leaves frame); [congruence | discriminate]. }
  rewrite nd_leaves_map in Hismin, Hismax.
  exists mn, mx. split; [exact Hismin |]. split; [exact Hismax |].
  assert (Hrun : image_data_try uint8_of_nan ds wl_arg ww_arg
            = Ok (window_array uint8_of_nan (midpoint mn mx) (full_range mn mx)
                    (nd_map (rescaled_sample ds) frame),
                  midpoint mn mx, full_range mn mx)).
  { unfold image_data_try.
    rewrite Hpix, Hframe. cbn [rbind]. rewrite Hdwl, Hdww. cbn [rbind].
    rewrite Hwl, Hww. cbn [rbind]. rewrite rescale_samples.
    rewrite (determine_window_computed _ wl ww mn mx); [reflexivity | | assumption ..].
    destruct Hone as [[H _] | [_ H]]; [left | right]; exact H. }
  split; [exact Hrun |]. split.
  - intros Hconst.
    rewrite (extremes_of_constant _ _ mn mx Hconst Hismin Hismax).
    apply full_range_constant.
  - rewrite Hrun, image_data_try_without_window, Hpix, Hframe. cbn [rbind].
    rewrite rescale_samples.
    rewrite (determine_window_computed _ None None mn mx);
      [reflexivity | left; reflexivity | assumption ..].
Qed.

End Windowing.

(** *** The windowing on the examples *)

(** The example of the specification, evaluated: with level 128 and width
    256 the window is [0, 256], so the sample 255 lands at 254. With the
    width 0.3 the rounding shows: the samples above the window are
    displayed as 254, not 255. *)
Example window_examples :
  window_array 0 level_128 width_256 example_samples = array2 [[0; 99]; [199; 254]] /\
  window_array 0 level_128 width_0 example_samples = array2 [[0; 0]; [255; 255]] /\
  window_array 0 level_128 width_03 example_samples = array2 [[0; 0]; [254; 254]] /\
  window_low level_128 width_256 = fl_of_Z binary32 0 /\
  window_high level_128 width_256 = fl_of_Z binary32 256 /\
  window_span level_128 width_256 = fl_of_Z binary32 256.
Proof. repeat split; vm_compute; reflexivity. Qed.

(** C3, as stated, fails: with level 128 and width 256 the sample 255 is
    not preserved, it is displayed as 254. *)
Lemma window_255_not_preserved :
  to_display 0 (apply_window level_128 width_256 (fl_of_Z binary32 255)) = 254 /\
  window_array 0 level_128 width_256 example_samples = array2 [[0; 99]; [199; 254]] /\
  window_array 0 level_128 width_256 example_samples <> array2 [[0; 99]; [199; 255]] /\
  image_data_try 0 example_image (ArgFloat (fl_of_Z binary64 128))
      (ArgFloat (fl_of_Z binary64 256))
    = Ok (array2 [[0; 99]; [199; 254]], level_128, width_256).
Proof.
  split; [vm_compute; reflexivity |]. split; [vm_compute; reflexivity |].
  split; [vm_compute; discriminate | vm_compute; reflexivity].
Qed.

Lemma windowing_transform_witness :
  to_display 0 (apply_window level_128 width_256 (fl_of_Z binary32 (-5))) = 0 /\
  to_display 0 (apply_window level_128 width_256 (fl_of_Z binary32 300))
    = to_display 0 (apply_window level_128 width_256
                      (window_high level_128 width_256)) /\
  to_display 0 (apply_window level_128 width_0 (fl_of_Z binary32 200))
    = binarize level_128 (fl_of_Z binary32 200).
Proof.
  split; [| split].
  - destruct (windowing_transform 0 level_128 width_256 (fl_of_Z binary32 (-5)))
      as (Hlinear & _).
    destruct (Hlinear eq_refl) as (_ & Hbounds).
    destruct (Hbounds eq_refl) as (Hlow & _).
    apply Hlow; reflexivity.
  - destruct (windowing_transform 0 level_128 width_256 (fl_of_Z binary32 300))
      as (Hlinear & _).
    destruct (Hlinear eq_refl) as (_ & Hbounds).
    destruct (Hbounds eq_refl) as (_ & Hhigh).
    apply Hhigh; reflexivity.
  - destruct (windowing_transform 0 level_128 width_0 (fl_of_Z binary32 200))
      as (_ & Hbinary & _).
    apply Hbinary; reflexivity.
Defined.

(** The top of the example window: every sample at or above 256 is
    displayed as 255. *)
Lemma example_window_saturates (x : spec_float) :
  fl_le (fl_of_Z binary32 256) x = true ->
  to_display 0 (apply_window level_128 width_256 x) = 255.
Proof.
  intros Hx.
  rewrite (apply_window_saturates 0 level_128 width_256 x eq_refl eq_refl Hx).
  vm_compute. reflexivity.
Qed.



(** The same render, evaluated: with the level 128 the width -4 gives the
    image the width 0 gives. *)
Example negative_width_example :
  image_data_try 0 example_image (ArgFloat (fl_of_Z binary64 128))
      (ArgFloat (fl_of_Z binary64 (-4)))
    = Ok (array2 [[0; 0]; [255; 255]], level_128, Float64 (fl_of_Z binary64 (-4))) /\
  image_data_try 0 example_image (ArgFloat (fl_of_Z binary64 128)) (ArgFloat fl_zero)
    = Ok (array2 [[0; 0]; [255; 255]], level_128, Float64 fl_zero).
Proof. split; vm_compute; reflexivity. Qed.

Lemma lone_window_value_is_discarded_witness :
  exists min_pixel max_pixel,
    is_minimum min_pixel
      (List.map (rescaled_sample ct_image) (nd_leaves (decoded ct_pixels))) /\
    is_maximum max_pixel
      (List.map (rescaled_sample ct_image) (nd_leaves (decoded ct_pixels))) /\
    image_data_try 0 ct_image ArgAbsent ArgAbsent
      = Ok (window_array 0 (midpoint min_pixel max_pixel)
              (full_range min_pixel max_pixel)
              (nd_map (rescaled_sample ct_image) (decoded ct_pixels)),
            midpoint min_pixel max_pixel, full_range min_pixel max_pixel) /\
    ((forall y, In y (List.map (rescaled_sample ct_image)
                        (nd_leaves (decoded ct_pixels))) ->
                y = rescaled_sample ct_image 0) ->
     full_range min_pixel max_pixel = Float64 (fl_of_Z binary64 1)) /\
    image_data_try 0 ct_image ArgAbsent ArgAbsent
      = image_data_try 0 (without_window ct_image) ArgAbsent ArgAbsent.
Proof.
  apply (lone_window_value_is_discarded 0 ct_image ct_pixels (decoded ct_pixels)
           ArgAbsent ArgAbsent
           (Some (Float64 (py_float (fl_of_Z binary64 40)))) None
           (Some (Float64 (py_float (fl_of_Z binary64 40)))) None);
    try reflexivity.
  - vm_compute. discriminate.
  - right. split; [discriminate | reflexivity].
Defined.

(** The same two cases, evaluated. The CT slice has the rescaled values
    -1024, 0, 40 and 1000: its own level 40 is discarded, and so is a level
    the caller supplies; the window is the midpoint -12 and the range 2024
    in both renders. On the constant array the width is 1.0. *)
Example lone_window_value_examples :
  List.map (rescaled_sample ct_image) (nd_leaves (decoded ct_pixels))
    = List.map (fl_of_Z binary32) [-1024; 0; 40; 1000] /\
  image_data_try 0 ct_image ArgAbsent ArgAbsent
    = Ok (array2 [[0; 129]; [134; 255]],
          Float32 (fl_of_Z binary32 (-12)), Float32 (fl_of_Z binary32 2024)) /\
  image_data_try 0 ct_image (ArgFloat (fl_of_Z binary64 500)) ArgAbsent
    = image_data_try 0 ct_image ArgAbsent ArgAbsent /\
  image_data_try 0 example_image ArgAbsent (ArgFloat (fl_of_Z binary64 80))
    = image_data_try 0 example_image ArgAbsent ArgAbsent /\
  image_data_try 0
      {| PixelData := Some {| pa_dtype := uint8; pa_samples := array2 [[7; 7]] |};
         NumberOfFrames := None; RescaleSlope := None; RescaleIntercept := None;
         WindowLevel := None; WindowWidth := Some (DSingle (fl_of_Z binary64 80)) |}
      ArgAbsent ArgAbsent
    = Ok (array2 [[127; 127]],
          Float32 (fl_of_Z binary32 7), Float64 (fl_of_Z binary64 1)).
Proof. repeat split; vm_compute; reflexivity. Qed.

(** The sum of the extremes is rounded to [float32] before it is halved:
    for the samples 1 and 16777216 the level is 8388608.0. *)
Example midpoint_is_rounded :
  midpoint (fl_of_Z binary32 1) (fl_of_Z binary32 16777216)
    = Float32 (fl_of_Z binary32 8388608).
Proof. vm_compute. reflexivity. Qed.

(** [image_metadata] computes on the integers of the stored array: the sum
    of the extremes 200 and 255 of a [uint8] array wraps to 199, and the
    default level is 99.5. On the example array nothing wraps: 127.5 and
    255. With a rescale the array is [float64]. *)
Example default_window_examples :
  image_metadata_try
    {| PixelData := Some {| pa_dtype := uint8; pa_samples := array2 [[200; 255]] |};
       NumberOfFrames := None; RescaleSlope := None; RescaleIntercept := None;
       WindowLevel := None; WindowWidth := None |}
    = Ok (fl_dyadic binary64 199 (-1), fl_of_Z binary64 55) /\
  image_metadata_try example_image
    = Ok (fl_dyadic binary64 255 (-1), fl_of_Z binary64 255) /\
  image_metadata_try ct_image
    = Ok (fl_of_Z binary64 (-12), fl_of_Z binary64 2024).
Proof. repeat split; vm_compute; reflexivity. Qed.

(** ** PathResolver *)

Section PathGuard.

Variable root : string.
Variable realpath : string -> string.
Variable uint8_of_nan : Z.

(** A reference whose canonical path does not start with the root is
    answered with 403 by both routes, before any file operation. *)
Lemma prefix_check_rejects (files : gmap string image_file) (reference : string)
    (wl_arg ww_arg : query_arg) :
  String.prefix root (resolve_dicom_path_for_viewer root realpath reference) = false ->
  image_data root realpath uint8_of_nan files reference wl_arg ww_arg
    = (Abort 403, []) /\
  image_metadata root realpath files reference = (Abort 403, []).
Proof.
  intros H. unfold image_data, image_metadata. rewrite H. split; reflexivity.
Qed.

(** The check is made on the canonical path: the reference is resolved
    first, relative references under the root. *)
Lemma resolve_relative (reference : string) :
  os_path_isabs reference = false ->
  resolve_dicom_path_for_viewer root realpath reference
    = realpath (os_path_join root reference).
Proof. unfold resolve_dicom_path_for_viewer. intros ->. reflexivity. Qed.

Lemma resolve_absolute (reference : string) :
  os_path_isabs reference = true ->
  resolve_dicom_path_for_viewer root realpath reference = realpath reference.
Proof. unfold resolve_dicom_path_for_viewer. intros ->. reflexivity. Qed.

End PathGuard.

(** References that climb out of the root, and absolute paths elsewhere,
    are rejected without any file operation. *)
Example traversal_rejected :
  image_data example_root normpath 0 sibling_files "../../etc/passwd"
      ArgAbsent ArgAbsent
    = (Abort 403, []) /\
  image_metadata example_root normpath sibling_files "../../etc/passwd"
    = (Abort 403, []) /\
  image_data example_root normpath 0 sibling_files "/etc/passwd" ArgAbsent ArgAbsent
    = (Abort 403, []).
Proof. repeat split; vm_compute; reflexivity. Qed.

(** C2 - the guard compares strings, not path components: the canonical
    path of a file in a sibling directory whose name continues the name of
    the root is outside the root, yet both routes accept it, whether it is
    given as an absolute path or through [..], and go on to read the file. *)
Theorem sibling_directory_passes_guard (uint8_of_nan : Z) :
  within_root example_root (normpath sibling_path) = false /\
  image_data example_root normpath uint8_of_nan sibling_files sibling_path
      ArgAbsent ArgAbsent
    = (Windowed (array2 [[0; 100]; [200; 255]])
         (Float32 (fl_dyadic binary32 255 (-1))) (Float32 (fl_of_Z binary32 255)),
       [FsExists sibling_path; FsRead sibling_path]) /\
  image_data example_root normpath uint8_of_nan sibling_files
      "../received_dicom_backup/secret.dcm" ArgAbsent ArgAbsent
    = (Windowed (array2 [[0; 100]; [200; 255]])
         (Float32 (fl_dyadic binary32 255 (-1))) (Float32 (fl_of_Z binary32 255)),
       [FsExists sibling_path; FsRead sibling_path]) /\
  image_metadata example_root normpath sibling_files sibling_path
    = (DefaultWindow (fl_dyadic binary64 255 (-1)) (fl_of_Z binary64 255),
       [FsExists sibling_path; FsRead sibling_path]).
Proof. repeat split; vm_compute; reflexivity. Qed.

(** ** StorageLayout *)

Lemma safe_char_not_space (c : ascii) : is_safe_char c = true -> is_space c = false.
Proof.
  destruct c as [[] [] [] [] [] [] [] []]; vm_compute; intros H;
    first [reflexivity | discriminate H].
Qed.

Lemma all_string_filter (f : ascii -> bool) (s : string) :
  all_string f (filter_string f s) = true.
Proof.
  induction s as [| c s IH]; simpl; [reflexivity |].
  destruct (f c) eqn:E; simpl; [rewrite E, IH; reflexivity | exact IH].
Qed.

Lemma lstrip_no_space (s : string) :
  all_string (fun c => negb (is_space c)) s = true -> lstrip s = s.
Proof.
  destruct s as [| c s]; simpl; [reflexivity |].
  destruct (is_space c); simpl; [discriminate | reflexivity].
Qed.

Lemma rstrip_no_space (s : string) :
  all_string (fun c => negb (is_space c)) s = true -> rstrip s = s.
Proof.
  induction s as [| c s IH]; simpl; [reflexivity |].
  destruct (is_space c) eqn:E; simpl; [discriminate |].
  intros H. rewrite (IH H). destruct s; reflexivity.
Qed.

Lemma all_string_impl (f g : ascii -> bool) (s : string) :
  (forall c, f c = true -> g c = true) ->
  all_string f s = true -> all_string g s = true.
Proof.
  intros Hfg. induction s as [| c s IH]; simpl; [reflexivity |].
  intros H. apply andb_true_iff in H as [Hc Hs].
  rewrite (Hfg c Hc), (IH Hs). reflexivity.
Qed.

(** The [.strip()] that follows the sanitization removes nothing. *)
Lemma strip_sanitized (s : string) :
  strip (filter_string is_safe_char s) = filter_string is_safe_char s.
Proof.
  assert (H : all_string (fun c => negb (is_space c))
                (filter_string is_safe_char s) = true).
  { apply all_string_impl with (f := is_safe_char); [| apply all_string_filter].
    intros c Hc. rewrite (safe_char_not_space c Hc). reflexivity. }
  unfold strip. rewrite (lstrip_no_space _ H). apply rstrip_no_space, H.
Qed.

(** Only characters the filter keeps are left in the name. *)
Lemma sanitized_is_safe (s : string) :
  all_string is_safe_char (filter_string is_safe_char s) = true.
Proof. apply all_string_filter. Qed.

Lemma eqb_empty_false (s : string) : s <> "" -> String.eqb s "" = false.
Proof. intros H. destruct s; [congruence | reflexivity]. Qed.

(** C8, as stated, fails: a dataset with no AccessionNumber element is
    stored under [UNKNOWN_ACCESSION], not under its SOP instance
    identifier. *)
Lemma missing_accession_directory :
  fst (handle_store_directory example_repr ds_no_accession empty_world)
    = Ok "UNKNOWN_ACCESSION" /\
  directoryFor_spec example_repr ds_no_accession = Some "1.2.840.1".
Proof. split; vm_compute; reflexivity. Qed.

(** C8 (amended) - for a dataset that carries an AccessionNumber element
    the directory name is that value with every character other than
    alphanumerics, [-] and [_] removed, and the raw SOP instance identifier
    when nothing is left; a dataset with no AccessionNumber element is
    stored under [UNKNOWN_ACCESSION]. *)
Theorem storage_directory_name (py_repr_seq : seq_kind -> list scalar -> string)
    (ds : dataset) (w : world) :
  (ds !! "AccessionNumber" = None ->
   handle_store_directory py_repr_seq ds w = (Ok "UNKNOWN_ACCESSION", w)) /\
  (forall v, ds !! "AccessionNumber" = Some v ->
     let sanitized := filter_string is_safe_char (get_str v) in
     (sanitized <> "" ->
      handle_store_directory py_repr_seq ds w = (Ok sanitized, w)) /\
     (sanitized = "" ->
      forall sop, ds !! "SOPInstanceUID" = Some sop ->
        fst (handle_store_directory py_repr_seq ds w)
          = Ok (py_str_value py_repr_seq sop))).
Proof.
  split.
  - intros H. unfold handle_store_directory, ds_get. rewrite H. reflexivity.
  - intros v H sanitized. unfold handle_store_directory, ds_get. rewrite H.
    rewrite strip_sanitized. fold sanitized. split.
    + intros Hne. rewrite (eqb_empty_false _ Hne). reflexivity.
    + intros He sop Hsop. rewrite He. simpl.
      unfold bind, ds_attr. rewrite Hsop. destruct w; reflexivity.
Qed.

Lemma storage_directory_name_witness :
  handle_store_directory example_repr
    {[ "AccessionNumber" := PyScalar (SStr " ACC/2024 #17 ") ]} empty_world
    = (Ok "ACC202417", empty_world).
Proof.
  destruct (storage_directory_name example_repr
              {[ "AccessionNumber" := PyScalar (SStr " ACC/2024 #17 ") ]}
              empty_world) as [_ H].
  destruct (H (PyScalar (SStr " ACC/2024 #17 ")) eq_refl) as [H1 _].
  apply H1. vm_compute. discriminate.
Defined.

(** Accented letters are alphanumeric: an AccessionNumber with a capital E
    acute (code point 201) keeps it, and one made of that letter alone does
    not fall back to the SOP instance identifier. *)
Example latin1_accession_directory :
  handle_store_directory example_repr
    {[ "AccessionNumber" := PyScalar (SStr (String "A" (String "201"%char "1"))) ]}
    empty_world
    = (Ok (String "A" (String "201"%char "1")), empty_world) /\
  handle_store_directory example_repr
    {[ "AccessionNumber" := PyScalar (SStr (String "201"%char "")) ]} empty_world
    = (Ok (String "201"%char ""), empty_world) /\
  handle_store_directory example_repr
    {[ "AccessionNumber" := PyScalar (SStr (String "215"%char " /")) ]}
    empty_world
    = (Raise AttributeError, empty_world).
Proof. repeat split; vm_compute; reflexivity. Qed.

(** With an AccessionNumber element in the dataset the code and the
    specification name the same directory. *)
Lemma directory_agrees_with_spec (py_repr_seq : seq_kind -> list scalar -> string)
    (ds : dataset) (w : world) (v : pyvalue) (d : string) :
  ds !! "AccessionNumber" = Some v ->
  directoryFor_spec py_repr_seq ds = Some d ->
  fst (handle_store_directory py_repr_seq ds w) = Ok d.
Proof.
  intros Hv. unfold directoryFor_spec, handle_store_directory, ds_get.
  rewrite Hv, strip_sanitized.
  destruct (String.eqb (filter_string is_safe_char (get_str v)) "").
  - unfold bind, ds_attr. destruct (ds !! "SOPInstanceUID"); simpl; [| discriminate].
    intros [= <-]. destruct w; reflexivity.
  - intros [= <-]. reflexivity.
Qed.

(** ** PathResolver: absolute paths of plain components *)

Lemma plain_no_slash (c : string) : is_plain_component c = true -> no_slash c = true.
Proof. unfold is_plain_component. intros H. apply andb_prop in H as [_ H]. exact H. Qed.

Lemma plain_not_empty (c : string) : is_plain_component c = true -> c <> "".
Proof. intros H ->. discriminate H. Qed.

Lemma split_on_no_sep (s : string) : no_slash s = true -> split_on "/" s = [s].
Proof.
  induction s as [| c s IH]; [reflexivity |]. unfold no_slash. simpl.
  intros H. apply andb_prop in H as [Hc Hs].
  destruct (Ascii.eqb c "/"); [discriminate |]. fold (no_slash s) in Hs.
  rewrite (IH Hs). reflexivity.
Qed.

Lemma split_on_app_sep (x rest : string) :
  no_slash x = true ->
  split_on "/" (x +:+ String "/" rest) = x :: split_on "/" rest.
Proof.
  induction x as [| c x IH]; [reflexivity |]. unfold no_slash. simpl.
  intros H. apply andb_prop in H as [Hc Hs].
  destruct (Ascii.eqb c "/"); [discriminate |]. fold (no_slash x) in Hs.
  rewrite (IH Hs). reflexivity.
Qed.

Lemma split_on_concat (c : string) (cs : list string) :
  forallb no_slash (c :: cs) = true ->
  split_on "/" (String.concat "/" (c :: cs)) = c :: cs.
Proof.
  revert c. induction cs as [| d cs IH]; intros c H.
  - simpl in H. rewrite andb_true_r in H. apply split_on_no_sep, H.
  - apply andb_prop in H as [Hc H].
    change (String.concat "/" (c :: d :: cs))
      with (c +:+ String "/" (String.concat "/" (d :: cs))).
    rewrite split_on_app_sep by exact Hc. rewrite (IH d H). reflexivity.
Qed.

Lemma plain_all_no_slash (cs : list string) :
  forallb is_plain_component cs = true -> forallb no_slash cs = true.
Proof.
  induction cs as [| c cs IH]; [reflexivity |]. simpl.
  intros H. apply andb_prop in H as [Hc H].
  rewrite (plain_no_slash c Hc), (IH H). reflexivity.
Qed.

Lemma split_on_absolute (cs : list string) :
  forallb is_plain_component cs = true ->
  split_on "/" (absolute_path cs) = "" :: match cs with [] => [""] | _ => cs end.
Proof.
  intros H. unfold absolute_path. simpl. f_equal.
  destruct cs as [| c cs]; [reflexivity |].
  apply split_on_concat, plain_all_no_slash, H.
Qed.

Lemma normpath_step_plain (b : bool) (acc : list string) (c : string) :
  is_plain_component c = true -> normpath_step b acc c = c :: acc.
Proof.
  unfold is_plain_component, normpath_step. intros H.
  apply andb_prop in H as [H _]. apply andb_prop in H as [H H3].
  apply andb_prop in H as [H1 H2].
  apply negb_true_iff in H1, H2. rewrite H1, H2, H3. reflexivity.
Qed.

Lemma fold_step_plain (b : bool) (cs acc : list string) :
  forallb is_plain_component cs = true ->
  List.fold_left (normpath_step b) cs acc = (List.rev cs ++ acc)%list.
Proof.
  revert acc. induction cs as [| c cs IH]; intros acc H; [reflexivity |].
  simpl in H. apply andb_prop in H as [Hc H]. simpl.
  rewrite (normpath_step_plain b acc c Hc), (IH _ H), <- app_assoc. reflexivity.
Qed.

Lemma plain_first_char (c : string) (cs : list string) :
  is_plain_component c = true -> String.prefix "/" (String.concat "/" (c :: cs)) = false.
Proof.
  intros H. pose proof (plain_no_slash c H) as Hs. pose proof (plain_not_empty c H) as Hn.
  destruct c as [| a c]; [congruence |].
  unfold no_slash in Hs. simpl in Hs. apply andb_prop in Hs as [Ha _].
  assert (Hp : forall s, String.prefix "/" (String a s) = false).
  { intros s. clear -Ha.
    destruct a as [[] [] [] [] [] [] [] []]; first [discriminate Ha | reflexivity]. }
  destruct cs; simpl; apply Hp.
Qed.

(** An absolute path of plain components is in normal form. *)
Lemma normpath_absolute (cs : list string) :
  forallb is_plain_component cs = true -> normpath (absolute_path cs) = absolute_path cs.
Proof.
  intros H. unfold normpath.
  assert (Hp : String.prefix "/" (absolute_path cs) = true)
    by (unfold absolute_path, append; destruct (String.concat "/" cs); reflexivity).
  assert (Hpp : String.prefix "//" (absolute_path cs) = false).
  { unfold absolute_path. destruct cs as [| c cs]; [reflexivity |].
    simpl in H. apply andb_prop in H as [Hc _].
    change (String.prefix "//" ("/" +:+ String.concat "/" (c :: cs)))
      with (String.prefix "/" (String.concat "/" (c :: cs))).
    apply plain_first_char, Hc. }
  rewrite Hp, Hpp. cbn [andb negb String.eqb Ascii.eqb]. 
  rewrite (split_on_absolute cs H). 
  destruct cs as [| c cs]; [reflexivity |].
  match goal with
  | |- context [List.fold_left ?f ("" :: c :: cs) []] =>
      change (List.fold_left f ("" :: c :: cs) [])
        with (List.fold_left (normpath_step true) (c :: cs) [])
  end.
  rewrite (fold_step_plain true (c :: cs) [] H), app_nil_r, List.rev_involutive.
  reflexivity.
Qed.

Lemma filter_plain (cs : list string) :
  forallb is_plain_component cs = true ->
  List.filter (fun x => negb (String.eqb x "")) cs = cs.
Proof.
  induction cs as [| c cs IH]; [reflexivity |]. simpl.
  intros H. apply andb_prop in H as [Hc H].
  rewrite (eqb_empty_false c (plain_not_empty c Hc)). simpl. rewrite (IH H). reflexivity.
Qed.

Lemma path_components_absolute (cs : list string) :
  forallb is_plain_component cs = true -> path_components (absolute_path cs) = cs.
Proof.
  intros H. unfold path_components. rewrite (split_on_absolute cs H).
  destruct cs as [| c cs]; [reflexivity |].
  change (List.filter (fun x => negb (String.eqb x "")) ("" :: c :: cs))
    with (List.filter (fun x => negb (String.eqb x "")) (c :: cs)).
  apply filter_plain, H.
Qed.

Lemma common_prefix_length_app (cs l : list string) :
  common_prefix_length cs (cs ++ l) = length cs.
Proof.
  induction cs as [| c cs IH]; [destruct l; reflexivity |].
  simpl. rewrite String.eqb_refl, IH. reflexivity.
Qed.

Lemma ends_with_slash_cons (a : ascii) (s : string) :
  s <> "" -> ends_with_slash (String a s) = ends_with_slash s.
Proof. destruct s; [congruence | reflexivity]. Qed.

Lemma ends_with_slash_no_slash (s : string) : no_slash s = true -> ends_with_slash s = false.
Proof.
  induction s as [| a s IH]; [reflexivity |]. unfold no_slash. simpl all_string.
  intros H. apply andb_prop in H as [Ha Hs]. fold (no_slash s) in Hs.
  destruct s as [| b s]; [apply negb_true_iff, Ha |].
  rewrite ends_with_slash_cons by discriminate. apply IH, Hs.
Qed.

Lemma append_not_empty (x y : string) : y <> "" -> x +:+ y <> "".
Proof. destruct x; [auto | discriminate]. Qed.

Lemma ends_with_slash_app (x y : string) :
  y <> "" -> ends_with_slash (x +:+ y) = ends_with_slash y.
Proof.
  intros Hy. induction x as [| a x IH]; [reflexivity |].
  change (String a x +:+ y) with (String a (x +:+ y)).
  rewrite ends_with_slash_cons by (apply append_not_empty, Hy). exact IH.
Qed.

Lemma concat_not_empty (c : string) (cs : list string) :
  c <> "" -> String.concat "/" (c :: cs) <> "".
Proof.
  intros Hc. destruct cs as [| d cs]; [exact Hc |].
  change (String.concat "/" (c :: d :: cs))
    with (c +:+ String "/" (String.concat "/" (d :: cs))).
  apply append_not_empty. discriminate.
Qed.

Lemma ends_with_slash_concat (c : string) (cs : list string) :
  forallb is_plain_component (c :: cs) = true ->
  ends_with_slash (String.concat "/" (c :: cs)) = false.
Proof.
  revert c. induction cs as [| d cs IH]; intros c H.
  - simpl in H. rewrite andb_true_r in H.
    apply ends_with_slash_no_slash, plain_no_slash, H.
  - apply andb_prop in H as [Hc H].
    change (String.concat "/" (c :: d :: cs))
      with (c +:+ String "/" (String.concat "/" (d :: cs))).
    pose proof H as H'. simpl in H'. apply andb_prop in H' as [Hd _].
    rewrite ends_with_slash_app by discriminate.
    rewrite ends_with_slash_cons by (apply concat_not_empty, plain_not_empty, Hd).
    apply IH, H.
Qed.

Lemma append_assoc (x y z : string) : (x +:+ y) +:+ z = x +:+ (y +:+ z).
Proof.
  induction x as [| a x IH]; [reflexivity |].
  change (String a x +:+ y) with (String a (x +:+ y)).
  change (String a (x +:+ y) +:+ z) with (String a ((x +:+ y) +:+ z)).
  rewrite IH. reflexivity.
Qed.

Lemma concat_app (c d : string) (cs ds : list string) :
  String.concat "/" ((c :: cs) ++ d :: ds)
    = String.concat "/" (c :: cs) +:+ "/" +:+ String.concat "/" (d :: ds).
Proof.
  revert c. induction cs as [| e cs IH]; intros c; [reflexivity |].
  change (String.concat "/" ((c :: e :: cs) ++ d :: ds))
    with (c +:+ "/" +:+ String.concat "/" ((e :: cs) ++ d :: ds)).
  rewrite IH.
  change (String.concat "/" (c :: e :: cs))
    with (c +:+ "/" +:+ String.concat "/" (e :: cs)).
  rewrite !append_assoc. reflexivity.
Qed.

(** Joining a relative path of plain components to an absolute one. *)
Lemma join_absolute (cs : list string) (d : string) (ds : list string) :
  forallb is_plain_component cs = true ->
  is_plain_component d = true ->
  os_path_join (absolute_path cs) (String.concat "/" (d :: ds))
    = absolute_path (cs ++ d :: ds).
Proof.
  intros Hcs Hd. unfold os_path_join. rewrite (plain_first_char d ds Hd).
  destruct cs as [| c cs]; [reflexivity |].
  assert (He : ends_with_slash (absolute_path (c :: cs)) = false).
  { unfold absolute_path. change ("/" +:+ ?s) with (String "/" s).
    simpl in Hcs. pose proof Hcs as Hc. apply andb_prop in Hc as [Hc _].
    rewrite ends_with_slash_cons by (apply concat_not_empty, plain_not_empty, Hc).
    apply ends_with_slash_concat, Hcs. }
  rewrite He. cbn [orb]. unfold absolute_path. rewrite concat_app.
  change (String.eqb ("/" +:+ ?s) "") with false. cbn [orb].
  rewrite !append_assoc. reflexivity.
Qed.

Lemma join_absolute_one (cs : list string) (d : string) :
  forallb is_plain_component cs = true ->
  is_plain_component d = true ->
  os_path_join (absolute_path cs) d = absolute_path (cs ++ [d]).
Proof. apply (join_absolute cs d []). Qed.

Lemma join_concat (c : string) (cs : list string) (d : string) :
  forallb is_plain_component (c :: cs) = true ->
  is_plain_component d = true ->
  os_path_join (String.concat "/" (c :: cs)) d = String.concat "/" ((c :: cs) ++ [d]).
Proof.
  intros Hcs Hd. unfold os_path_join.
  rewrite (plain_first_char d [] Hd : String.prefix "/" d = false).
  rewrite (ends_with_slash_concat c cs Hcs).
  pose proof Hcs as Hc. simpl in Hc. apply andb_prop in Hc as [Hc _].
  rewrite (eqb_empty_false _ (concat_not_empty c cs (plain_not_empty c Hc))).
  cbn [orb]. rewrite concat_app. reflexivity.
Qed.

Lemma fold_join_concat (p : list string) (c : string) (cs : list string) :
  forallb is_plain_component (c :: cs) = true ->
  forallb is_plain_component p = true ->
  List.fold_left os_path_join p (String.concat "/" (c :: cs))
    = String.concat "/" ((c :: cs) ++ p).
Proof.
  revert cs. induction p as [| d p IH]; intros cs Hcs Hp.
  - rewrite app_nil_r. reflexivity.
  - simpl in Hp. apply andb_prop in Hp as [Hd Hp]. cbn [List.fold_left].
    rewrite (join_concat c cs d Hcs Hd).
    change ((c :: cs) ++ [d])%list with (c :: (cs ++ [d]))%list.
    rewrite IH; [| | exact Hp].
    + cbn [app]. rewrite <- app_assoc. reflexivity.
    + change (c :: (cs ++ [d]))%list with ((c :: cs) ++ [d])%list.
      rewrite forallb_app, Hcs. simpl. rewrite Hd. reflexivity.
Qed.

(** [relpath] of a path below an absolute directory, both of plain
    components, is the path of the components below it. *)
Lemma relpath_below (getcwd : string) (dirs : list string) (d : string)
    (ds : list string) :
  forallb is_plain_component dirs = true ->
  forallb is_plain_component (d :: ds) = true ->
  os_path_relpath getcwd (absolute_path (dirs ++ d :: ds)) (absolute_path dirs)
    = Ok (String.concat "/" (d :: ds)).
Proof.
  intros Hdirs Hds.
  assert (Hall : forallb is_plain_component (dirs ++ d :: ds) = true)
    by (rewrite forallb_app, Hdirs, Hds; reflexivity).
  unfold os_path_relpath, os_path_abspath.
  assert (Hp : forall cs, String.prefix "/" (absolute_path cs) = true)
    by (intros cs; unfold absolute_path, append;
        destruct (String.concat "/" cs); reflexivity).
  rewrite !Hp, !normpath_absolute, !path_components_absolute by assumption.
  change (String.eqb (absolute_path (dirs ++ d :: ds)) "") with false. cbv iota.
  rewrite common_prefix_length_app, Nat.sub_diag, List.skipn_app, List.skipn_all.
  rewrite Nat.sub_diag. cbn [List.repeat List.skipn app].
  change d with (String.concat "/" [d]) at 1.
  rewrite fold_join_concat.
  - reflexivity.
  - simpl in Hds |- *. apply andb_prop in Hds as [-> _]. reflexivity.
  - simpl in Hds. apply andb_prop in Hds as [_ Hds]. exact Hds.
Qed.

Lemma all_string_app (f : ascii -> bool) (x y : string) :
  all_string f (x +:+ y) = all_string f x && all_string f y.
Proof.
  induction x as [| a x IH]; [reflexivity |].
  change (String a x +:+ y) with (String a (x +:+ y)). simpl.
  rewrite IH, andb_assoc. reflexivity.
Qed.

Lemma file_name_plain (uid : string) :
  no_slash uid = true -> is_plain_component (uid +:+ ".dcm") = true.
Proof.
  intros H. unfold is_plain_component.
  fold (no_slash (uid +:+ ".dcm")). unfold no_slash in *.
  rewrite all_string_app, H.
  destruct uid as [| a uid]; [reflexivity |].
  destruct uid as [| b uid];
    [unfold append; cbn; destruct (Ascii.eqb a "."); reflexivity |].
  change (String a (String b uid) +:+ ".dcm")
    with (String a (String b (uid +:+ ".dcm"))).
  cbn [String.eqb].
  destruct (Ascii.eqb a "."); [| reflexivity].
  destruct (Ascii.eqb b "."); [| reflexivity].
  destruct uid; reflexivity.
Qed.

Lemma safe_char_plain (c : ascii) :
  is_safe_char c = true ->
  negb (Ascii.eqb c "/") = true /\ Ascii.eqb c "." = false.
Proof.
  destruct c as [[] [] [] [] [] [] [] []]; vm_compute; intros H;
    first [split; reflexivity | discriminate H].
Qed.

Lemma safe_name_plain (s : string) :
  all_string is_safe_char s = true -> s <> "" -> is_plain_component s = true.
Proof.
  intros Hsafe Hne. unfold is_plain_component.
  assert (Hslash : all_string (fun a => negb (Ascii.eqb a "/")) s = true).
  { apply all_string_impl with (f := is_safe_char); [| exact Hsafe].
    intros c Hc. apply (safe_char_plain c Hc). }
  rewrite Hslash, (eqb_empty_false s Hne).
  destruct s as [| c s]; [congruence |].
  simpl in Hsafe. apply andb_prop in Hsafe as [Hc _].
  destruct (safe_char_plain c Hc) as [_ Hdot].
  cbn [String.eqb]. rewrite Hdot. reflexivity.
Qed.

(** X20 - a directory name taken from the AccessionNumber cannot leave the
    storage root: what the sanitization leaves is one plain component (no
    separator, not [.] or [..]), so the study directory is a direct child of
    the root, also after normalization, and its path relative to the root is
    the name itself. *)
Theorem accession_directory_is_a_child (py_repr_seq : seq_kind -> list scalar -> string)
    (getcwd : string) (ds : dataset) (w : world) (dirs : list string) :
  forallb is_plain_component dirs = true ->
  let name :=
    filter_string is_safe_char
      (get_str (ds_get ds "AccessionNumber" (PyScalar (SStr "UNKNOWN_ACCESSION")))) in
  name <> "" ->
  handle_store_directory py_repr_seq ds w = (Ok name, w) /\
  is_plain_component name = true /\
  os_path_join (absolute_path dirs) name = absolute_path (dirs ++ [name]) /\
  normpath (os_path_join (absolute_path dirs) name) = absolute_path (dirs ++ [name]) /\
  os_path_relpath getcwd (os_path_join (absolute_path dirs) name) (absolute_path dirs)
    = Ok name.
Proof.
  intros Hdirs name Hne.
  assert (Hplain : is_plain_component name = true)
    by (apply safe_name_plain; [apply sanitized_is_safe | exact Hne]).
  assert (Hjoin : os_path_join (absolute_path dirs) name = absolute_path (dirs ++ [name]))
    by (apply join_absolute_one; assumption).
  split; [| split; [exact Hplain | split; [exact Hjoin | split]]].
  - unfold handle_store_directory. rewrite strip_sanitized. fold name.
    rewrite (eqb_empty_false _ Hne). reflexivity.
  - rewrite Hjoin. apply normpath_absolute.
    rewrite forallb_app, Hdirs. simpl. rewrite Hplain. reflexivity.
  - rewrite Hjoin. apply (relpath_below getcwd dirs name [] Hdirs).
    simpl. rewrite Hplain. reflexivity.
Qed.

Lemma accession_directory_is_a_child_witness :
  handle_store_directory example_repr
    {[ "AccessionNumber" := PyScalar (SStr " ACC/2024 #17 ") ]} empty_world
    = (Ok "ACC202417", empty_world) /\
  is_plain_component "ACC202417" = true /\
  os_path_join (absolute_path example_dirs) "ACC202417"
    = absolute_path (example_dirs ++ ["ACC202417"]) /\
  normpath (os_path_join (absolute_path example_dirs) "ACC202417")
    = absolute_path (example_dirs ++ ["ACC202417"]) /\
  os_path_relpath "/" (os_path_join (absolute_path example_dirs) "ACC202417")
    (absolute_path example_dirs) = Ok "ACC202417".
Proof.
  pose proof (accession_directory_is_a_child example_repr "/"
                {[ "AccessionNumber" := PyScalar (SStr " ACC/2024 #17 ") ]} empty_world
                example_dirs eq_refl) as H.
  cbv zeta in H.
  assert (E : filter_string is_safe_char
                (get_str (ds_get {[ "AccessionNumber" := PyScalar (SStr " ACC/2024 #17 ") ]}
                            "AccessionNumber" (PyScalar (SStr "UNKNOWN_ACCESSION"))))
              = "ACC202417") by (vm_compute; reflexivity).
  rewrite E in H. apply H. discriminate.
Defined.

(** ** Viewer routes on stored files *)

Section ServedReference.

Variable files : gmap string image_file.
Variable uint8_of_nan : Z.

Lemma prefix_append (x y : string) : String.prefix x (x +:+ y) = true.
Proof.
  induction x as [| a x IH]; [destruct y; reflexivity |].
  change (String a x +:+ y) with (String a (x +:+ y)).
  cbn [String.prefix]. destruct (Ascii.ascii_dec a a); [exact IH | congruence].
Qed.

Lemma absolute_path_app (dirs : list string) (d : string) (ds : list string) :
  absolute_path (dirs ++ d :: ds)
    = absolute_path dirs +:+ (match dirs with [] => "" | _ => "/" end)
      +:+ String.concat "/" (d :: ds).
Proof.
  unfold absolute_path. destruct dirs as [| c cs]; [reflexivity |].
  rewrite concat_app, !append_assoc. reflexivity.
Qed.

(** X13 - a reference made of plain components, as [handle_store] records
    them, is served from under the root: on a file system without symbolic
    links it resolves to the path with the components of the root followed
    by its own, passes the prefix check of both routes, and [image_data]
    looks up and reads exactly that file (404 only when it is not there). *)
Theorem stored_reference_is_served (dirs : list string) (d : string) (ds : list string)
    (wl_arg ww_arg : query_arg) :
  forallb is_plain_component dirs = true ->
  forallb is_plain_component (d :: ds) = true ->
  let root := absolute_path dirs in
  let reference := String.concat "/" (d :: ds) in
  let stored := absolute_path (dirs ++ d :: ds) in
  resolve_dicom_path_for_viewer root normpath reference = stored /\
  snd (image_data root normpath uint8_of_nan files reference wl_arg ww_arg)
    = FsExists stored :: match files !! stored with
                         | Some _ => [FsRead stored]
                         | None => []
                         end /\
  fst (image_data root normpath uint8_of_nan files reference wl_arg ww_arg) <> Abort 403 /\
  (fst (image_data root normpath uint8_of_nan files reference wl_arg ww_arg) = Abort 404 <->
   files !! stored = None) /\
  fst (image_metadata root normpath files reference) <> Abort 403.
Proof.
  intros Hdirs Hds root reference stored.
  assert (Hall : forallb is_plain_component (dirs ++ d :: ds) = true)
    by (rewrite forallb_app, Hdirs, Hds; reflexivity).
  pose proof Hds as Hd. simpl in Hd. apply andb_prop in Hd as [Hd _].
  assert (Hres : resolve_dicom_path_for_viewer root normpath reference = stored).
  { unfold resolve_dicom_path_for_viewer, os_path_isabs, reference.
    rewrite (plain_first_char d ds Hd). unfold root.
    rewrite (join_absolute dirs d ds Hdirs Hd). apply normpath_absolute, Hall. }
  assert (Hpre : String.prefix root stored = true).
  { unfold stored, root. rewrite absolute_path_app. apply prefix_append. }
  split; [exact Hres |].
  unfold image_data, image_metadata. rewrite Hres, Hpre. cbn [negb].
  destruct (files !! stored) as [f |].
  - split; [reflexivity |]. split; [| split].
    + destruct (image_data_try uint8_of_nan f wl_arg ww_arg) as [[[px wl] ww] | e]; discriminate.
    + split; [| discriminate].
      destruct (image_data_try uint8_of_nan f wl_arg ww_arg) as [[[px wl] ww] | e]; discriminate.
    + destruct (image_metadata_try f) as [[wl ww] | e]; discriminate.
  - split; [reflexivity |].
    split; [discriminate | split; [split; reflexivity | discriminate]].
Qed.

(** X14 - a [wl] or [ww] query value that [float()] rejects is answered
    with 500, after the file was looked up and read: the [ValueError] is
    caught by the last [except] clause of the route. *)
Theorem unparsable_window_argument_is_500 (root : string) (realpath : string -> string)
    (reference : string) (ds : image_file) (wl_arg ww_arg : query_arg) :
  let full_dicom_path := resolve_dicom_path_for_viewer root realpath reference in
  String.prefix root full_dicom_path = true ->
  files !! full_dicom_path = Some ds ->
  wl_arg = ArgOther \/ ww_arg = ArgOther ->
  image_data root realpath uint8_of_nan files reference wl_arg ww_arg
    = (Abort 500, [FsExists full_dicom_path; FsRead full_dicom_path]).
Proof.
  intros full_dicom_path Hpre Hfile Harg. unfold image_data.
  fold full_dicom_path. rewrite Hpre, Hfile. cbn [negb]. f_equal.
  unfold image_data_try.
  destruct (PixelData ds) as [raw |]; [| reflexivity].
  destruct (select_frame ds (decoded raw)) as [orig | e]; [| reflexivity].
  cbn [rbind].
  destruct (first_value (WindowLevel ds)) as [dwl | e]; [| reflexivity]. cbn [rbind].
  destruct (first_value (WindowWidth ds)) as [dww | e]; [| reflexivity]. cbn [rbind].
  destruct Harg as [-> | ->]; [reflexivity |].
  destruct (override wl_arg dwl) as [wl | e]; reflexivity.
Qed.

End ServedReference.

(** ** TagExtractor: trimmed strings and integers read back *)

Lemma lstrip_starts_clean (s : string) : starts_clean (lstrip s) = true.
Proof.
  induction s as [| c s IH]; simpl; [reflexivity |].
  destruct (is_space c) eqn:E; [exact IH | simpl; rewrite E; reflexivity].
Qed.

Lemma rstrip_ends_clean (s : string) : ends_clean (rstrip s) = true.
Proof.
  induction s as [| c s IH]; simpl; [reflexivity |].
  destruct (rstrip s) as [| c' r] eqn:E.
  - destruct (is_space c) eqn:Ec; simpl; [reflexivity | rewrite Ec; reflexivity].
  - exact IH.
Qed.

Lemma rstrip_keeps_start (s : string) :
  starts_clean s = true -> starts_clean (rstrip s) = true.
Proof.
  destruct s as [| c s]; simpl; [reflexivity |].
  intros H. destruct (rstrip s); [| exact H].
  destruct (is_space c) eqn:E; [discriminate |]. simpl. rewrite E. reflexivity.
Qed.

Lemma lstrip_clean (s : string) : starts_clean s = true -> lstrip s = s.
Proof.
  destruct s as [| c s]; simpl; [reflexivity |].
  destruct (is_space c); [discriminate | reflexivity].
Qed.

Lemma rstrip_clean (s : string) : ends_clean s = true -> rstrip s = s.
Proof.
  induction s as [| c s IH]; simpl; [reflexivity |].
  destruct s as [| c' s'].
  - simpl. destruct (is_space c); [discriminate | reflexivity].
  - intros H. rewrite (IH H). reflexivity.
Qed.

Lemma strip_clean (s : string) :
  starts_clean (strip s) = true /\ ends_clean (strip s) = true.
Proof.
  unfold strip. split.
  - apply rstrip_keeps_start, lstrip_starts_clean.
  - apply rstrip_ends_clean.
Qed.

Lemma strip_fixed (s : string) :
  starts_clean s = true -> ends_clean s = true -> strip s = s.
Proof.
  intros H1 H2. unfold strip. rewrite (lstrip_clean s H1). apply rstrip_clean, H2.
Qed.

(** X4 - whatever the value, the string [get_str] returns neither starts
    nor ends with white space, so stripping it again or extracting it again
    changes nothing. *)
Theorem get_str_is_trimmed (value : pyvalue) :
  starts_clean (get_str value) = true /\
  ends_clean (get_str value) = true /\
  strip (get_str value) = get_str value /\
  get_str (PyScalar (SStr (get_str value))) = get_str value.
Proof.
  assert (H : starts_clean (get_str value) = true /\ ends_clean (get_str value) = true).
  { destruct value as [| x | k [| x items]]; simpl;
      first [apply strip_clean | split; reflexivity]. }
  destruct H as [H1 H2].
  split; [exact H1 |]. split; [exact H2 |].
  split; [apply strip_fixed; assumption |].
  simpl. apply strip_fixed; assumption.
Qed.
(** *** [int(str(n))] *)

Lemma parse_digits_acc (l : Decimal.uint) (p : positive) :
  parse_digits (Zpos p) true (NilEmpty.string_of_uint l)
    = Some (Zpos (Pos.of_uint_acc l p)).
Proof.
  revert p. induction l; intros p; simpl; [reflexivity | ..];
    rewrite <- IHl; f_equal;
    try (match goal with
         | |- context [digit_value ?c] =>
             let v := eval vm_compute in (digit_value c) in
             change (digit_value c) with v
         end; lia).
Qed.

Lemma parse_digits_zero (l : Decimal.uint) (b : bool) :
  b = true \/ l <> Decimal.Nil ->
  parse_digits 0 b (NilEmpty.string_of_uint l) = Some (Z.of_N (Pos.of_uint l)).
Proof.
  revert b. induction l; intros b Hb; simpl;
    [ destruct Hb as [-> | Hb]; [reflexivity | congruence]
    | apply IHl; left; reflexivity
    | apply (parse_digits_acc l) .. ].
Qed.

Lemma decimal_digits (l : Decimal.uint) :
  all_string is_digit (NilEmpty.string_of_uint l) = true.
Proof. induction l; simpl; [reflexivity | exact IHl ..]. Qed.

Lemma decimal_digits_zero (l : Decimal.uint) :
  all_string is_digit (NilZero.string_of_uint l) = true.
Proof. destruct l; [reflexivity | apply decimal_digits ..]. Qed.

Lemma digit_not_space (c : ascii) :
  is_digit c = true -> negb (is_space c) = true /\ negb (is_int_space c) = true.
Proof.
  destruct c as [[] [] [] [] [] [] [] []]; vm_compute; intros H;
    first [split; reflexivity | discriminate H].
Qed.

Lemma decimal_no_space_zero (l : Decimal.uint) :
  all_string (fun c => negb (is_space c)) (NilZero.string_of_uint l) = true.
Proof.
  apply (all_string_impl is_digit); [| apply decimal_digits_zero].
  intros c Hc. apply (digit_not_space c Hc).
Qed.

Lemma decimal_no_int_space_zero (l : Decimal.uint) :
  all_string (fun c => negb (is_int_space c)) (NilZero.string_of_uint l) = true.
Proof.
  apply (all_string_impl is_digit); [| apply decimal_digits_zero].
  intros c Hc. apply (digit_not_space c Hc).
Qed.

Lemma strip_no_space (s : string) :
  all_string (fun c => negb (is_space c)) s = true -> strip s = s.
Proof.
  intros H. unfold strip. rewrite (lstrip_no_space s H). apply rstrip_no_space, H.
Qed.

Lemma int_lstrip_no_space (s : string) :
  all_string (fun c => negb (is_int_space c)) s = true -> int_lstrip s = s.
Proof.
  destruct s as [| c s]; simpl; [reflexivity |].
  destruct (is_int_space c); simpl; [discriminate | reflexivity].
Qed.

Lemma int_rstrip_no_space (s : string) :
  all_string (fun c => negb (is_int_space c)) s = true -> int_rstrip s = s.
Proof.
  induction s as [| c s IH]; simpl; [reflexivity |].
  destruct (is_int_space c) eqn:E; simpl; [discriminate |].
  intros H. rewrite (IH H). destruct s; reflexivity.
Qed.

Lemma parse_decimal (l : Decimal.uint) :
  parse_digits 0 false (NilZero.string_of_uint l) = Some (Z.of_uint l).
Proof.
  unfold Z.of_uint. destruct l; [reflexivity | ..];
    apply parse_digits_zero; right; discriminate.
Qed.

Lemma decimal_starts_with_digit (l : Decimal.uint) :
  exists c s, NilZero.string_of_uint l = String c s /\ is_digit c = true.
Proof. destruct l; eexists; eexists; split; reflexivity. Qed.

Lemma decimal_no_space_int (d : Decimal.int) :
  all_string (fun c => negb (is_space c)) (NilZero.string_of_int d) = true /\
  all_string (fun c => negb (is_int_space c)) (NilZero.string_of_int d) = true.
Proof.
  destruct d as [l | l]; simpl;
    (split; [apply decimal_no_space_zero | apply decimal_no_int_space_zero]).
Qed.

(** [int()] on a printed integer: the integer, unless the numeral has more
    digits than the limit. *)
Lemma int_of_string_decimal (d : Decimal.int) :
  int_of_string (NilZero.string_of_int d)
    = if (count_digits (NilZero.string_of_int d) <=? max_str_digits)%nat
      then Ok (Z.of_int d) else Raise ValueError.
Proof.
  destruct (decimal_no_space_int d) as [_ Hs].
  unfold int_of_string.
  rewrite (int_lstrip_no_space _ Hs), (int_rstrip_no_space _ Hs).
  destruct d as [l | l]; unfold NilZero.string_of_int, Z.of_int.
  - destruct (decimal_starts_with_digit l) as (c & r & E & Hc).
    pose proof (parse_decimal l) as Hp. rewrite E in *.
    destruct c as [[] [] [] [] [] [] [] []]; try discriminate Hc;
      cbv zeta iota beta; rewrite Hp; reflexivity.
  - cbv zeta iota beta. rewrite parse_decimal. reflexivity.
Qed.

Lemma int_of_string_printed (n : Z) :
  int_of_string (str_of_Z n) = if int_prints n then Ok n else Raise ValueError.
Proof.
  unfold int_prints, str_of_Z.
  rewrite int_of_string_decimal, DecimalZ.of_to. reflexivity.
Qed.

(** X5 - an integer element is read back: [get_int] of an integer [str()]
    prints is that integer, and so is [get_int] of its printed form, and of
    what [get_str] extracts from it. A numeral of more than
    [max_str_digits] digits is not read: [int()] raises a [ValueError]
    there, which [get_int] turns into 0. *)
Theorem get_int_reads_back_integers (n : Z) :
  (forall short : Is_true (int_prints n),
     get_int (PyScalar (SStr (str_of_Z n))) = Ok n /\
     get_int (PyScalar (SStr (get_str (PyScalar (SInt n short))))) = Ok n /\
     get_int (PyScalar (SInt n short)) = Ok n) /\
  (int_prints n = false -> get_int (PyScalar (SStr (str_of_Z n))) = Ok 0).
Proof.
  pose proof (int_of_string_printed n) as H.
  assert (Hs : strip (str_of_Z n) = str_of_Z n).
  { unfold str_of_Z. apply strip_no_space, decimal_no_space_int. }
  split.
  - intros short. rewrite (Is_true_eq_true _ short) in H.
    split; [| split].
    + unfold get_int; simpl. rewrite H. reflexivity.
    + unfold get_int; simpl. rewrite Hs, H. reflexivity.
    + reflexivity.
  - intros Hlong. rewrite Hlong in H. unfold get_int; simpl. rewrite H. reflexivity.
Qed.

Lemma get_int_reads_back_integers_witness :
  (get_int (PyScalar (SStr "-42")) = Ok (-42) /\
   get_int (PyScalar (SStr (get_str (PyScalar (SInt (-42) I))))) = Ok (-42) /\
   get_int (PyScalar (SInt (-42) I)) = Ok (-42)) /\
  get_int (PyScalar (SStr (str_of_Z (10 ^ 4300)))) = Ok 0.
Proof.
  split.
  - exact (proj1 (get_int_reads_back_integers (-42)) I).
  - apply (proj2 (get_int_reads_back_integers (10 ^ 4300))).
    vm_compute. reflexivity.
Defined.

(** ** The record store *)

Lemma select_none_existsb {R : Type} (key : R -> string) (prkey : R -> Z)
    (k : string) (t : table R) :
  select_prkey key prkey k t = None <->
  existsb (fun r => String.eqb (key r) k) (tbl_rows t) = false.
Proof.
  unfold select_prkey. induction (tbl_rows t) as [| r rows IH]; simpl.
  - tauto.
  - destruct (String.eqb (key r) k); simpl; [split; discriminate | exact IH].
Qed.

Lemma select_extend {R : Type} (key : R -> string) (prkey : R -> Z)
    (k : string) (t : table R) (r : R) :
  key r = k ->
  select_prkey key prkey k t = None ->
  select_prkey key prkey k (extend t r) = Some (prkey r).
Proof.
  intros Hk. unfold select_prkey, extend; simpl.
  induction (tbl_rows t) as [| r' rows IH]; simpl.
  - intros _. rewrite Hk, String.eqb_refl. reflexivity.
  - destruct (String.eqb (key r') k); simpl; [discriminate | exact IH].
Qed.

(** After a lookup that missed, the insert goes through. *)
Lemma insert_row_fresh {R : Type} (key : R -> string) (prkey : R -> Z)
    (mk : Z -> R) (t : table R) :
  select_prkey key prkey (key (mk (tbl_next t))) t = None ->
  insert_row key mk t = (Ok (tbl_next t), extend t (mk (tbl_next t))).
Proof.
  intros Hsel. unfold insert_row.
  apply select_none_existsb in Hsel. rewrite Hsel. reflexivity.
Qed.

(** An insert under a key that is there raises the violation. *)
Lemma insert_row_duplicate {R : Type} (key : R -> string) (prkey : R -> Z)
    (mk : Z -> R) (t : table R) (z : Z) :
  select_prkey key prkey (key (mk (tbl_next t))) t = Some z ->
  insert_row key mk t
    = (Raise UniqueViolation, {| tbl_rows := tbl_rows t; tbl_next := tbl_next t + 1 |}).
Proof.
  intros Hsel. unfold insert_row.
  destruct (existsb _ _) eqn:E; [reflexivity |].
  apply (select_none_existsb key prkey) in E. congruence.
Qed.

Lemma count_key_none {R : Type} (key : R -> string) (prkey : R -> Z)
    (k : string) (t : table R) :
  select_prkey key prkey k t = None -> count_key key k t = 0%nat.
Proof.
  unfold select_prkey, count_key. induction (tbl_rows t) as [| r rows IH]; simpl.
  - reflexivity.
  - destruct (String.eqb (key r) k); simpl; [discriminate | exact IH].
Qed.

Lemma count_key_some {R : Type} (key : R -> string) (prkey : R -> Z)
    (k : string) (t : table R) (z : Z) :
  select_prkey key prkey k t = Some z -> (1 <= count_key key k t)%nat.
Proof.
  unfold select_prkey, count_key. induction (tbl_rows t) as [| r rows IH]; simpl.
  - discriminate.
  - destruct (String.eqb (key r) k); simpl; [lia | exact IH].
Qed.

Lemma count_key_extend {R : Type} (key : R -> string) (k : string)
    (t : table R) (r : R) :
  key r = k -> count_key key k (extend t r) = S (count_key key k t).
Proof.
  intros Hk. unfold count_key, extend; simpl.
  rewrite List.filter_app, List.length_app. simpl.
  rewrite Hk, String.eqb_refl. simpl. lia.
Qed.

Lemma with_patient_id (d : database) : with_patient d (patient d) = d.
Proof. destruct d; reflexivity. Qed.

Lemma with_study_id (d : database) : with_study d (study d) = d.
Proof. destruct d; reflexivity. Qed.

Lemma with_series_id (d : database) : with_series d (series d) = d.
Proof. destruct d; reflexivity. Qed.

Lemma with_image_id (d : database) : with_image d (image d) = d.
Proof. destruct d; reflexivity. Qed.

Lemma ds_get_path (ds : dataset) (path key : string) (default : pyvalue) :
  key <> "Path" ->
  ds_get (<["Path" := PyScalar (SStr path)]> ds) key default = ds_get ds key default.
Proof.
  intros H. unfold ds_get. rewrite lookup_insert_ne by congruence. reflexivity.
Qed.

(** *** Tables across an ingestion *)

Lemma select_some_in {R : Type} (key : R -> string) (prkey : R -> Z)
    (k : string) (t : table R) (z : Z) :
  select_prkey key prkey k t = Some z ->
  exists r, In r (tbl_rows t) /\ key r = k /\ prkey r = z.
Proof.
  unfold select_prkey.
  destruct (List.find _ (tbl_rows t)) as [r |] eqn:E; simpl; [| discriminate].
  intros [= <-]. apply List.find_some in E as [Hin Heq].
  exists r. repeat split; [exact Hin | apply String.eqb_eq, Heq].
Qed.

Lemma select_none_not_in {R : Type} (key : R -> string) (prkey : R -> Z)
    (k : string) (t : table R) :
  select_prkey key prkey k t = None -> ~ In k (List.map key (tbl_rows t)).
Proof.
  intros Hsel Hin. apply List.in_map_iff in Hin as (r & Hk & Hin).
  unfold select_prkey in Hsel.
  destruct (List.find _ (tbl_rows t)) as [r' |] eqn:E; [discriminate |].
  pose proof (List.find_none _ _ E r Hin) as H. cbv beta in H.
  rewrite Hk, String.eqb_refl in H. discriminate.
Qed.

Lemma extend_neq {R : Type} (t : table R) (r : R) : extend t r <> t.
Proof.
  intros H. apply (f_equal (fun t => length (tbl_rows t))) in H.
  unfold extend in H. cbn in H. rewrite List.length_app in H. cbn in H. lia.
Qed.

Lemma extend_inj {R : Type} (t : table R) (r r' : R) :
  extend t r = extend t r' -> r = r'.
Proof.
  unfold extend. intros H. injection H as H.
  apply List.app_inj_tail in H as [_ H]. exact H.
Qed.

Lemma in_extend {R : Type} (t : table R) (r : R) : In r (tbl_rows (extend t r)).
Proof. unfold extend; cbn. apply List.in_or_app. right. left. reflexivity. Qed.

Lemma grown_refl {R : Type} (key : R -> string) (prkey : R -> Z) (t : table R) :
  grown key prkey t t.
Proof. left; reflexivity. Qed.

Lemma ingest_step_refl (d : database) : ingest_step d d.
Proof.
  unfold ingest_step. repeat split; try apply grown_refl;
    intros r Hr; symmetry in Hr; destruct (extend_neq _ _ Hr).
Qed.

Lemma grown_rows {R : Type} (key : R -> string) (prkey : R -> Z) (t t' : table R) :
  grown key prkey t t' ->
  exists suffix, tbl_rows t' = (tbl_rows t ++ suffix)%list /\ (length suffix <= 1)%nat.
Proof.
  intros [-> | (r & -> & _)].
  - exists []. rewrite app_nil_r. split; [reflexivity | simpl; lia].
  - exists [r]. split; [reflexivity | simpl; lia].
Qed.

Lemma grown_incl {R : Type} (key : R -> string) (prkey : R -> Z) (t t' : table R)
    (r : R) :
  grown key prkey t t' -> In r (tbl_rows t) -> In r (tbl_rows t').
Proof.
  intros H Hin. destruct (grown_rows _ _ _ _ H) as (suffix & -> & _).
  apply List.in_or_app. left. exact Hin.
Qed.

Lemma grown_keyed {R : Type} (key : R -> string) (prkey : R -> Z) (t t' : table R) :
  grown key prkey t t' -> keyed key prkey t -> keyed key prkey t'.
Proof.
  intros [-> | (r & -> & Hsel & Hpk)] (Hk & Hp & Hlt); [repeat split; assumption |].
  unfold keyed, extend; simpl. rewrite !List.map_app. simpl.
  split; [| split].
  - apply NoDup_app. split; [exact Hk |]. split; [| apply NoDup_singleton].
    intros x Hx Hx'. apply list_elem_of_In in Hx. apply list_elem_of_In in Hx'.
    destruct Hx' as [<- | []].
    exact (select_none_not_in _ _ _ _ Hsel Hx).
  - apply NoDup_app. split; [exact Hp |]. split; [| apply NoDup_singleton].
    intros x Hx Hx'. apply list_elem_of_In in Hx. apply list_elem_of_In in Hx'.
    destruct Hx' as [<- | []].
    apply List.in_map_iff in Hx as (r' & Heq & Hin).
    rewrite List.Forall_forall in Hlt. specialize (Hlt r' Hin). lia.
  - apply List.Forall_app. split.
    + eapply List.Forall_impl; [| exact Hlt]. cbv beta. intros; lia.
    + constructor; [lia | constructor].
Qed.

(** ** CatalogResolver *)

#[local] Arguments insert_row : simpl never.
#[local] Arguments select_prkey : simpl never.
#[local] Arguments get_str : simpl never.
#[local] Arguments get_int : simpl never.
#[local] Arguments String.append : simpl never.
#[local] Arguments extend : simpl never.

Ltac run Hseq :=
  unfold bind, ret, raise, lift, logging, execute, ds_attr; cbn; rewrite ?Hseq; cbn.

(** The world left by a refused insert, once it is known. *)
Ltac refused_world :=
  unfold refused; cbn;
  repeat match goal with
         | |- _ /\ _ => split
         | |- exists extra, ?l = (?l ++ extra)%list =>
             exists []; symmetry; apply app_nil_r
         | |- exists extra, _ = (_ ++ extra)%list =>
             rewrite <- ?app_assoc; eexists; reflexivity
         | |- _ => reflexivity
         end.

Ltac same_world :=
  f_equal; f_equal;
  first [ reflexivity
        | rewrite <- app_assoc; reflexivity
        | symmetry; apply app_nil_r ].

Section CatalogProperties.

Variable repr : seq_kind -> list scalar -> string.
Variable root : string.

(** *** Patient *)

Lemma get_or_create_patient_nokey (ds : dataset) (path : string) (w : world) :
  natural_key repr "PatientID" "UNKNOWN_PATIENT_" ds = None ->
  get_or_create_patient repr ds path w = (Raise AttributeError, w).
Proof.
  unfold natural_key, get_or_create_patient, ds_attr.
  destruct (String.eqb _ "") eqn:E; [| discriminate].
  destruct (ds !! "SOPInstanceUID"); [discriminate |].
  intros _. reflexivity.
Qed.

Lemma get_or_create_patient_hit (ds : dataset) (path : string) (w : world)
    (key : string) (k : Z) :
  others w = [] ->
  natural_key repr "PatientID" "UNKNOWN_PATIENT_" ds = Some key ->
  select_prkey Patient.patient_id Patient.patient_prkey key (patient (db w)) = Some k ->
  exists extra,
    get_or_create_patient repr ds path w
      = (Ok k, {| db := db w; log := log w ++ extra; fs := fs w; others := [] |}).
Proof.
  intros Hseq. unfold natural_key, get_or_create_patient, ds_attr.
  destruct (String.eqb _ "") eqn:E;
    [destruct (ds !! "SOPInstanceUID") as [sop |] eqn:Esop; [| discriminate] |];
    cbn; intros [= <-] Hsel;
    eexists; run Hseq; rewrite Hsel; cbn; same_world.
Qed.

Lemma get_or_create_patient_miss (ds : dataset) (path : string) (w : world)
    (key : string) :
  others w = [] ->
  natural_key repr "PatientID" "UNKNOWN_PATIENT_" ds = Some key ->
  select_prkey Patient.patient_id Patient.patient_prkey key (patient (db w)) = None ->
  exists r extra,
    get_or_create_patient repr ds path w
      = (Ok (tbl_next (patient (db w))),
         {| db := with_patient (db w) (extend (patient (db w)) r);
            log := log w ++ extra; fs := fs w; others := [] |}) /\
    Patient.patient_id r = key /\
    Patient.patient_prkey r = tbl_next (patient (db w)) /\
    (get_str (ds_get ds "PatientID" PyNone) = "" ->
     In (WARNING, "PatientID kosong, menggunakan fallback: " +:+ key) extra).
Proof.
  intros Hseq. unfold natural_key, get_or_create_patient, ds_attr.
  destruct (String.eqb _ "") eqn:E;
    [destruct (ds !! "SOPInstanceUID") as [sop |] eqn:Esop; [| discriminate] |];
    cbn; intros [= <-] Hsel;
    eexists; eexists; run Hseq; rewrite Hsel; cbn; rewrite ?Hseq; cbn;
    rewrite (insert_row_fresh _ Patient.patient_prkey) by exact Hsel;
    (split; [same_world |]); cbn;
    do 2 (split; [reflexivity |]);
    intros Hid; try (apply String.eqb_neq in E; contradiction);
    cbn; tauto.
Qed.

(** The lookup misses, another connection commits the key, and the insert
    raises: nothing catches the violation and no second lookup is made. *)
Lemma get_or_create_patient_race (ds : dataset) (path : string) (w : world)
    (f0 f1 : database -> database) (rest : list (database -> database))
    (key : string) (z : Z) :
  others w = f0 :: f1 :: rest ->
  natural_key repr "PatientID" "UNKNOWN_PATIENT_" ds = Some key ->
  select_prkey Patient.patient_id Patient.patient_prkey key (patient (f0 (db w))) = None ->
  select_prkey Patient.patient_id Patient.patient_prkey key (patient (f1 (f0 (db w)))) = Some z ->
  exists w',
    get_or_create_patient repr ds path w = (Raise UniqueViolation, w') /\
    refused w w' (f1 (f0 (db w))) rest.
Proof.
  intros Hseq. unfold natural_key, get_or_create_patient, ds_attr.
  destruct (String.eqb (get_str (ds_get ds "PatientID" PyNone)) "") eqn:E;
    [destruct (ds !! "SOPInstanceUID") as [sop |] eqn:Esop; [| discriminate] |];
    cbn; intros [= <-] Hmiss Hthere;
    eexists; (split;
      [ run Hseq; rewrite Hmiss; cbn;
        rewrite (insert_row_duplicate _ Patient.patient_prkey _ _ z) by exact Hthere;
        reflexivity
      | refused_world ]).
Qed.

(** On its own a resolver either lacks the attribute its fallback needs,
    or returns a key under which the natural key is stored afterwards. *)
Lemma get_or_create_patient_alone (ds : dataset) (path : string) (w : world) :
  others w = [] ->
  match natural_key repr "PatientID" "UNKNOWN_PATIENT_" ds with
  | None => get_or_create_patient repr ds path w = (Raise AttributeError, w)
  | Some key =>
      exists k t' extra,
        get_or_create_patient repr ds path w
          = (Ok k, {| db := with_patient (db w) t'; log := log w ++ extra;
                      fs := fs w; others := [] |}) /\
        select_prkey Patient.patient_id Patient.patient_prkey key t' = Some k
  end.
Proof.
  intros Hseq.
  destruct (natural_key repr "PatientID" "UNKNOWN_PATIENT_" ds) as [key |] eqn:Hkey;
    [| apply get_or_create_patient_nokey, Hkey].
  destruct (select_prkey Patient.patient_id Patient.patient_prkey key (patient (db w)))
    as [k |] eqn:Hsel.
  - destruct (get_or_create_patient_hit ds path w key k Hseq Hkey Hsel) as [extra H].
    exists k, (patient (db w)), extra. rewrite with_patient_id. split; [exact H | exact Hsel].
  - destruct (get_or_create_patient_miss ds path w key Hseq Hkey Hsel)
      as (r & extra & H & Hr & Hk & _).
    exists (tbl_next (patient (db w))), (extend (patient (db w)) r), extra.
    split; [exact H |]. rewrite <- Hk. apply select_extend; assumption.
Qed.

(** *** Study *)

Lemma get_or_create_study_nokey (ds : dataset) (pk : Z) (path : string) (w : world) :
  natural_key repr "StudyInstanceUID" "UNKNOWN_STUDY_" ds = None ->
  get_or_create_study repr ds pk path w = (Raise AttributeError, w).
Proof.
  unfold natural_key, get_or_create_study, ds_attr.
  destruct (String.eqb _ "") eqn:E; [| discriminate].
  destruct (ds !! "SOPInstanceUID"); [discriminate |].
  intros _. reflexivity.
Qed.

Lemma get_or_create_study_hit (ds : dataset) (pk : Z) (path : string) (w : world)
    (key : string) (k : Z) :
  others w = [] ->
  natural_key repr "StudyInstanceUID" "UNKNOWN_STUDY_" ds = Some key ->
  select_prkey Study.study_instance_uid Study.study_prkey key (study (db w)) = Some k ->
  exists extra,
    get_or_create_study repr ds pk path w
      = (Ok k, {| db := db w; log := log w ++ extra; fs := fs w; others := [] |}).
Proof.
  intros Hseq. unfold natural_key, get_or_create_study, ds_attr.
  destruct (String.eqb _ "") eqn:E;
    [destruct (ds !! "SOPInstanceUID") as [sop |] eqn:Esop; [| discriminate] |];
    cbn; intros [= <-] Hsel;
    eexists; run Hseq; rewrite Hsel; cbn; same_world.
Qed.

Lemma get_or_create_study_miss (ds : dataset) (pk : Z) (path : string) (w : world)
    (key : string) :
  others w = [] ->
  natural_key repr "StudyInstanceUID" "UNKNOWN_STUDY_" ds = Some key ->
  select_prkey Study.study_instance_uid Study.study_prkey key (study (db w)) = None ->
  exists r extra,
    get_or_create_study repr ds pk path w
      = (Ok (tbl_next (study (db w))),
         {| db := with_study (db w) (extend (study (db w)) r);
            log := log w ++ extra; fs := fs w; others := [] |}) /\
    Study.study_instance_uid r = key /\
    Study.study_prkey r = tbl_next (study (db w)) /\
    Study.patient_prkey r = pk /\
    (get_str (ds_get ds "AccessionNumber" PyNone) = "" ->
     Study.accession_number r = key /\
     In (WARNING, "AccessionNumber kosong, menggunakan StudyInstanceUID '"
                  +:+ key +:+ "' sebagai fallback.") extra).
Proof.
  intros Hseq. unfold natural_key, get_or_create_study, ds_attr.
  destruct (String.eqb (get_str (ds_get ds "StudyInstanceUID" PyNone)) "") eqn:E;
    [destruct (ds !! "SOPInstanceUID") as [sop |] eqn:Esop; [| discriminate] |];
    cbn; intros [= <-] Hsel;
    destruct (String.eqb (get_str (ds_get ds "AccessionNumber" PyNone)) "") eqn:Ea;
    eexists; eexists; run Hseq; rewrite Hsel; cbn; rewrite ?Hseq; cbn;
    rewrite (insert_row_fresh _ Study.study_prkey) by exact Hsel;
    (split; [same_world |]); cbn;
    do 3 (split; [reflexivity |]);
    intros Hacc; try (apply String.eqb_neq in Ea; contradiction);
    (split; [reflexivity | cbn; tauto]).
Qed.

(** The lookup misses, another connection commits the key, and the insert
    raises: nothing catches the violation and no second lookup is made. *)
Lemma get_or_create_study_race (ds : dataset) (pk : Z) (path : string) (w : world)
    (f0 f1 : database -> database) (rest : list (database -> database))
    (key : string) (z : Z) :
  others w = f0 :: f1 :: rest ->
  natural_key repr "StudyInstanceUID" "UNKNOWN_STUDY_" ds = Some key ->
  select_prkey Study.study_instance_uid Study.study_prkey key (study (f0 (db w))) = None ->
  select_prkey Study.study_instance_uid Study.study_prkey key (study (f1 (f0 (db w)))) = Some z ->
  exists w',
    get_or_create_study repr ds pk path w = (Raise UniqueViolation, w') /\
    refused w w' (f1 (f0 (db w))) rest.
Proof.
  intros Hseq. unfold natural_key, get_or_create_study, ds_attr.
  destruct (String.eqb (get_str (ds_get ds "StudyInstanceUID" PyNone)) "") eqn:E;
    [destruct (ds !! "SOPInstanceUID") as [sop |] eqn:Esop; [| discriminate] |];
    cbn; intros [= <-] Hmiss Hthere;
    destruct (String.eqb (get_str (ds_get ds "AccessionNumber" PyNone)) "") eqn:Ea;
    eexists; (split;
      [ run Hseq; rewrite Hmiss; cbn; rewrite ?Ea; cbn;
        rewrite (insert_row_duplicate _ Study.study_prkey _ _ z) by exact Hthere;
        reflexivity
      | refused_world ]).
Qed.

(** On its own a resolver either lacks the attribute its fallback needs,
    or returns a key under which the natural key is stored afterwards. *)
Lemma get_or_create_study_alone (ds : dataset) (pk : Z) (path : string) (w : world) :
  others w = [] ->
  match natural_key repr "StudyInstanceUID" "UNKNOWN_STUDY_" ds with
  | None => get_or_create_study repr ds pk path w = (Raise AttributeError, w)
  | Some key =>
      exists k t' extra,
        get_or_create_study repr ds pk path w
          = (Ok k, {| db := with_study (db w) t'; log := log w ++ extra;
                      fs := fs w; others := [] |}) /\
        select_prkey Study.study_instance_uid Study.study_prkey key t' = Some k
  end.
Proof.
  intros Hseq.
  destruct (natural_key repr "StudyInstanceUID" "UNKNOWN_STUDY_" ds) as [key |] eqn:Hkey;
    [| apply get_or_create_study_nokey, Hkey].
  destruct (select_prkey Study.study_instance_uid Study.study_prkey key (study (db w)))
    as [k |] eqn:Hsel.
  - destruct (get_or_create_study_hit ds pk path w key k Hseq Hkey Hsel) as [extra H].
    exists k, (study (db w)), extra. rewrite with_study_id. split; [exact H | exact Hsel].
  - destruct (get_or_create_study_miss ds pk path w key Hseq Hkey Hsel)
      as (r & extra & H & Hr & Hk & _).
    exists (tbl_next (study (db w))), (extend (study (db w)) r), extra.
    split; [exact H |]. rewrite <- Hk. apply select_extend; assumption.
Qed.

(** *** Series *)

Lemma get_or_create_series_nokey (ds : dataset) (pk : Z) (path : string) (w : world) :
  natural_key repr "SeriesInstanceUID" "UNKNOWN_SERIES_" ds = None ->
  get_or_create_series repr ds pk path w = (Raise AttributeError, w).
Proof.
  unfold natural_key, get_or_create_series, ds_attr.
  destruct (String.eqb _ "") eqn:E; [| discriminate].
  destruct (ds !! "SOPInstanceUID"); [discriminate |].
  intros _. reflexivity.
Qed.

Lemma get_or_create_series_hit (ds : dataset) (pk : Z) (path : string) (w : world)
    (key : string) (k : Z) :
  others w = [] ->
  natural_key repr "SeriesInstanceUID" "UNKNOWN_SERIES_" ds = Some key ->
  select_prkey Series.series_instance_uid Series.series_prkey key (series (db w)) = Some k ->
  exists extra,
    get_or_create_series repr ds pk path w
      = (Ok k, {| db := db w; log := log w ++ extra; fs := fs w; others := [] |}).
Proof.
  intros Hseq. unfold natural_key, get_or_create_series, ds_attr.
  destruct (String.eqb _ "") eqn:E;
    [destruct (ds !! "SOPInstanceUID") as [sop |] eqn:Esop; [| discriminate] |];
    cbn; intros [= <-] Hsel;
    eexists; run Hseq; rewrite Hsel; cbn; same_world.
Qed.

Lemma get_or_create_series_miss (ds : dataset) (pk : Z) (path : string) (w : world)
    (key : string) :
  others w = [] ->
  natural_key repr "SeriesInstanceUID" "UNKNOWN_SERIES_" ds = Some key ->
  select_prkey Series.series_instance_uid Series.series_prkey key (series (db w))
    = None ->
  exists r extra,
    get_or_create_series repr ds pk path w
      = (Ok (tbl_next (series (db w))),
         {| db := with_series (db w) (extend (series (db w)) r);
            log := log w ++ extra; fs := fs w; others := [] |}) /\
    Series.series_instance_uid r = key /\
    Series.series_prkey r = tbl_next (series (db w)) /\
    Series.study_prkey r = pk /\
    Series.localizer_instance_uid r = get_str (ds_get ds "SOPInstanceUID" PyNone).
Proof.
  intros Hseq. unfold natural_key, get_or_create_series, ds_attr.
  destruct (String.eqb _ "") eqn:E;
    [destruct (ds !! "SOPInstanceUID") as [sop |] eqn:Esop; [| discriminate] |];
    cbn; intros [= <-] Hsel;
    eexists; eexists; run Hseq; rewrite Hsel; cbn; rewrite ?Hseq; cbn;
    rewrite (insert_row_fresh _ Series.series_prkey) by exact Hsel;
    (split; [same_world |]); cbn;
    repeat split; reflexivity.
Qed.

(** The lookup misses, another connection commits the key, and the insert
    raises: nothing catches the violation and no second lookup is made. *)
Lemma get_or_create_series_race (ds : dataset) (pk : Z) (path : string) (w : world)
    (f0 f1 : database -> database) (rest : list (database -> database))
    (key : string) (z : Z) :
  others w = f0 :: f1 :: rest ->
  natural_key repr "SeriesInstanceUID" "UNKNOWN_SERIES_" ds = Some key ->
  select_prkey Series.series_instance_uid Series.series_prkey key (series (f0 (db w))) = None ->
  select_prkey Series.series_instance_uid Series.series_prkey key (series (f1 (f0 (db w)))) = Some z ->
  exists w',
    get_or_create_series repr ds pk path w = (Raise UniqueViolation, w') /\
    refused w w' (f1 (f0 (db w))) rest.
Proof.
  intros Hseq. unfold natural_key, get_or_create_series, ds_attr.
  destruct (String.eqb (get_str (ds_get ds "SeriesInstanceUID" PyNone)) "") eqn:E;
    [destruct (ds !! "SOPInstanceUID") as [sop |] eqn:Esop; [| discriminate] |];
    cbn; intros [= <-] Hmiss Hthere;
    eexists; (split;
      [ run Hseq; rewrite Hmiss; cbn;
        rewrite (insert_row_duplicate _ Series.series_prkey _ _ z) by exact Hthere;
        reflexivity
      | refused_world ]).
Qed.

(** On its own a resolver either lacks the attribute its fallback needs,
    or returns a key under which the natural key is stored afterwards. *)
Lemma get_or_create_series_alone (ds : dataset) (pk : Z) (path : string) (w : world) :
  others w = [] ->
  match natural_key repr "SeriesInstanceUID" "UNKNOWN_SERIES_" ds with
  | None => get_or_create_series repr ds pk path w = (Raise AttributeError, w)
  | Some key =>
      exists k t' extra,
        get_or_create_series repr ds pk path w
          = (Ok k, {| db := with_series (db w) t'; log := log w ++ extra;
                      fs := fs w; others := [] |}) /\
        select_prkey Series.series_instance_uid Series.series_prkey key t' = Some k
  end.
Proof.
  intros Hseq.
  destruct (natural_key repr "SeriesInstanceUID" "UNKNOWN_SERIES_" ds) as [key |] eqn:Hkey;
    [| apply get_or_create_series_nokey, Hkey].
  destruct (select_prkey Series.series_instance_uid Series.series_prkey key (series (db w)))
    as [k |] eqn:Hsel.
  - destruct (get_or_create_series_hit ds pk path w key k Hseq Hkey Hsel) as [extra H].
    exists k, (series (db w)), extra. rewrite with_series_id. split; [exact H | exact Hsel].
  - destruct (get_or_create_series_miss ds pk path w key Hseq Hkey Hsel)
      as (r & extra & H & Hr & Hk & _).
    exists (tbl_next (series (db w))), (extend (series (db w)) r), extra.
    split; [exact H |]. rewrite <- Hk. apply select_extend; assumption.
Qed.

(** *** Image *)

Lemma save_image_metadata_no_sop (ds : dataset) (pk sk : Z) (w : world) :
  get_str (ds_get ds "SOPInstanceUID" PyNone) = "" ->
  save_image_metadata ds pk sk w
    = (Ok tt,
       {| db := db w;
          log := log w
                 ++ [(ERROR, "SOPInstanceUID kosong, tidak bisa menyimpan image metadata.")];
          fs := fs w; others := others w |}).
Proof.
  intros H. unfold save_image_metadata. rewrite H. reflexivity.
Qed.

Lemma save_image_metadata_hit (ds : dataset) (pk sk : Z) (w : world) (k : Z) :
  others w = [] ->
  get_str (ds_get ds "SOPInstanceUID" PyNone) <> "" ->
  select_prkey Image.sop_instance_uid Image.image_prkey
    (get_str (ds_get ds "SOPInstanceUID" PyNone)) (image (db w)) = Some k ->
  exists extra,
    save_image_metadata ds pk sk w
      = (Ok tt, {| db := db w; log := log w ++ extra; fs := fs w; others := [] |}).
Proof.
  intros Hseq Hsop Hsel. unfold save_image_metadata.
  rewrite (eqb_empty_false _ Hsop).
  eexists. run Hseq. rewrite Hsel. cbn. reflexivity.
Qed.

Lemma save_image_metadata_alone (ds : dataset) (pk sk : Z) (w w' : world) :
  others w = [] ->
  get_str (ds_get ds "SOPInstanceUID" PyNone) <> "" ->
  save_image_metadata ds pk sk w = (Ok tt, w') ->
  exists t' extra z,
    w' = {| db := with_image (db w) t'; log := log w ++ extra;
            fs := fs w; others := [] |} /\
    select_prkey Image.sop_instance_uid Image.image_prkey
      (get_str (ds_get ds "SOPInstanceUID" PyNone)) t' = Some z /\
    ((count_key Image.sop_instance_uid
        (get_str (ds_get ds "SOPInstanceUID" PyNone)) (image (db w)) <= 1)%nat ->
     count_key Image.sop_instance_uid
       (get_str (ds_get ds "SOPInstanceUID" PyNone)) t' = 1%nat).
Proof.
  intros Hseq Hsop. unfold save_image_metadata.
  rewrite (eqb_empty_false _ Hsop).
  run Hseq.
  destruct (select_prkey Image.sop_instance_uid Image.image_prkey _ (image (db w)))
    as [k |] eqn:Hsel; cbn.
  - intros [= <-]. exists (image (db w)). eexists. exists k.
    rewrite with_image_id. split; [reflexivity |]. split; [exact Hsel |].
    intros Hle. pose proof (count_key_some _ _ _ _ _ Hsel). lia.
  - destruct (get_int (ds_get ds "BitsAllocated" PyNone)) as [b |]; cbn;
      [| discriminate].
    destruct (get_int (ds_get ds "Rows" PyNone)) as [r |]; cbn; [| discriminate].
    destruct (get_int (ds_get ds "Columns" PyNone)) as [c |]; cbn; [| discriminate].
    rewrite (insert_row_fresh _ Image.image_prkey) by exact Hsel. cbn.
    intros [= <-]. eexists. exists [], (tbl_next (image (db w))).
    split; [rewrite app_nil_r; reflexivity |]. split.
    + apply (select_extend Image.sop_instance_uid Image.image_prkey);
        [reflexivity | exact Hsel].
    + intros _. rewrite count_key_extend by reflexivity.
      rewrite (count_key_none _ _ _ _ Hsel). reflexivity.
Qed.


(** *** The chain of four resolutions *)

Lemma resolve_chain_catalogues (ds : dataset) (path : string) (w w' : world)
    (keys : Z * Z * Z) :
  others w = [] ->
  resolve_chain repr ds path w = (Ok keys, w') ->
  catalogued repr ds keys (db w') /\
  others w' = [] /\ fs w' = fs w /\
  (get_str (ds_get ds "SOPInstanceUID" PyNone) = "" ->
   image (db w') = image (db w)) /\
  (get_str (ds_get ds "SOPInstanceUID" PyNone) <> "" ->
   (count_key Image.sop_instance_uid
      (get_str (ds_get ds "SOPInstanceUID" PyNone)) (image (db w)) <= 1)%nat ->
   count_key Image.sop_instance_uid
     (get_str (ds_get ds "SOPInstanceUID" PyNone)) (image (db w')) = 1%nat).
Proof.
  intros Hseq. unfold resolve_chain, bind.
  pose proof (get_or_create_patient_alone ds path w Hseq) as Hp.
  destruct (natural_key repr "PatientID" "UNKNOWN_PATIENT_" ds) as [keyp |] eqn:Hkp;
    [destruct Hp as (kp & tp & ep & -> & Hselp) | rewrite Hp; discriminate].
  match goal with |- context [get_or_create_study repr ds kp path ?w0] =>
    pose proof (get_or_create_study_alone ds kp path w0 eq_refl) as Hs end.
  destruct (natural_key repr "StudyInstanceUID" "UNKNOWN_STUDY_" ds) as [keyst |] eqn:Hks;
    [destruct Hs as (ks & ts & es & -> & Hsels) | rewrite Hs; discriminate].
  match goal with |- context [get_or_create_series repr ds ks path ?w0] =>
    pose proof (get_or_create_series_alone ds ks path w0 eq_refl) as Hse end.
  destruct (natural_key repr "SeriesInstanceUID" "UNKNOWN_SERIES_" ds) as [keyse |] eqn:Hkse;
    [destruct Hse as (kse & tse & ese & -> & Hselse) | rewrite Hse; discriminate].
  cbn.
  destruct (String.eqb (get_str (ds_get ds "SOPInstanceUID" PyNone)) "") eqn:Esop.
  - apply String.eqb_eq in Esop.
    rewrite (save_image_metadata_no_sop ds kp kse _ Esop). cbn.
    intros [= <- <-]. cbn. unfold catalogued. repeat split; eauto; congruence.
  - apply String.eqb_neq in Esop.
    match goal with |- context [save_image_metadata ds kp kse ?w0] =>
      destruct (save_image_metadata ds kp kse w0) as [[[] | e] wi] eqn:Hi;
      [ destruct (save_image_metadata_alone ds kp kse w0 wi eq_refl Esop Hi)
          as (ti & ei & z & -> & Hseli & Hcount)
      | discriminate ] end.
    cbn. intros [= <- <-]. cbn in *. unfold catalogued.
    repeat split; eauto; congruence.
Qed.


Lemma resolve_chain_again (ds : dataset) (path : string) (w : world)
    (keys : Z * Z * Z) :
  others w = [] ->
  catalogued repr ds keys (db w) ->
  exists extra,
    resolve_chain repr ds path w
      = (Ok keys, {| db := db w; log := log w ++ extra; fs := fs w; others := [] |}).
Proof.
  intros Hseq. destruct keys as [[kp ks] kse].
  intros ((keyp & Hkp & Hselp) & (keyst & Hks & Hsels) & (keyse & Hkse & Hselse) & Hi).
  unfold resolve_chain, bind.
  destruct (get_or_create_patient_hit ds path w keyp kp Hseq Hkp Hselp)
    as [ep ->].
  match goal with |- context [get_or_create_study repr ds kp path ?w0] =>
    destruct (get_or_create_study_hit ds kp path w0 keyst ks eq_refl Hks Hsels)
      as [es ->] end.
  match goal with |- context [get_or_create_series repr ds ks path ?w0] =>
    destruct (get_or_create_series_hit ds ks path w0 keyse kse eq_refl Hkse Hselse)
      as [ese ->] end.
  cbn.
  destruct (String.eqb (get_str (ds_get ds "SOPInstanceUID" PyNone)) "") eqn:Esop.
  - apply String.eqb_eq in Esop.
    rewrite (save_image_metadata_no_sop ds kp kse _ Esop). cbn.
    eexists. f_equal. f_equal. rewrite <- !app_assoc. reflexivity.
  - apply String.eqb_neq in Esop. destruct (Hi Esop) as [z Hz].
    match goal with |- context [save_image_metadata ds kp kse ?w0] =>
      destruct (save_image_metadata_hit ds kp kse w0 z eq_refl Esop Hz) as [ei ->] end.
    cbn. eexists. f_equal. f_equal. rewrite <- !app_assoc. reflexivity.
Qed.


Lemma natural_key_some (field fallback : string) (ds : dataset) :
  is_Some (ds !! "SOPInstanceUID") -> is_Some (natural_key repr field fallback ds).
Proof.
  intros [sop Hsop]. unfold natural_key. rewrite Hsop.
  destruct (String.eqb _ ""); cbn; eauto.
Qed.


(** [save_metadata] once the file decodes: the chain, then the closing
    log record or the handler. *)
Lemma save_metadata_decoded (ds : dataset) (path : string) (w : world) :
  fs w !! os_path_join root path = Some (DicomFile ds) ->
  save_metadata root repr path w
    = match resolve_chain repr (<["Path" := PyScalar (SStr path)]> ds) path w with
      | (Ok keys, w') =>
          (Ok keys,
           {| db := db w';
              log := log w' ++ [(INFO, "Metadata dari '" +:+ path
                                       +:+ "' berhasil disimpan ke database.")];
              fs := fs w'; others := others w' |})
      | (Raise e, w') => save_metadata_except path e w'
      end.
Proof.
  intros Hfs. unfold save_metadata, try_except, read_dataset. rewrite Hfs.
  unfold bind.
  destruct (resolve_chain repr (<["Path" := PyScalar (SStr path)]> ds) path w)
    as [[keys | e] w']; reflexivity.
Qed.


Lemma save_image_metadata_returns (ds : dataset) (pk sk : Z) (w : world)
    (b r c : Z) :
  others w = [] ->
  get_int (ds_get ds "BitsAllocated" PyNone) = Ok b ->
  get_int (ds_get ds "Rows" PyNone) = Ok r ->
  get_int (ds_get ds "Columns" PyNone) = Ok c ->
  exists w', save_image_metadata ds pk sk w = (Ok tt, w').
Proof.
  intros Hseq Hb Hr Hc. unfold save_image_metadata.
  destruct (String.eqb (get_str (ds_get ds "SOPInstanceUID" PyNone)) "") eqn:Esop;
    [eexists; reflexivity |].
  run Hseq.
  destruct (select_prkey Image.sop_instance_uid Image.image_prkey _ (image (db w)))
    as [k |] eqn:Hsel; cbn; [eexists; reflexivity |].
  rewrite Hb, Hr, Hc. cbn.
  rewrite (insert_row_fresh _ Image.image_prkey) by exact Hsel.
  eexists; reflexivity.
Qed.

(** X3 - ingest on its own of a decoded dataset that has a SOP instance
    identifier attribute and convertible image dimensions returns. *)
Lemma save_metadata_returns (ds : dataset) (path : string) (w : world)
    (b r c : Z) :
  others w = [] ->
  fs w !! os_path_join root path = Some (DicomFile ds) ->
  is_Some (ds !! "SOPInstanceUID") ->
  get_int (ds_get ds "BitsAllocated" PyNone) = Ok b ->
  get_int (ds_get ds "Rows" PyNone) = Ok r ->
  get_int (ds_get ds "Columns" PyNone) = Ok c ->
  exists keys w1, save_metadata root repr path w = (Ok keys, w1).
Proof.
  intros Hseq Hfs Hsop Hb Hr Hc. rewrite (save_metadata_decoded ds path w Hfs).
  set (ds' := <["Path" := PyScalar (SStr path)]> ds).
  assert (Hsop' : is_Some (ds' !! "SOPInstanceUID"))
    by (unfold ds'; rewrite lookup_insert_ne by discriminate; exact Hsop).
  unfold resolve_chain, bind.
  pose proof (get_or_create_patient_alone ds' path w Hseq) as Hp.
  destruct (natural_key_some "PatientID" "UNKNOWN_PATIENT_" ds' Hsop') as [kp' Hkp].
  rewrite Hkp in Hp. destruct Hp as (kp & tp & ep & -> & _).
  match goal with |- context [get_or_create_study repr ds' kp path ?w0] =>
    pose proof (get_or_create_study_alone ds' kp path w0 eq_refl) as Hs end.
  destruct (natural_key_some "StudyInstanceUID" "UNKNOWN_STUDY_" ds' Hsop')
    as [ks' Hks].
  rewrite Hks in Hs. destruct Hs as (ks & ts & es & -> & _).
  match goal with |- context [get_or_create_series repr ds' ks path ?w0] =>
    pose proof (get_or_create_series_alone ds' ks path w0 eq_refl) as Hse end.
  destruct (natural_key_some "SeriesInstanceUID" "UNKNOWN_SERIES_" ds' Hsop')
    as [kse' Hkse].
  rewrite Hkse in Hse. destruct Hse as (kse & tse & ese & -> & _).
  match goal with |- context [save_image_metadata ds' kp kse ?w0] =>
    destruct (save_image_metadata_returns ds' kp kse w0 b r c eq_refl) as [wi ->] end;
    try (unfold ds'; rewrite ds_get_path by discriminate; assumption).
  cbn. eexists; eexists; reflexivity.
Qed.


(** C4 - calling ingest a second time on its own, with the same dataset
    and path, after a first call that succeeded: the second call succeeds
    with the same Patient, Study and Series keys, leaves the store exactly
    as the first call left it (the second Image insert is skipped, without
    an error), and the store holds exactly one Image row for the SOP
    instance identifier. *)
Theorem ingest_twice (ds : dataset) (path : string) (w w1 : world)
    (keys : Z * Z * Z) :
  others w = [] ->
  fs w !! os_path_join root path = Some (DicomFile ds) ->
  get_str (ds_get ds "SOPInstanceUID" PyNone) <> "" ->
  (count_key Image.sop_instance_uid
     (get_str (ds_get ds "SOPInstanceUID" PyNone)) (image (db w)) <= 1)%nat ->
  save_metadata root repr path w = (Ok keys, w1) ->
  (exists extra,
     save_metadata root repr path w1
       = (Ok keys, {| db := db w1; log := log w1 ++ extra;
                      fs := fs w1; others := [] |})) /\
  count_key Image.sop_instance_uid
    (get_str (ds_get ds "SOPInstanceUID" PyNone)) (image (db w1)) = 1%nat.
Proof.
  intros Hseq Hfs Hsop Hcount. rewrite (save_metadata_decoded ds path w Hfs).
  destruct (resolve_chain repr (<["Path" := PyScalar (SStr path)]> ds) path w)
    as [[keys' | e] w'] eqn:Hchain; [| unfold save_metadata_except, bind, logging, raise;
                                        destruct (pyexn_eqb e InvalidDicomError);
                                        discriminate].
  intros [= <- Hw1].
  destruct (resolve_chain_catalogues _ path w w' keys' Hseq Hchain)
    as (Hcat & Hseq' & Hfs' & _ & Hone).
  rewrite ds_get_path in Hone by discriminate.
  assert (Hdb : db w1 = db w') by (rewrite <- Hw1; reflexivity).
  assert (Hseq1 : others w1 = []) by (rewrite <- Hw1; exact Hseq').
  assert (Hfs1 : fs w1 !! os_path_join root path = Some (DicomFile ds))
    by (rewrite <- Hw1; cbn; rewrite Hfs'; exact Hfs).
  rewrite Hdb. split; [| apply Hone; assumption].
  rewrite (save_metadata_decoded ds path w1 Hfs1).
  rewrite <- Hdb in Hcat.
  destruct (resolve_chain_again _ path w1 keys' Hseq1 Hcat) as [extra ->].
  cbn. rewrite Hdb. eexists. f_equal. f_equal. rewrite <- app_assoc. reflexivity.
Qed.


(** C5 (amended) - when the lookup of a Patient, Study or Series by its
    natural key misses and the insert that follows raises a uniqueness
    violation because another connection committed the key in between,
    the resolver makes no second lookup: it has run exactly its two
    statements and added no row, and the violation goes on to
    [save_metadata], which logs it and raises it again. The world
    [save_metadata] ends in is the world of the refused insert with the one
    ERROR record added, so the resolutions that follow in the chain have
    not run: they execute no statement and add no row. *)
Theorem uniqueness_violation_propagates (ds0 : dataset) (path : string) (w : world) :
  fs w !! os_path_join root path = Some (DicomFile ds0) ->
  (forall f0 f1 rest key z,
      others w = f0 :: f1 :: rest ->
      natural_key repr "PatientID" "UNKNOWN_PATIENT_"
        (<["Path" := PyScalar (SStr path)]> ds0) = Some key ->
      select_prkey Patient.patient_id Patient.patient_prkey key
        (patient (f0 (db w))) = None ->
      select_prkey Patient.patient_id Patient.patient_prkey key
        (patient (f1 (f0 (db w)))) = Some z ->
      exists w',
        get_or_create_patient repr (<["Path" := PyScalar (SStr path)]> ds0) path w
          = (Raise UniqueViolation, w') /\
        refused w w' (f1 (f0 (db w))) rest /\
        save_metadata root repr path w
          = (Raise UniqueViolation, with_error_record path UniqueViolation w')) /\
  (forall patient_prkey w1 f0 f1 rest key z,
      get_or_create_patient repr (<["Path" := PyScalar (SStr path)]> ds0) path w
        = (Ok patient_prkey, w1) ->
      others w1 = f0 :: f1 :: rest ->
      natural_key repr "StudyInstanceUID" "UNKNOWN_STUDY_"
        (<["Path" := PyScalar (SStr path)]> ds0) = Some key ->
      select_prkey Study.study_instance_uid Study.study_prkey key
        (study (f0 (db w1))) = None ->
      select_prkey Study.study_instance_uid Study.study_prkey key
        (study (f1 (f0 (db w1)))) = Some z ->
      exists w',
        get_or_create_study repr (<["Path" := PyScalar (SStr path)]> ds0)
          patient_prkey path w1 = (Raise UniqueViolation, w') /\
        refused w1 w' (f1 (f0 (db w1))) rest /\
        save_metadata root repr path w
          = (Raise UniqueViolation, with_error_record path UniqueViolation w')) /\
  (forall patient_prkey w1 study_prkey w2 f0 f1 rest key z,
      get_or_create_patient repr (<["Path" := PyScalar (SStr path)]> ds0) path w
        = (Ok patient_prkey, w1) ->
      get_or_create_study repr (<["Path" := PyScalar (SStr path)]> ds0)
        patient_prkey path w1 = (Ok study_prkey, w2) ->
      others w2 = f0 :: f1 :: rest ->
      natural_key repr "SeriesInstanceUID" "UNKNOWN_SERIES_"
        (<["Path" := PyScalar (SStr path)]> ds0) = Some key ->
      select_prkey Series.series_instance_uid Series.series_prkey key
        (series (f0 (db w2))) = None ->
      select_prkey Series.series_instance_uid Series.series_prkey key
        (series (f1 (f0 (db w2)))) = Some z ->
      exists w',
        get_or_create_series repr (<["Path" := PyScalar (SStr path)]> ds0)
          study_prkey path w2 = (Raise UniqueViolation, w') /\
        refused w2 w' (f1 (f0 (db w2))) rest /\
        save_metadata root repr path w
          = (Raise UniqueViolation, with_error_record path UniqueViolation w')).
Proof.
  intros Hfs. rewrite (save_metadata_decoded ds0 path w Hfs).
  unfold resolve_chain, bind. split; [| split].
  - intros f0 f1 rest key z Hseq Hkey Hmiss Hthere.
    destruct (get_or_create_patient_race _ path w f0 f1 rest key z
                Hseq Hkey Hmiss Hthere) as (w' & H & Hw').
    exists w'. rewrite H. repeat split; try apply Hw'. 
  - intros kp w1 f0 f1 rest key z Hp Hseq Hkey Hmiss Hthere.
    destruct (get_or_create_study_race _ kp path w1 f0 f1 rest key z
                Hseq Hkey Hmiss Hthere) as (w' & H & Hw').
    exists w'. rewrite Hp, H. repeat split; try apply Hw'.
  - intros kp w1 ks w2 f0 f1 rest key z Hp Hs Hseq Hkey Hmiss Hthere.
    destruct (get_or_create_series_race _ ks path w2 f0 f1 rest key z
                Hseq Hkey Hmiss Hthere) as (w' & H & Hw').
    exists w'. rewrite Hp, Hs, H. repeat split; try apply Hw'.
Qed.

(** C6 - for a dataset whose PatientID extracts to the empty string the
    Patient row created has the natural key [UNKNOWN_PATIENT_] followed by
    the SOP instance identifier; for a dataset whose AccessionNumber
    extracts to the empty string the Study row created stores as its
    AccessionNumber the StudyInstanceUID it is keyed by (synthesized or
    not); both substitutions are logged as warnings. *)
Theorem fallback_identifiers (ds : dataset) (pk : Z) (path : string) (w : world)
    (sop : pyvalue) :
  others w = [] ->
  ds !! "SOPInstanceUID" = Some sop ->
  (get_str (ds_get ds "PatientID" PyNone) = "" ->
   let key := "UNKNOWN_PATIENT_" +:+ py_str_value repr sop in
   select_prkey Patient.patient_id Patient.patient_prkey key (patient (db w)) = None ->
   exists r w',
     get_or_create_patient repr ds path w = (Ok (Patient.patient_prkey r), w') /\
     tbl_rows (patient (db w')) = (tbl_rows (patient (db w)) ++ [r])%list /\
     Patient.patient_id r = key /\
     In (WARNING, "PatientID kosong, menggunakan fallback: " +:+ key) (log w')) /\
  (get_str (ds_get ds "AccessionNumber" PyNone) = "" ->
   let uid :=
     if String.eqb (get_str (ds_get ds "StudyInstanceUID" PyNone)) ""
     then "UNKNOWN_STUDY_" +:+ py_str_value repr sop
     else get_str (ds_get ds "StudyInstanceUID" PyNone) in
   select_prkey Study.study_instance_uid Study.study_prkey uid (study (db w)) = None ->
   exists r w',
     get_or_create_study repr ds pk path w = (Ok (Study.study_prkey r), w') /\
     tbl_rows (study (db w')) = (tbl_rows (study (db w)) ++ [r])%list /\
     Study.study_instance_uid r = uid /\
     Study.accession_number r = uid /\
     In (WARNING, "AccessionNumber kosong, menggunakan StudyInstanceUID '"
                  +:+ uid +:+ "' sebagai fallback.") (log w')).
Proof.
  intros Hseq Hsop. split.
  - intros Hpid key Hsel.
    assert (Hkey : natural_key repr "PatientID" "UNKNOWN_PATIENT_" ds = Some key)
      by (unfold natural_key; rewrite Hpid, Hsop; reflexivity).
    destruct (get_or_create_patient_miss ds path w key Hseq Hkey Hsel)
      as (r & extra & H & Hid & Hk & Hlog).
    exists r. eexists. rewrite Hk. split; [exact H |]. cbn.
    split; [reflexivity |]. split; [exact Hid |].
    apply in_or_app. right. apply Hlog, Hpid.
  - intros Hacc uid Hsel.
    assert (Hkey : natural_key repr "StudyInstanceUID" "UNKNOWN_STUDY_" ds = Some uid).
    { unfold natural_key, uid. rewrite Hsop.
      destruct (String.eqb _ ""); reflexivity. }
    destruct (get_or_create_study_miss ds pk path w uid Hseq Hkey Hsel)
      as (r & extra & H & Hid & Hk & _ & Hfall).
    destruct (Hfall Hacc) as [Hnum Hlog].
    exists r. eexists. rewrite Hk. split; [exact H |]. cbn.
    split; [reflexivity |]. split; [exact Hid |]. split; [exact Hnum |].
    apply in_or_app. right. exact Hlog.
Qed.

End CatalogProperties.

(** ** Invariants of the catalog *)

Section CatalogInvariants.

Variable repr : seq_kind -> list scalar -> string.
Variable root : string.

(** What one resolver does to the store on its own, whatever it returns. *)
Lemma get_or_create_patient_effect (ds : dataset) (path : string) (w w' : world)
    (res : result Z) :
  others w = [] ->
  get_or_create_patient repr ds path w = (res, w') ->
  exists t',
    db w' = with_patient (db w) t' /\ others w' = [] /\ fs w' = fs w /\
    grown Patient.patient_id Patient.patient_prkey (patient (db w)) t' /\
    (forall k, res = Ok k ->
       exists p, In p (tbl_rows t') /\ Patient.patient_prkey p = k).
Proof.
  intros Hseq Hrun.
  destruct (natural_key repr "PatientID" "UNKNOWN_PATIENT_" ds) as [key |] eqn:Hkey.
  - destruct (select_prkey Patient.patient_id Patient.patient_prkey key (patient (db w)))
      as [k |] eqn:Hsel.
    + destruct (get_or_create_patient_hit repr ds path w key k Hseq Hkey Hsel) as [extra H].
      rewrite H in Hrun. injection Hrun as <- <-.
      exists (patient (db w)). cbn. rewrite with_patient_id.
      repeat split; [apply grown_refl |].
      intros k' [= <-]. destruct (select_some_in _ _ _ _ _ Hsel) as (p & Hin & _ & Hp).
      exists p. split; assumption.
    + destruct (get_or_create_patient_miss repr ds path w key Hseq Hkey Hsel)
        as (r & extra & H & Hr & Hk & _).
      rewrite H in Hrun. injection Hrun as <- <-.
      exists (extend (patient (db w)) r). cbn.
      repeat split.
      * right. exists r. rewrite Hr. repeat split; assumption.
      * intros k' [= <-]. exists r. split; [| exact Hk].
        apply List.in_or_app. right. left. reflexivity.
  - rewrite (get_or_create_patient_nokey repr ds path w Hkey) in Hrun.
    injection Hrun as <- <-.
    exists (patient (db w)). rewrite with_patient_id.
    repeat split; [exact Hseq | apply grown_refl | discriminate].
Qed.

Lemma get_or_create_study_effect (ds : dataset) (pk : Z) (path : string) (w w' : world)
    (res : result Z) :
  others w = [] ->
  get_or_create_study repr ds pk path w = (res, w') ->
  exists t',
    db w' = with_study (db w) t' /\ others w' = [] /\ fs w' = fs w /\
    grown Study.study_instance_uid Study.study_prkey (study (db w)) t' /\
    (forall r, t' = extend (study (db w)) r -> Study.patient_prkey r = pk) /\
    (forall k, res = Ok k ->
       exists p, In p (tbl_rows t') /\ Study.study_prkey p = k).
Proof.
  intros Hseq Hrun.
  destruct (natural_key repr "StudyInstanceUID" "UNKNOWN_STUDY_" ds) as [key |] eqn:Hkey.
  - destruct (select_prkey Study.study_instance_uid Study.study_prkey key (study (db w)))
      as [k |] eqn:Hsel.
    + destruct (get_or_create_study_hit repr ds pk path w key k Hseq Hkey Hsel)
        as [extra H].
      rewrite H in Hrun. injection Hrun as <- <-.
      exists (study (db w)). cbn. rewrite with_study_id.
      repeat split; [apply grown_refl | |].
      * intros r Hr. apply (f_equal (fun t => length (tbl_rows t))) in Hr.
        unfold extend in Hr. cbn in Hr. rewrite List.length_app in Hr. cbn in Hr. lia.
      * intros k' [= <-]. destruct (select_some_in _ _ _ _ _ Hsel) as (p & Hin & _ & Hp).
        exists p. split; assumption.
    + destruct (get_or_create_study_miss repr ds pk path w key Hseq Hkey Hsel)
        as (r & extra & H & Hr & Hk & Hpk & _).
      rewrite H in Hrun. injection Hrun as <- <-.
      exists (extend (study (db w)) r). cbn.
      repeat split.
      * right. exists r. rewrite Hr. repeat split; assumption.
      * intros r' Hr'. unfold extend in Hr'. injection Hr' as Hr'.
        apply List.app_inj_tail in Hr' as [_ <-]. exact Hpk.
      * intros k' [= <-]. exists r. split; [| exact Hk].
        apply List.in_or_app. right. left. reflexivity.
  - rewrite (get_or_create_study_nokey repr ds pk path w Hkey) in Hrun.
    injection Hrun as <- <-.
    exists (study (db w)). rewrite with_study_id.
    repeat split; [exact Hseq | apply grown_refl | | discriminate].
    intros r Hr. apply (f_equal (fun t => length (tbl_rows t))) in Hr.
    unfold extend in Hr. cbn in Hr. rewrite List.length_app in Hr. cbn in Hr. lia.
Qed.


Lemma get_or_create_series_effect (ds : dataset) (pk : Z) (path : string) (w w' : world)
    (res : result Z) :
  others w = [] ->
  get_or_create_series repr ds pk path w = (res, w') ->
  exists t',
    db w' = with_series (db w) t' /\ others w' = [] /\ fs w' = fs w /\
    grown Series.series_instance_uid Series.series_prkey (series (db w)) t' /\
    (forall r, t' = extend (series (db w)) r -> Series.study_prkey r = pk) /\
    (forall k, res = Ok k ->
       exists p, In p (tbl_rows t') /\ Series.series_prkey p = k).
Proof.
  intros Hseq Hrun.
  destruct (natural_key repr "SeriesInstanceUID" "UNKNOWN_SERIES_" ds) as [key |] eqn:Hkey.
  - destruct (select_prkey Series.series_instance_uid Series.series_prkey key
                (series (db w))) as [k |] eqn:Hsel.
    + destruct (get_or_create_series_hit repr ds pk path w key k Hseq Hkey Hsel)
        as [extra H].
      rewrite H in Hrun. injection Hrun as <- <-.
      exists (series (db w)). cbn. rewrite with_series_id.
      repeat split; [apply grown_refl | |].
      * intros r Hr. symmetry in Hr. destruct (extend_neq _ _ Hr).
      * intros k' [= <-]. destruct (select_some_in _ _ _ _ _ Hsel) as (p & Hin & _ & Hp).
        exists p. split; assumption.
    + destruct (get_or_create_series_miss repr ds pk path w key Hseq Hkey Hsel)
        as (r & extra & H & Hr & Hk & Hpk & _).
      rewrite H in Hrun. injection Hrun as <- <-.
      exists (extend (series (db w)) r). cbn.
      repeat split.
      * right. exists r. rewrite Hr. repeat split; assumption.
      * intros r' Hr'. apply extend_inj in Hr' as <-. exact Hpk.
      * intros k' [= <-]. exists r. split; [apply in_extend | exact Hk].
  - rewrite (get_or_create_series_nokey repr ds pk path w Hkey) in Hrun.
    injection Hrun as <- <-.
    exists (series (db w)). rewrite with_series_id.
    repeat split; [exact Hseq | apply grown_refl | | discriminate].
    intros r Hr. symmetry in Hr. destruct (extend_neq _ _ Hr).
Qed.

Lemma save_image_metadata_effect (ds : dataset) (pk sk : Z) (w w' : world)
    (res : result unit) :
  others w = [] ->
  save_image_metadata ds pk sk w = (res, w') ->
  exists t',
    db w' = with_image (db w) t' /\ others w' = [] /\ fs w' = fs w /\
    grown Image.sop_instance_uid Image.image_prkey (image (db w)) t' /\
    (forall r, t' = extend (image (db w)) r -> Image.series_prkey r = sk).
Proof.
  intros Hseq.
  assert (Hsame : forall w0, db w0 = db w -> others w0 = [] -> fs w0 = fs w ->
             exists t', db w0 = with_image (db w) t' /\ others w0 = [] /\
               fs w0 = fs w /\
               grown Image.sop_instance_uid Image.image_prkey (image (db w)) t' /\
               (forall r, t' = extend (image (db w)) r -> Image.series_prkey r = sk)).
  { intros w0 Hd Ho Hf. exists (image (db w)). rewrite with_image_id.
    split; [exact Hd |]. split; [exact Ho |]. split; [exact Hf |].
    split; [apply grown_refl |].
    intros r Hr. symmetry in Hr. destruct (extend_neq _ _ Hr). }
  unfold save_image_metadata.
  destruct (String.eqb (get_str (ds_get ds "SOPInstanceUID" PyNone)) "") eqn:Esop.
  - cbn. intros [= <- <-]. apply Hsame; [reflexivity | exact Hseq | reflexivity].
  - run Hseq.
    destruct (select_prkey Image.sop_instance_uid Image.image_prkey _ (image (db w)))
      as [k |] eqn:Hsel; cbn.
    + intros [= <- <-]. apply Hsame; reflexivity.
    + destruct (get_int (ds_get ds "BitsAllocated" PyNone)) as [b | e]; cbn;
        [| intros [= <- <-]; apply Hsame; reflexivity].
      destruct (get_int (ds_get ds "Rows" PyNone)) as [r | e]; cbn;
        [| intros [= <- <-]; apply Hsame; reflexivity].
      destruct (get_int (ds_get ds "Columns" PyNone)) as [c | e]; cbn;
        [| intros [= <- <-]; apply Hsame; reflexivity].
      rewrite (insert_row_fresh _ Image.image_prkey) by exact Hsel. cbn.
      intros [= <- <-]. eexists. cbn.
      split; [reflexivity |]. split; [reflexivity |]. split; [reflexivity |]. split.
      * right. eexists. split; [reflexivity |]. split; [exact Hsel | reflexivity].
      * intros r' Hr'. apply extend_inj in Hr' as <-. reflexivity.
Qed.

(** The whole chain on its own, whatever it returns. *)
Lemma resolve_chain_effect (ds : dataset) (path : string) (w w' : world)
    (res : result (Z * Z * Z)) :
  others w = [] ->
  resolve_chain repr ds path w = (res, w') ->
  ingest_step (db w) (db w') /\ others w' = [] /\ fs w' = fs w.
Proof.
  intros Hseq. unfold resolve_chain, bind.
  destruct (get_or_create_patient repr ds path w) as [rp wp] eqn:Hp.
  destruct (get_or_create_patient_effect ds path w wp rp Hseq Hp)
    as (tp & Hdp & Hop & Hfp & Hgp & Hkp).
  assert (Hstop : forall d, d = with_patient (db w) tp -> ingest_step (db w) d).
  { intros d ->. unfold ingest_step; cbn.
    repeat split; try apply grown_refl; try exact Hgp;
      intros r Hr; symmetry in Hr; destruct (extend_neq _ _ Hr). }
  destruct rp as [kp | e]; [| intros [= <- <-]; rewrite Hdp; auto].
  destruct (Hkp kp eq_refl) as (p & Hpin & Hpk). clear Hkp Hstop.
  destruct (get_or_create_study repr ds kp path wp) as [rs ws] eqn:Hs.
  destruct (get_or_create_study_effect ds kp path wp ws rs Hop Hs)
    as (ts & Hds & Hos & Hfs & Hgs & Hrs & Hks).
  rewrite Hdp in Hds, Hgs, Hrs. cbn in Hgs, Hrs.
  assert (Hlinkp : forall r, ts = extend (study (db w)) r ->
            exists p, In p (tbl_rows tp) /\
                      Patient.patient_prkey p = Study.patient_prkey r).
  { intros r Hr. exists p. rewrite (Hrs r Hr). split; assumption. }
  destruct rs as [ks | e].
  2:{ intros [= <- <-]. rewrite Hds, Hfs, Hfp. repeat split; try assumption;
        cbn; try apply grown_refl;
        intros r Hr; symmetry in Hr; destruct (extend_neq _ _ Hr). }
  destruct (Hks ks eq_refl) as (s & Hsin & Hsk). clear Hks.
  destruct (get_or_create_series repr ds ks path ws) as [rse wse] eqn:Hse.
  destruct (get_or_create_series_effect ds ks path ws wse rse Hos Hse)
    as (tse & Hdse & Hose & Hfse & Hgse & Hrse & Hkse).
  rewrite Hds in Hdse, Hgse, Hrse. cbn in Hgse, Hrse.
  assert (Hlinks : forall r, tse = extend (series (db w)) r ->
            exists s, In s (tbl_rows ts) /\
                      Study.study_prkey s = Series.study_prkey r).
  { intros r Hr. exists s. rewrite (Hrse r Hr). split; assumption. }
  destruct rse as [kse | e].
  2:{ intros [= <- <-]. rewrite Hdse, Hfse, Hfs, Hfp. repeat split; try assumption;
        cbn; try apply grown_refl;
        intros r Hr; symmetry in Hr; destruct (extend_neq _ _ Hr). }
  destruct (Hkse kse eq_refl) as (se & Hsein & Hsek). clear Hkse.
  destruct (save_image_metadata ds kp kse wse) as [ri wi] eqn:Hi.
  destruct (save_image_metadata_effect ds kp kse wse wi ri Hose Hi)
    as (ti & Hdi & Hoi & Hfi & Hgi & Hri).
  rewrite Hdse in Hdi, Hgi, Hri. cbn in Hgi, Hri.
  assert (Hfinal : ingest_step (db w) (db wi) /\ others wi = [] /\ fs wi = fs w).
  { rewrite Hdi, Hfi, Hfse, Hfs, Hfp. repeat split; try assumption.
    cbn. intros r Hr. exists se. rewrite (Hri r Hr). split; assumption. }
  destruct ri as [[] | e]; cbn; intros [= <- <-]; exact Hfinal.
Qed.


(** [save_metadata] on its own, whatever it returns. *)
Lemma save_metadata_effect (path : string) (w w' : world) (res : result (Z * Z * Z)) :
  others w = [] ->
  save_metadata root repr path w = (res, w') ->
  ingest_step (db w) (db w') /\ others w' = [] /\ fs w' = fs w.
Proof.
  intros Hseq.
  destruct (fs w !! os_path_join root path) as [[ds |] |] eqn:Hfs.
  - rewrite (save_metadata_decoded repr root ds path w Hfs).
    destruct (resolve_chain repr (<["Path" := PyScalar (SStr path)]> ds) path w)
      as [[keys | e] w1] eqn:Hchain;
      destruct (resolve_chain_effect _ path w w1 _ Hseq Hchain) as (Hstep & Ho & Hf).
    + intros [= <- <-]. cbn. auto.
    + unfold save_metadata_except, bind, logging, raise.
      destruct (pyexn_eqb e InvalidDicomError); intros [= <- <-]; cbn; auto.
  - unfold save_metadata, try_except, read_dataset. rewrite Hfs. cbn.
    intros [= <- <-]. cbn. split; [apply ingest_step_refl | auto].
  - unfold save_metadata, try_except, read_dataset. rewrite Hfs. cbn.
    intros [= <- <-]. cbn. split; [apply ingest_step_refl | auto].
Qed.

(** A file that is missing, or that does not decode, makes
    [save_metadata] raise [UnboundLocalError] in place of the error it
    logged: its [finally] clause reads [cur] before it was bound. The store
    is left as it was. *)
Theorem unreadable_file_masks_error (path : string) (w : world) :
  (fs w !! os_path_join root path = None ->
   exists text,
     save_metadata root repr path w
       = (Raise UnboundLocalError,
          {| db := db w;
             log := log w
                    ++ [(ERROR, "File DICOM tidak ditemukan di jalur absolut: "
                                +:+ os_path_join root path);
                        (ERROR, "Terjadi kesalahan saat menyimpan metadata untuk '"
                                +:+ path +:+ "': " +:+ text)];
             fs := fs w; others := others w |})) /\
  (fs w !! os_path_join root path = Some NotDicom ->
   exists text,
     save_metadata root repr path w
       = (Raise UnboundLocalError,
          {| db := db w;
             log := log w
                    ++ [(ERROR, "File DICOM tidak valid '" +:+ path +:+ "': " +:+ text)];
             fs := fs w; others := others w |})).
Proof.
  split; intros Hfs; eexists;
    unfold save_metadata, try_except, read_dataset; rewrite Hfs; cbn.
  - rewrite <- app_assoc. reflexivity.
  - reflexivity.
Qed.

(** X7 - on its own, an ingestion never deletes, changes or reorders a
    row, whatever it returns or raises: each table is the one before,
    followed by at most one new row. *)
Theorem ingest_is_append_only (path : string) (w : world) :
  others w = [] ->
  let d' := db (snd (save_metadata root repr path w)) in
  (exists new, tbl_rows (patient d') = (tbl_rows (patient (db w)) ++ new)%list /\
               (length new <= 1)%nat) /\
  (exists new, tbl_rows (study d') = (tbl_rows (study (db w)) ++ new)%list /\
               (length new <= 1)%nat) /\
  (exists new, tbl_rows (series d') = (tbl_rows (series (db w)) ++ new)%list /\
               (length new <= 1)%nat) /\
  (exists new, tbl_rows (image d') = (tbl_rows (image (db w)) ++ new)%list /\
               (length new <= 1)%nat).
Proof.
  intros Hseq d'. subst d'.
  destruct (save_metadata root repr path w) as [res w'] eqn:Hrun.
  destruct (save_metadata_effect path w w' res Hseq Hrun)
    as ((Hp & Hs & Hse & Hi & _) & _). cbn.
  repeat split; eapply grown_rows; eassumption.
Qed.

(** X8 - on its own, an ingestion keeps natural keys and primary keys
    unique in each of the four tables, whatever it returns or raises: every
    insert follows a lookup that found nothing. *)
Theorem ingest_keeps_keys_unique (path : string) (w : world) :
  others w = [] ->
  keyed_store (db w) ->
  keyed_store (db (snd (save_metadata root repr path w))).
Proof.
  intros Hseq (Kp & Ks & Kse & Ki).
  destruct (save_metadata root repr path w) as [res w'] eqn:Hrun.
  destruct (save_metadata_effect path w w' res Hseq Hrun)
    as ((Hp & Hs & Hse & Hi & _) & _). cbn.
  repeat split; eapply grown_keyed; eassumption.
Qed.

(** X9 - on its own, an ingestion keeps the hierarchy linked, whatever it
    returns or raises: every Study row refers to a Patient row, every Series
    row to a Study row and every Image row to a Series row, also when the
    chain stops half way. *)
Theorem ingest_keeps_references (path : string) (w : world) :
  others w = [] ->
  linked_store (db w) ->
  linked_store (db (snd (save_metadata root repr path w))).
Proof.
  intros Hseq (Ls & Lse & Li).
  destruct (save_metadata root repr path w) as [res w'] eqn:Hrun.
  destruct (save_metadata_effect path w w' res Hseq Hrun)
    as ((Hp & Hs & Hse & Hi & Fs & Fse & Fi) & _). cbn.
  split; [| split].
  - intros s Hin. destruct Hs as [Es | (r & Es & _)]; rewrite Es in Hin.
    + destruct (Ls s Hin) as (p & Hpin & Hpk). exists p.
      split; [eapply grown_incl; eassumption | exact Hpk].
    + apply List.in_app_or in Hin as [Hin | [<- | []]].
      * destruct (Ls s Hin) as (p & Hpin & Hpk). exists p.
        split; [eapply grown_incl; eassumption | exact Hpk].
      * apply Fs, Es.
  - intros s Hin. destruct Hse as [Es | (r & Es & _)]; rewrite Es in Hin.
    + destruct (Lse s Hin) as (p & Hpin & Hpk). exists p.
      split; [eapply grown_incl; eassumption | exact Hpk].
    + apply List.in_app_or in Hin as [Hin | [<- | []]].
      * destruct (Lse s Hin) as (p & Hpin & Hpk). exists p.
        split; [eapply grown_incl; eassumption | exact Hpk].
      * apply Fse, Es.
  - intros s Hin. destruct Hi as [Es | (r & Es & _)]; rewrite Es in Hin.
    + destruct (Li s Hin) as (p & Hpin & Hpk). exists p.
      split; [eapply grown_incl; eassumption | exact Hpk].
    + apply List.in_app_or in Hin as [Hin | [<- | []]].
      * destruct (Li s Hin) as (p & Hpin & Hpk). exists p.
        split; [eapply grown_incl; eassumption | exact Hpk].
      * apply Fi, Es.
Qed.


Lemma natural_key_path (field fallback : string) (ds : dataset) (path : string) :
  field <> "Path" ->
  natural_key repr field fallback (<["Path" := PyScalar (SStr path)]> ds)
    = natural_key repr field fallback ds.
Proof.
  intros H. unfold natural_key. rewrite ds_get_path by exact H.
  rewrite lookup_insert_ne by discriminate. reflexivity.
Qed.

(** X10 - when the Patient, the Study and the Series of a dataset are
    stored already, its ingestion leaves these three tables as they are,
    resolves to the stored keys, and an Image row it adds hangs under the
    stored Series. *)
Theorem stored_parents_are_reused (ds : dataset) (path : string) (w w' : world)
    (res : result (Z * Z * Z)) (keyp keyst keyse : string) (kp ks kse : Z) :
  others w = [] ->
  fs w !! os_path_join root path = Some (DicomFile ds) ->
  natural_key repr "PatientID" "UNKNOWN_PATIENT_" ds = Some keyp ->
  natural_key repr "StudyInstanceUID" "UNKNOWN_STUDY_" ds = Some keyst ->
  natural_key repr "SeriesInstanceUID" "UNKNOWN_SERIES_" ds = Some keyse ->
  select_prkey Patient.patient_id Patient.patient_prkey keyp (patient (db w)) = Some kp ->
  select_prkey Study.study_instance_uid Study.study_prkey keyst (study (db w)) = Some ks ->
  select_prkey Series.series_instance_uid Series.series_prkey keyse (series (db w))
    = Some kse ->
  save_metadata root repr path w = (res, w') ->
  patient (db w') = patient (db w) /\
  study (db w') = study (db w) /\
  series (db w') = series (db w) /\
  (forall keys, res = Ok keys -> keys = (kp, ks, kse)) /\
  (forall r, image (db w') = extend (image (db w)) r -> Image.series_prkey r = kse).
Proof.
  intros Hseq Hfs Hkp Hks Hkse Hsp Hss Hsse.
  rewrite (save_metadata_decoded repr root ds path w Hfs).
  set (ds' := <["Path" := PyScalar (SStr path)]> ds).
  assert (Hkp' : natural_key repr "PatientID" "UNKNOWN_PATIENT_" ds' = Some keyp)
    by (unfold ds'; rewrite natural_key_path by discriminate; exact Hkp).
  assert (Hks' : natural_key repr "StudyInstanceUID" "UNKNOWN_STUDY_" ds' = Some keyst)
    by (unfold ds'; rewrite natural_key_path by discriminate; exact Hks).
  assert (Hkse' : natural_key repr "SeriesInstanceUID" "UNKNOWN_SERIES_" ds' = Some keyse)
    by (unfold ds'; rewrite natural_key_path by discriminate; exact Hkse).
  unfold resolve_chain, bind.
  destruct (get_or_create_patient_hit repr ds' path w keyp kp Hseq Hkp' Hsp) as [ep ->].
  match goal with |- context [get_or_create_study repr ds' kp path ?w0] =>
    destruct (get_or_create_study_hit repr ds' kp path w0 keyst ks eq_refl Hks' Hss)
      as [es ->] end.
  match goal with |- context [get_or_create_series repr ds' ks path ?w0] =>
    destruct (get_or_create_series_hit repr ds' ks path w0 keyse kse eq_refl Hkse' Hsse)
      as [ese ->] end.
  cbn.
  match goal with |- context [save_image_metadata ds' kp kse ?w0] =>
    destruct (save_image_metadata ds' kp kse w0) as [ri wi] eqn:Hi;
    destruct (save_image_metadata_effect ds' kp kse w0 wi ri eq_refl Hi)
      as (ti & Hdi & _ & _ & _ & Hri) end.
  cbn in Hdi, Hri.
  assert (Hd : forall w1, db w1 = db wi ->
            patient (db w1) = patient (db w) /\ study (db w1) = study (db w) /\
            series (db w1) = series (db w) /\
            (forall r, image (db w1) = extend (image (db w)) r ->
               Image.series_prkey r = kse)).
  { intros w1 ->. rewrite Hdi. cbn. repeat split. exact Hri. }
  destruct ri as [[] | e]; cbn.
  - intros [= <- <-]. destruct (Hd _ eq_refl) as (H1 & H2 & H3 & H4).
    repeat split; try assumption. intros keys [= <-]. reflexivity.
  - unfold save_metadata_except, bind, logging, raise.
    destruct (pyexn_eqb e InvalidDicomError); intros [= <- <-];
      destruct (Hd _ eq_refl) as (H1 & H2 & H3 & H4);
      repeat split; try assumption; discriminate.
Qed.


Lemma save_image_metadata_miss (ds : dataset) (pk sk : Z) (w : world) (b r c : Z) :
  others w = [] ->
  get_str (ds_get ds "SOPInstanceUID" PyNone) <> "" ->
  select_prkey Image.sop_instance_uid Image.image_prkey
    (get_str (ds_get ds "SOPInstanceUID" PyNone)) (image (db w)) = None ->
  get_int (ds_get ds "BitsAllocated" PyNone) = Ok b ->
  get_int (ds_get ds "Rows" PyNone) = Ok r ->
  get_int (ds_get ds "Columns" PyNone) = Ok c ->
  exists row,
    save_image_metadata ds pk sk w
      = (Ok tt, {| db := with_image (db w) (extend (image (db w)) row);
                   log := log w; fs := fs w; others := [] |}) /\
    Image.image_prkey row = tbl_next (image (db w)) /\
    Image.sop_instance_uid row = get_str (ds_get ds "SOPInstanceUID" PyNone) /\
    Image.series_prkey row = sk /\
    Image.image_path_name row = get_str (ds_get ds "Path" PyNone) /\
    Image.patient_id row = get_str (ds_get ds "PatientID" PyNone) /\
    Image.bits_allocated row = b /\ Image.rows row = r /\ Image.columns row = c.
Proof.
  intros Hseq Hsop Hsel Hb Hr Hc. unfold save_image_metadata.
  rewrite (eqb_empty_false _ Hsop). eexists. split.
  - run Hseq. rewrite Hsel. cbn. rewrite Hb, Hr, Hc. cbn.
    rewrite (insert_row_fresh _ Image.image_prkey) by exact Hsel. reflexivity.
  - cbn. repeat split; reflexivity.
Qed.

Lemma sop_attribute_present (ds : dataset) :
  get_str (ds_get ds "SOPInstanceUID" PyNone) <> "" -> is_Some (ds !! "SOPInstanceUID").
Proof.
  unfold ds_get. destruct (ds !! "SOPInstanceUID"); [eauto |].
  intros H. destruct H. reflexivity.
Qed.

(** X11 - on its own, the ingestion of a decoded dataset whose SOP
    instance identifier is not stored yet returns and adds one Image row:
    under that identifier, with the relative path it was given (stripped),
    the PatientID as the dataset has it (not the fallback), the three
    integers, and under the Series row of the dataset's series key. *)
Theorem new_image_is_catalogued (ds : dataset) (path : string) (w : world) (b r c : Z) :
  others w = [] ->
  fs w !! os_path_join root path = Some (DicomFile ds) ->
  get_str (ds_get ds "SOPInstanceUID" PyNone) <> "" ->
  select_prkey Image.sop_instance_uid Image.image_prkey
    (get_str (ds_get ds "SOPInstanceUID" PyNone)) (image (db w)) = None ->
  get_int (ds_get ds "BitsAllocated" PyNone) = Ok b ->
  get_int (ds_get ds "Rows" PyNone) = Ok r ->
  get_int (ds_get ds "Columns" PyNone) = Ok c ->
  exists kp ks kse w1 row,
    save_metadata root repr path w = (Ok (kp, ks, kse), w1) /\
    image (db w1) = extend (image (db w)) row /\
    Image.sop_instance_uid row = get_str (ds_get ds "SOPInstanceUID" PyNone) /\
    Image.image_path_name row = strip path /\
    Image.patient_id row = get_str (ds_get ds "PatientID" PyNone) /\
    Image.bits_allocated row = b /\ Image.rows row = r /\ Image.columns row = c /\
    Image.series_prkey row = kse /\
    (exists s, In s (tbl_rows (series (db w1))) /\ Series.series_prkey s = kse /\
               natural_key repr "SeriesInstanceUID" "UNKNOWN_SERIES_" ds
                 = Some (Series.series_instance_uid s)).
Proof.
  intros Hseq Hfs Hsop Hsel Hb Hr Hc.
  rewrite (save_metadata_decoded repr root ds path w Hfs).
  set (ds' := <["Path" := PyScalar (SStr path)]> ds).
  pose proof (sop_attribute_present ds Hsop) as Hattr.
  assert (Hattr' : is_Some (ds' !! "SOPInstanceUID"))
    by (unfold ds'; rewrite lookup_insert_ne by discriminate; exact Hattr).
  unfold resolve_chain, bind.
  pose proof (get_or_create_patient_alone repr ds' path w Hseq) as Hp.
  destruct (natural_key_some repr "PatientID" "UNKNOWN_PATIENT_" ds' Hattr') as [kp' Hkp].
  rewrite Hkp in Hp. destruct Hp as (kp & tp & ep & -> & _).
  match goal with |- context [get_or_create_study repr ds' kp path ?w0] =>
    pose proof (get_or_create_study_alone repr ds' kp path w0 eq_refl) as Hs end.
  destruct (natural_key_some repr "StudyInstanceUID" "UNKNOWN_STUDY_" ds' Hattr')
    as [ks' Hks].
  rewrite Hks in Hs. destruct Hs as (ks & ts & es & -> & _).
  match goal with |- context [get_or_create_series repr ds' ks path ?w0] =>
    pose proof (get_or_create_series_alone repr ds' ks path w0 eq_refl) as Hse end.
  destruct (natural_key_some repr "SeriesInstanceUID" "UNKNOWN_SERIES_" ds' Hattr')
    as [kse' Hkse].
  rewrite Hkse in Hse. destruct Hse as (kse & tse & ese & -> & Hselse).
  match goal with |- context [save_image_metadata ds' kp kse ?w0] =>
    destruct (save_image_metadata_miss ds' kp kse w0 b r c eq_refl)
      as (row & -> & _ & Hrsop & Hrse & Hrpath & Hrpid & Hrb & Hrr & Hrc) end;
    try (unfold ds'; rewrite ds_get_path by discriminate; assumption).
  cbn. exists kp, ks, kse. eexists. exists row.
  split; [reflexivity |]. cbn.
  unfold ds' in Hrsop, Hrpid. rewrite ds_get_path in Hrsop, Hrpid by discriminate.
  assert (Hpath : get_str (ds_get ds' "Path" PyNone) = strip path).
  { unfold ds', ds_get. rewrite lookup_insert_eq. reflexivity. }
  rewrite Hpath in Hrpath.
  repeat split; try assumption.
  destruct (select_some_in _ _ _ _ _ Hselse) as (s & Hin & Hkey & Hpk).
  exists s. repeat split; try assumption.
  rewrite Hkey. unfold ds' in Hkse. rewrite natural_key_path in Hkse by discriminate.
  exact Hkse.
Qed.

End CatalogInvariants.

(** ** Denormalized columns *)

Section DenormalizedColumns.

Variable repr : seq_kind -> list scalar -> string.

Lemma get_or_create_series_miss_columns (ds : dataset) (pk : Z) (path : string)
    (w : world) (key : string) :
  others w = [] ->
  natural_key repr "SeriesInstanceUID" "UNKNOWN_SERIES_" ds = Some key ->
  select_prkey Series.series_instance_uid Series.series_prkey key (series (db w))
    = None ->
  exists r extra,
    get_or_create_series repr ds pk path w
      = (Ok (tbl_next (series (db w))),
         {| db := with_series (db w) (extend (series (db w)) r);
            log := log w ++ extra; fs := fs w; others := [] |}) /\
    Series.series_instance_uid r = key /\
    Series.series_prkey r = tbl_next (series (db w)) /\
    Series.study_prkey r = pk /\
    Series.study_instance_uid r = get_str (ds_get ds "StudyInstanceUID" PyNone) /\
    Series.series_path r = strip path.
Proof.
  intros Hseq. unfold natural_key, get_or_create_series, ds_attr.
  destruct (String.eqb _ "") eqn:E;
    [destruct (ds !! "SOPInstanceUID") as [sop |] eqn:Esop; [| discriminate] |];
    cbn; intros [= <-] Hsel;
    eexists; eexists; run Hseq; rewrite Hsel; cbn; rewrite ?Hseq; cbn;
    rewrite (insert_row_fresh _ Series.series_prkey) by exact Hsel;
    (split; [same_world |]); cbn;
    repeat split; reflexivity.
Qed.

(** X21 - the StudyInstanceUID column of a Series row is the raw value of
    the dataset, not the key of its Study: for a dataset whose
    StudyInstanceUID extracts to the empty string, the Study row is created
    under [UNKNOWN_STUDY_] followed by the SOP instance identifier, and the
    Series row created under it refers to it by primary key but stores the
    empty string as its StudyInstanceUID. *)
Theorem series_keeps_raw_study_uid (ds : dataset) (pk : Z) (path : string) (w : world)
    (sop : pyvalue) (key : string) :
  others w = [] ->
  ds !! "SOPInstanceUID" = Some sop ->
  get_str (ds_get ds "StudyInstanceUID" PyNone) = "" ->
  select_prkey Study.study_instance_uid Study.study_prkey
    ("UNKNOWN_STUDY_" +:+ py_str_value repr sop) (study (db w)) = None ->
  natural_key repr "SeriesInstanceUID" "UNKNOWN_SERIES_" ds = Some key ->
  select_prkey Series.series_instance_uid Series.series_prkey key (series (db w))
    = None ->
  exists st s w1 w2,
    get_or_create_study repr ds pk path w = (Ok (Study.study_prkey st), w1) /\
    get_or_create_series repr ds (Study.study_prkey st) path w1
      = (Ok (Series.series_prkey s), w2) /\
    study (db w2) = extend (study (db w)) st /\
    series (db w2) = extend (series (db w)) s /\
    Study.study_instance_uid st = "UNKNOWN_STUDY_" +:+ py_str_value repr sop /\
    Series.study_prkey s = Study.study_prkey st /\
    Series.study_instance_uid s = "" /\
    Series.study_instance_uid s <> Study.study_instance_uid st.
Proof.
  intros Hseq Hsop Hempty Hstudy Hkey Hseries.
  assert (Hskey : natural_key repr "StudyInstanceUID" "UNKNOWN_STUDY_" ds
                  = Some ("UNKNOWN_STUDY_" +:+ py_str_value repr sop))
    by (unfold natural_key; rewrite Hempty, Hsop; reflexivity).
  destruct (get_or_create_study_miss repr ds pk path w _ Hseq Hskey Hstudy)
    as (st & extra & Hrun & Hid & Hpk & _).
  match type of Hrun with _ = (_, ?w1) =>
    destruct (get_or_create_series_miss_columns ds (Study.study_prkey st) path w1 key
                eq_refl Hkey Hseries)
      as (s & extra' & Hrun' & Hsid & Hsk & Hspk & Hraw & _)
  end.
  cbn in Hrun'. exists st, s. eexists. eexists.
  rewrite Hpk at 1. split; [exact Hrun |].
  rewrite Hsk. split; [exact Hrun' |]. cbn.
  split; [reflexivity |]. split; [reflexivity |]. split; [exact Hid |].
  split; [exact Hspk |]. rewrite Hraw, Hempty, Hid.
  split; [reflexivity | discriminate].
Qed.

End DenormalizedColumns.

(** ** StoreHandler *)

Section StoreHandlerProperties.

Variable root : string.
Variable catalog_root : string.
Variable repr : seq_kind -> list scalar -> string.
Variable cwd : string.
Variable makedirs : string -> M unit.
Variable save_as : dataset -> string -> M unit.

(** X15 - the C-STORE handler never raises: whatever the dataset, the file
    system and the catalog do, it answers with one of the three statuses
    0x0000, 0xC001 and 0xC210, and with 0xC210 when the dataset has no
    SOPInstanceUID. *)
Theorem handle_store_answers (ds : dataset) (w : world) :
  exists status w',
    handle_store root catalog_root repr cwd makedirs save_as ds w = (Ok status, w') /\
    (status = 0x0000 \/ status = 0xC001 \/ status = 0xC210) /\
    (ds !! "SOPInstanceUID" = None -> status = 0xC210).
Proof.
  unfold handle_store, try_except, bind.
  destruct (handle_store_directory repr ds w) as [[name | e] w0].
  2:{ eexists; eexists. split; [reflexivity |]. split; [tauto | reflexivity]. }
  destruct (makedirs (os_path_join root name) w0) as [[[] | e] w1].
  2:{ eexists; eexists. split; [reflexivity |]. split; [tauto | reflexivity]. }
  cbn. unfold ds_attr.
  destruct (ds !! "SOPInstanceUID") as [sop |].
  2:{ eexists; eexists. split; [reflexivity |]. split; [tauto | reflexivity]. }
  cbn.
  destruct (save_as ds _ w1) as [[[] | e] w2].
  2:{ eexists; eexists. split; [reflexivity |]. split; [tauto | discriminate]. }
  cbn. unfold lift.
  destruct (os_path_relpath cwd _ root) as [relative | e].
  2:{ eexists; eexists. split; [reflexivity |]. split; [tauto | discriminate]. }
  destruct (save_metadata catalog_root repr relative _) as [[keys | e] w3].
  - eexists; eexists. split; [reflexivity |]. split; [tauto | discriminate].
  - eexists; eexists. split; [reflexivity |]. split; [tauto | discriminate].
Qed.

(** X16 - when the storage root is an absolute path of plain components,
    shared by the server and the catalog, and the directory name and the
    SOP instance identifier are plain, the handler registers the file it
    wrote: the relative path it hands to [save_metadata] is
    [<directory>/<SOPInstanceUID>.dcm], which [save_metadata] joins back to
    the very path [save_as] wrote to; the status is 0x0000 when
    [save_metadata] returns and 0xC001 when it raises. *)
Theorem handle_store_registers_written_file (ds : dataset) (w w0 w1 w2 : world)
    (dirs : list string) (name : string) (sop : pyvalue) :
  root = absolute_path dirs ->
  catalog_root = root ->
  forallb is_plain_component dirs = true ->
  handle_store_directory repr ds w = (Ok name, w0) ->
  is_plain_component name = true ->
  ds !! "SOPInstanceUID" = Some sop ->
  no_slash (py_str_value repr sop) = true ->
  let file := py_str_value repr sop +:+ ".dcm" in
  let relative := name +:+ "/" +:+ file in
  let stored := absolute_path (dirs ++ [name; file]) in
  makedirs (absolute_path (dirs ++ [name])) w0 = (Ok tt, w1) ->
  save_as ds stored w1 = (Ok tt, w2) ->
  os_path_join catalog_root relative = stored /\
  forall outcome w4,
    save_metadata catalog_root repr relative
      (snd (logging INFO ("Berhasil menerima dan menyimpan file DICOM: " +:+ stored) w2))
      = (outcome, w4) ->
    exists record,
      handle_store root catalog_root repr cwd makedirs save_as ds w
        = (Ok (match outcome with Ok _ => 0x0000 | Raise _ => 0xC001 end),
           {| db := db w4; log := log w4 ++ [record]; fs := fs w4;
              others := others w4 |}).
Proof.
  intros Hroot Hcat Hdirs Hdir Hname Hsop Hslash file relative stored Hmk Hsave.
  pose proof (file_name_plain _ Hslash) as Hfile. fold file in Hfile.
  assert (Hjoin1 : os_path_join root name = absolute_path (dirs ++ [name]))
    by (rewrite Hroot; apply join_absolute_one; assumption).
  assert (Hdirs1 : forallb is_plain_component (dirs ++ [name]) = true)
    by (rewrite forallb_app, Hdirs; simpl; rewrite Hname; reflexivity).
  assert (Hjoin2 : os_path_join (absolute_path (dirs ++ [name])) file = stored).
  { rewrite join_absolute_one by assumption. unfold stored.
    rewrite <- app_assoc. reflexivity. }
  assert (Hrel : os_path_relpath cwd stored root = Ok relative).
  { rewrite Hroot. unfold stored.
    rewrite (relpath_below cwd dirs name [file] Hdirs);
      [reflexivity | simpl; rewrite Hname, Hfile; reflexivity]. }
  split.
  - rewrite Hcat, Hroot. apply (join_absolute dirs name [file]); assumption.
  - intros outcome w4 Hmeta.
    unfold handle_store, try_except, bind.
    rewrite Hdir, Hjoin1, Hmk. cbn. unfold ds_attr. rewrite Hsop. cbn.
    fold file. rewrite Hjoin2, Hsave. unfold lift. rewrite Hrel.
    cbn in Hmeta. cbn. rewrite Hmeta.
    destruct outcome as [keys | e]; eexists; reflexivity.
Qed.

End StoreHandlerProperties.

(** ** Study routes *)

Section StudyRouteProperties.

Variable order_studies : list (Study.row * Patient.row) -> list (Study.row * Patient.row).
Variable order_details : list (Study.row * Patient.row) -> list (Study.row * Patient.row).
Variable order_images : list (Image.row * Series.row) -> list (Image.row * Series.row).

Lemma fetch_study_details_error (details images : result database) (uid : string) :
  match _fetch_study_details order_details order_images details images uid with
  | (None, images_in_study, error_message) =>
      images_in_study = [] /\ py_not error_message = false
  | (Some _, _, _) => True
  end.
Proof.
  unfold _fetch_study_details.
  destruct details as [d | e]; [| split; reflexivity].
  destruct (List.head _) as [r |]; [| split; reflexivity].
  destruct images; exact I.
Qed.

(** X17 - [view_study] never answers 404: whenever the helper returns no
    study it returns a non-empty error message, so the [abort(404)] of the
    route is not reached, and an unknown study identifier renders the viewer
    page with the message. *)
Theorem view_study_never_answers_404 (details images : result database) (uid : string) :
  view_study order_details order_images details images uid <> AbortPage 404 /\
  (forall d,
     details = Ok d ->
     (forall l, Permutation (order_details l) l) ->
     List.filter (fun r => String.eqb (Study.study_instance_uid (fst r)) uid)
       (study_join_patient d) = [] ->
     view_study order_details order_images details images uid
       = StudyViewer [] None [] (Some ("Study with UID '" +:+ uid +:+ "' not found."))
           None).
Proof.
  split.
  - unfold view_study.
    pose proof (fetch_study_details_error details images uid) as H.
    destruct (_fetch_study_details _ _ details images uid) as [[[r |] imgs] err].
    + discriminate.
    + destruct H as [_ ->]. discriminate.
  - intros d -> Hperm Hnone. unfold view_study, _fetch_study_details.
    rewrite Hnone.
    rewrite (Permutation_nil (Permutation_sym (Hperm []))). reflexivity.
Qed.

Lemma firstn_two {A : Type} (l l' : list A) :
  Permutation l' l ->
  match l with
  | [] => List.firstn 2 l' = []
  | [r] => List.firstn 2 l' = [r]
  | _ :: _ :: _ => exists a b, List.firstn 2 l' = [a; b]
  end.
Proof.
  intros H. destruct l as [| r [| r' l]].
  - apply Permutation_sym, Permutation_nil in H. subst. reflexivity.
  - apply Permutation_sym, Permutation_length_1_inv in H. subst. reflexivity.
  - apply Permutation_length in H. destruct l' as [| a [| b l']]; try discriminate H.
    exists a, b. reflexivity.
Qed.

(** X18 - the EMR link opens the viewer exactly when one study matches the
    criteria given (and has an identifier), and then on that study; with
    several matches it goes back to the index with a warning. The order of
    the rows ([ORDER BY st.study_date DESC, p.patient_name]) never decides
    which study is opened. *)
Theorem studyid_opens_the_unique_match (d : database) (details images : result database)
    (args : gmap string string) :
  (forall l, Permutation (order_studies l) l) ->
  let patient_id := strip (args_get args "patient_id") in
  let accession_number := strip (args_get args "accession_number") in
  let matches :=
    List.filter (emr_criteria patient_id accession_number) (study_join_patient d) in
  let answer :=
    studyid order_studies order_details order_images (Ok d) details images args in
  ((exists flashed study imgs error initial,
      answer = StudyViewer flashed study imgs error initial) <->
   (patient_id <> "" \/ accession_number <> "") /\
   exists r, matches = [r] /\ Study.study_instance_uid (fst r) <> "") /\
  (forall r flashed study imgs error initial,
     matches = [r] ->
     answer = StudyViewer flashed study imgs error initial ->
     (study, imgs, error)
       = _fetch_study_details order_details order_images details images
           (Study.study_instance_uid (fst r))) /\
  (forall r r' rest,
     patient_id <> "" \/ accession_number <> "" ->
     matches = r :: r' :: rest ->
     exists message,
       answer = RedirectTo [("warning", message)] "index"
                  [("patient_id", patient_id); ("accession_number", accession_number)]).
Proof.
  intros Hperm patient_id accession_number matches answer.
  pose proof (firstn_two matches (order_studies matches) (Hperm matches)) as Hfirst.
  assert (Hempty : String.eqb patient_id "" && String.eqb accession_number "" = false
                   <-> patient_id <> "" \/ accession_number <> "").
  { destruct (String.eqb_spec patient_id ""), (String.eqb_spec accession_number "");
      simpl; split; intros H; try reflexivity; try discriminate; try tauto. }
  unfold answer, studyid.
  fold patient_id accession_number. fold matches.
  destruct (String.eqb patient_id "" && String.eqb accession_number "") eqn:Eargs.
  { split; [split |].
    - intros (f & s & i & e & p & H). discriminate H.
    - intros [H _]. apply Hempty in H. discriminate H.
    - split; [intros; discriminate |].
      intros r r' rest H. apply Hempty in H. discriminate H. }
  pose proof (proj1 Hempty eq_refl) as Hargs. clear Eargs Hempty.
  destruct matches as [| r [| r' rest]].
  - rewrite Hfirst. split; [split |].
    + intros (f & s & i & e & p & H). discriminate H.
    + intros [_ (r & H & _)]. discriminate H.
    + split; intros; discriminate.
  - rewrite Hfirst. destruct (String.eqb_spec (Study.study_instance_uid (fst r)) "") as [E | E].
    + split; [split |].
      * intros (f & s & i & e & p & H). discriminate H.
      * intros [_ (r0 & [= <-] & H)]. contradiction.
      * split; intros; discriminate.
    + destruct (_fetch_study_details order_details order_images details images _)
        as [[study imgs] error] eqn:Hf.
      destruct (initial_image _ imgs) as [flashed initial].
      split; [split |].
      * intros _. split; [exact Hargs |]. exists r. split; [reflexivity | exact E].
      * intros _. do 5 eexists. reflexivity.
      * split; [| intros; discriminate].
        intros r0 f s i e p [= <-] [= _ <- <- <- _]. symmetry. exact Hf.
  - destruct Hfirst as (a & b & ->). split; [split |].
    + intros (f & s & i & e & p & H). discriminate H.
    + intros [_ (r0 & H & _)]. discriminate H.
    + split; [intros; discriminate |].
      intros r0 r0' rest0 _ _. eexists. reflexivity.
Qed.

(** X19 - the image the EMR link opens first is always an image of the
    study shown, and there is one whenever the study has images: the
    requested instance when it is in the study with a non-empty path, the
    first image of the study otherwise. *)
Theorem studyid_initial_image (emr details images : result database)
    (args : gmap string string) (flashed : list (string * string))
    (study : option (Study.row * Patient.row)) (imgs : list (Image.row * Series.row))
    (error : option string) (initial : option string) :
  studyid order_studies order_details order_images emr details images args
    = StudyViewer flashed study imgs error initial ->
  let requested := strip (args_get args "image_sop_instance_uid") in
  (initial = None <-> imgs = []) /\
  (forall p, initial = Some p ->
     exists img, In img imgs /\ Image.image_path_name (fst img) = p) /\
  (forall img,
     requested <> "" ->
     List.find (fun img => String.eqb (Image.sop_instance_uid (fst img)) requested) imgs
       = Some img ->
     Image.image_path_name (fst img) <> "" ->
     initial = Some (Image.image_path_name (fst img)) /\ flashed = []) /\
  (requested = "" ->
   flashed = [] /\
   initial = option_map (fun img => Image.image_path_name (fst img)) (List.head imgs)).
Proof.
  intros Hrun requested.
  assert (Hsel : (flashed, initial) = initial_image requested imgs).
  { unfold studyid in Hrun. fold requested in Hrun.
    destruct (_ && _); [discriminate |].
    destruct emr as [d | e]; [| discriminate].
    destruct (List.firstn 2 _) as [| r [| r' rest]]; try discriminate.
    destruct (String.eqb _ ""); [discriminate |].
    destruct (_fetch_study_details _ _ _ _ _) as [[s i] e].
    destruct (initial_image requested i) as [f p] eqn:Hi.
    injection Hrun as <- <- <- <- <-. symmetry. exact Hi. }
  clear Hrun. unfold initial_image in Hsel.
  destruct (String.eqb_spec requested "") as [Ereq | Ereq].
  - injection Hsel as -> ->. cbn.
    destruct imgs as [| img rest]; cbn.
    + split; [tauto |]. split; [discriminate |]. split; [contradiction |]. tauto.
    + split; [split; discriminate |]. split; [| split; [contradiction | tauto]].
      intros p [= <-]. exists img. split; [left |]; reflexivity.
  - cbn [negb andb] in Hsel.
    destruct (List.find _ imgs) as [found |] eqn:Hfind; cbn [option_map py_not] in Hsel.
    + pose proof (List.find_some _ _ Hfind) as [Hin _].
      destruct (String.eqb_spec (Image.image_path_name (fst found)) "") as [Ep | Ep].
      * destruct imgs as [| img rest]; [destruct Hin |].
        injection Hsel as -> ->.
        split; [split; discriminate |]. split; [| split; [| contradiction]].
        -- intros p [= <-]. exists img. split; [left |]; reflexivity.
        -- intros img0 _ [= <-] H. contradiction.
      * injection Hsel as -> ->.
        split; [split; [discriminate | intros ->; destruct Hin] |].
        split; [| split; [| contradiction]].
        -- intros p [= <-]. exists found. split; [exact Hin | reflexivity].
        -- intros img0 _ [= <-] _. split; reflexivity.
    + destruct imgs as [| img rest]; injection Hsel as -> ->.
      * split; [tauto |]. split; [discriminate |]. split; [discriminate | contradiction].
      * split; [split; discriminate |]. split; [| split; [discriminate | contradiction]].
        intros p [= <-]. exists img. split; [left |]; reflexivity.
Qed.

End StudyRouteProperties.

(** ** The catalog on concrete stores *)



Lemma ingest_twice_witness :
  (exists extra,
     save_metadata example_root example_repr example_path ingested_world
       = (Ok (1, 1, 1),
          {| db := db ingested_world; log := log ingested_world ++ extra;
             fs := fs ingested_world; others := [] |})) /\
  count_key Image.sop_instance_uid "1.2.3.4.5" (image (db ingested_world)) = 1%nat.
Proof.
  apply (ingest_twice example_repr example_root example_dataset example_path
           (stored_world example_dataset) ingested_world (1, 1, 1)).
  - reflexivity.
  - vm_compute. reflexivity.
  - vm_compute. discriminate.
  - vm_compute. lia.
  - vm_compute. reflexivity.
Defined.

Lemma save_metadata_returns_witness :
  exists keys w1,
    save_metadata example_root example_repr example_path (stored_world example_dataset)
      = (Ok keys, w1).
Proof.
  apply (save_metadata_returns example_repr example_root example_dataset example_path
           (stored_world example_dataset) 16 512 512).
  - reflexivity.
  - vm_compute. reflexivity.
  - vm_compute. eexists. reflexivity.
  - reflexivity.
  - reflexivity.
  - reflexivity.
Defined.

(** C5, as stated, fails: in the race the resolver raises the uniqueness
    violation, although the row of the winner is there under key 1. *)
Lemma race_raises_violation :
  fst (get_or_create_patient example_repr example_dataset example_path race_world)
    = Raise UniqueViolation /\
  select_prkey Patient.patient_id Patient.patient_prkey "P1"
    (patient (db (snd (get_or_create_patient example_repr example_dataset
                         example_path race_world)))) = Some 1 /\
  fst (save_metadata example_root example_repr example_path race_world)
    = Raise UniqueViolation.
Proof. repeat split; vm_compute; reflexivity. Qed.

Lemma uniqueness_violation_propagates_witness :
  (exists w',
     get_or_create_patient example_repr
       (<["Path" := PyScalar (SStr example_path)]> example_dataset) example_path
       race_world = (Raise UniqueViolation, w') /\
     refused race_world w'
       (other_commits_patient "P1" (no_commit (db race_world))) [] /\
     save_metadata example_root example_repr example_path race_world
       = (Raise UniqueViolation,
          with_error_record example_path UniqueViolation w')) /\
  (exists w',
     get_or_create_study example_repr
       (<["Path" := PyScalar (SStr example_path)]> example_dataset) 1 example_path
       study_race_patient_resolved = (Raise UniqueViolation, w') /\
     refused study_race_patient_resolved w'
       (other_commits_study "1.2.3" 1 (no_commit (db study_race_patient_resolved)))
       [] /\
     save_metadata example_root example_repr example_path study_race_world
       = (Raise UniqueViolation,
          with_error_record example_path UniqueViolation w')) /\
  (exists w',
     get_or_create_series example_repr
       (<["Path" := PyScalar (SStr example_path)]> example_dataset) 1 example_path
       series_race_study_resolved = (Raise UniqueViolation, w') /\
     refused series_race_study_resolved w'
       (other_commits_series "1.2.3.4" 1 (no_commit (db series_race_study_resolved)))
       [] /\
     save_metadata example_root example_repr example_path series_race_world
       = (Raise UniqueViolation,
          with_error_record example_path UniqueViolation w')).
Proof.
  split; [| split].
  - apply (proj1 (uniqueness_violation_propagates example_repr example_root
                    example_dataset example_path race_world eq_refl)
             no_commit (other_commits_patient "P1") [] "P1" 1);
      vm_compute; reflexivity.
  - apply (proj1 (proj2 (uniqueness_violation_propagates example_repr example_root
                    example_dataset example_path study_race_world eq_refl))
             1 study_race_patient_resolved
             no_commit (other_commits_study "1.2.3" 1) [] "1.2.3" 1);
      vm_compute; reflexivity.
  - apply (proj2 (proj2 (uniqueness_violation_propagates example_repr example_root
                    example_dataset example_path series_race_world eq_refl))
             1 series_race_patient_resolved 1 series_race_study_resolved
             no_commit (other_commits_series "1.2.3.4" 1) [] "1.2.3.4" 1);
      vm_compute; reflexivity.
Defined.

(** The races on the study and on the series, evaluated: the ingestion
    raises the violation, the rows resolved before it stay (the orphan
    Patient, then the orphan Study), no row follows it, and the log ends
    with the ERROR record of [save_metadata]. *)
Example later_races_outcome :
  (let '(r, w') := save_metadata example_root example_repr example_path
                     study_race_world in
   r = Raise UniqueViolation /\
   List.map Patient.patient_id (tbl_rows (patient (db w'))) = ["P1"] /\
   List.map Study.study_prkey (tbl_rows (study (db w'))) = [1] /\
   tbl_rows (series (db w')) = [] /\ tbl_rows (image (db w')) = [] /\
   others w' = [] /\
   log w' = [(ERROR, "Terjadi kesalahan saat menyimpan metadata untuk "
                     +:+ "'ACC1/1.2.3.4.5.dcm': UniqueViolation")]) /\
  (let '(r, w') := save_metadata example_root example_repr example_path
                     series_race_world in
   r = Raise UniqueViolation /\
   List.map Patient.patient_id (tbl_rows (patient (db w'))) = ["P1"] /\
   List.map Study.study_instance_uid (tbl_rows (study (db w'))) = ["1.2.3"] /\
   List.map Series.series_prkey (tbl_rows (series (db w'))) = [1] /\
   tbl_rows (image (db w')) = [] /\
   others w' = [] /\
   log w' = [(ERROR, "Terjadi kesalahan saat menyimpan metadata untuk "
                     +:+ "'ACC1/1.2.3.4.5.dcm': UniqueViolation")]).
Proof. split; vm_compute; repeat split; reflexivity. Qed.

Lemma fallback_identifiers_witness :
  exists r w',
    get_or_create_patient example_repr ds_blank_ids example_path empty_world
      = (Ok (Patient.patient_prkey r), w') /\
    tbl_rows (patient (db w')) = (tbl_rows (patient (db empty_world)) ++ [r])%list /\
    Patient.patient_id r = "UNKNOWN_PATIENT_1.2.3.4.5" /\
    In (WARNING, "PatientID kosong, menggunakan fallback: UNKNOWN_PATIENT_1.2.3.4.5")
       (log w').
Proof.
  assert (Hsop : ds_blank_ids !! "SOPInstanceUID" = Some (PyScalar (SStr "1.2.3.4.5")))
    by (vm_compute; reflexivity).
  destruct (fallback_identifiers example_repr ds_blank_ids 1 example_path empty_world
              (PyScalar (SStr "1.2.3.4.5")) eq_refl Hsop) as [Hp _].
  apply Hp; vm_compute; reflexivity.
Defined.

(** The Study row of the same dataset keeps the StudyInstanceUID as its
    AccessionNumber. *)
Example blank_accession_stored :
  option_map Study.accession_number
    (List.head (tbl_rows (study (db (snd (save_metadata example_root example_repr
       example_path (stored_world ds_blank_ids)))))))
    = Some "1.2.3".
Proof. vm_compute. reflexivity. Qed.

(** An infinite [Rows] value makes ingest fail with [OverflowError] after
    the Patient, Study and Series rows were created. *)
Example overflow_aborts_ingest :
  fst (save_metadata example_root example_repr example_path
         (stored_world (<["Rows" := py_float_inf]> example_dataset)))
    = Raise OverflowError.
Proof. vm_compute. reflexivity. Qed.

(** *** The invariants on the example stores *)

Lemma keyed_ingested : keyed_store (db second_world).
Proof.
  vm_compute. repeat split; repeat constructor;
    first [ intros H; inversion H | reflexivity ].
Qed.

Lemma linked_ingested : linked_store (db second_world).
Proof.
  vm_compute. repeat split; intros s [<- | []]; eexists;
    (split; [left; reflexivity | reflexivity]).
Qed.

Lemma unreadable_file_masks_error_witness :
  exists text,
    save_metadata example_root example_repr example_path empty_world
      = (Raise UnboundLocalError,
         {| db := db empty_world;
            log := log empty_world
                   ++ [(ERROR, "File DICOM tidak ditemukan di jalur absolut: "
                               +:+ os_path_join example_root example_path);
                       (ERROR, "Terjadi kesalahan saat menyimpan metadata untuk '"
                               +:+ example_path +:+ "': " +:+ text)];
            fs := fs empty_world; others := others empty_world |}).
Proof.
  apply (proj1 (unreadable_file_masks_error example_repr example_root example_path
                  empty_world)).
  vm_compute. reflexivity.
Defined.

Lemma ingest_is_append_only_witness :
  (exists new,
     tbl_rows (patient (db (snd (save_metadata example_root example_repr second_path
                                   second_world))))
       = (tbl_rows (patient (db second_world)) ++ new)%list /\ (length new <= 1)%nat) /\
  (exists new,
     tbl_rows (study (db (snd (save_metadata example_root example_repr second_path
                                 second_world))))
       = (tbl_rows (study (db second_world)) ++ new)%list /\ (length new <= 1)%nat) /\
  (exists new,
     tbl_rows (series (db (snd (save_metadata example_root example_repr second_path
                                  second_world))))
       = (tbl_rows (series (db second_world)) ++ new)%list /\ (length new <= 1)%nat) /\
  (exists new,
     tbl_rows (image (db (snd (save_metadata example_root example_repr second_path
                                 second_world))))
       = (tbl_rows (image (db second_world)) ++ new)%list /\ (length new <= 1)%nat).
Proof.
  apply (ingest_is_append_only example_repr example_root second_path second_world).
  reflexivity.
Defined.

Lemma ingest_keeps_keys_unique_witness :
  keyed_store (db (snd (save_metadata example_root example_repr second_path
                          second_world))).
Proof.
  apply (ingest_keeps_keys_unique example_repr example_root second_path second_world).
  - reflexivity.
  - exact keyed_ingested.
Defined.

Lemma ingest_keeps_references_witness :
  linked_store (db (snd (save_metadata example_root example_repr second_path
                           second_world))).
Proof.
  apply (ingest_keeps_references example_repr example_root second_path second_world).
  - reflexivity.
  - exact linked_ingested.
Defined.

Lemma stored_parents_are_reused_witness :
  patient (db (snd (save_metadata example_root example_repr second_path second_world)))
    = patient (db second_world) /\
  study (db (snd (save_metadata example_root example_repr second_path second_world)))
    = study (db second_world) /\
  series (db (snd (save_metadata example_root example_repr second_path second_world)))
    = series (db second_world) /\
  (forall keys,
     fst (save_metadata example_root example_repr second_path second_world) = Ok keys ->
     keys = (1, 1, 1)) /\
  (forall r,
     image (db (snd (save_metadata example_root example_repr second_path second_world)))
       = extend (image (db second_world)) r ->
     Image.series_prkey r = 1).
Proof.
  apply (stored_parents_are_reused example_repr example_root second_dataset second_path
           second_world _ _ "P1" "1.2.3" "1.2.3.4" 1 1 1).
  - reflexivity.
  - vm_compute. reflexivity.
  - vm_compute. reflexivity.
  - vm_compute. reflexivity.
  - vm_compute. reflexivity.
  - vm_compute. reflexivity.
  - vm_compute. reflexivity.
  - vm_compute. reflexivity.
  - apply surjective_pairing.
Defined.

Lemma new_image_is_catalogued_witness :
  exists kp ks kse w1 row,
    save_metadata example_root example_repr second_path second_world
      = (Ok (kp, ks, kse), w1) /\
    image (db w1) = extend (image (db second_world)) row /\
    Image.sop_instance_uid row
      = get_str (ds_get second_dataset "SOPInstanceUID" PyNone) /\
    Image.image_path_name row = strip second_path /\
    Image.patient_id row = get_str (ds_get second_dataset "PatientID" PyNone) /\
    Image.bits_allocated row = 16 /\ Image.rows row = 512 /\
    Image.columns row = 512 /\
    Image.series_prkey row = kse /\
    (exists s, In s (tbl_rows (series (db w1))) /\ Series.series_prkey s = kse /\
               natural_key example_repr "SeriesInstanceUID" "UNKNOWN_SERIES_"
                 second_dataset
                 = Some (Series.series_instance_uid s)).
Proof.
  apply (new_image_is_catalogued example_repr example_root second_dataset second_path
           second_world 16 512 512).
  - reflexivity.
  - vm_compute. reflexivity.
  - vm_compute. discriminate.
  - vm_compute. reflexivity.
  - vm_compute. reflexivity.
  - vm_compute. reflexivity.
  - vm_compute. reflexivity.
Defined.

(** *** The handler and the routes on the examples *)

(** The example received by the handler: stored, ingested and answered with
    success. *)
Example handle_store_example :
  fst (handle_store example_root example_root example_repr "/" example_makedirs
         example_save_as example_dataset empty_world) = Ok 0x0000 /\
  List.map Image.image_path_name
    (tbl_rows (image (db (snd (handle_store example_root example_root example_repr "/"
                                 example_makedirs example_save_as example_dataset
                                 empty_world)))))
    = [example_path] /\
  fs (snd (handle_store example_root example_root example_repr "/" example_makedirs
             example_save_as example_dataset empty_world))
    !! os_path_join example_root example_path = Some (DicomFile example_dataset).
Proof. repeat split; vm_compute; reflexivity. Qed.

(** A dataset without a SOP instance identifier is refused. *)
Example handle_store_without_sop :
  fst (handle_store example_root example_root example_repr "/" example_makedirs
         example_save_as ds_no_sop empty_world) = Ok 0xC210.
Proof. vm_compute. reflexivity. Qed.

Lemma handle_store_answers_witness :
  exists status w',
    handle_store example_root example_root example_repr "/" example_makedirs
      example_save_as ds_no_sop empty_world = (Ok status, w') /\
    status = 0xC210.
Proof.
  destruct (handle_store_answers example_root example_root example_repr "/"
              example_makedirs example_save_as ds_no_sop empty_world)
    as (status & w' & H & _ & Hsop).
  exists status, w'. split; [exact H |]. apply Hsop. vm_compute. reflexivity.
Defined.

Lemma handle_store_registers_written_file_witness :
  os_path_join example_root ("ACC1" +:+ "/" +:+ "1.2.3.4.5" +:+ ".dcm")
    = absolute_path (example_dirs ++ ["ACC1"; "1.2.3.4.5" +:+ ".dcm"]) /\
  forall outcome w4,
    save_metadata example_root example_repr ("ACC1" +:+ "/" +:+ "1.2.3.4.5" +:+ ".dcm")
      (snd (logging INFO
              ("Berhasil menerima dan menyimpan file DICOM: "
               +:+ absolute_path (example_dirs ++ ["ACC1"; "1.2.3.4.5" +:+ ".dcm"]))
              written_world))
      = (outcome, w4) ->
    exists record,
      handle_store example_root example_root example_repr "/" example_makedirs
        example_save_as example_dataset empty_world
        = (Ok (match outcome with Ok _ => 0x0000 | Raise _ => 0xC001 end),
           {| db := db w4; log := log w4 ++ [record]; fs := fs w4;
              others := others w4 |}).
Proof.
  apply (handle_store_registers_written_file example_root example_root example_repr "/"
           example_makedirs example_save_as example_dataset empty_world empty_world
           empty_world written_world example_dirs "ACC1" (PyScalar (SStr "1.2.3.4.5")));
    vm_compute; reflexivity.
Defined.

Lemma stored_reference_is_served_witness :
  resolve_dicom_path_for_viewer (absolute_path example_dirs) normpath
      (String.concat "/" ["ACC1"; "1.2.3.4.5.dcm"])
    = absolute_path (example_dirs ++ ["ACC1"; "1.2.3.4.5.dcm"]) /\
  snd (image_data (absolute_path example_dirs) normpath 0 stored_files
         (String.concat "/" ["ACC1"; "1.2.3.4.5.dcm"]) ArgAbsent ArgAbsent)
    = FsExists (absolute_path (example_dirs ++ ["ACC1"; "1.2.3.4.5.dcm"]))
      :: match stored_files !! absolute_path (example_dirs ++ ["ACC1"; "1.2.3.4.5.dcm"]) with
         | Some _ => [FsRead (absolute_path (example_dirs ++ ["ACC1"; "1.2.3.4.5.dcm"]))]
         | None => []
         end /\
  fst (image_data (absolute_path example_dirs) normpath 0 stored_files
         (String.concat "/" ["ACC1"; "1.2.3.4.5.dcm"]) ArgAbsent ArgAbsent)
    <> Abort 403 /\
  (fst (image_data (absolute_path example_dirs) normpath 0 stored_files
          (String.concat "/" ["ACC1"; "1.2.3.4.5.dcm"]) ArgAbsent ArgAbsent)
     = Abort 404 <->
   stored_files !! absolute_path (example_dirs ++ ["ACC1"; "1.2.3.4.5.dcm"]) = None) /\
  fst (image_metadata (absolute_path example_dirs) normpath stored_files
         (String.concat "/" ["ACC1"; "1.2.3.4.5.dcm"]))
    <> Abort 403.
Proof.
  apply (stored_reference_is_served stored_files 0 example_dirs "ACC1" ["1.2.3.4.5.dcm"]
           ArgAbsent ArgAbsent); reflexivity.
Defined.

Lemma unparsable_window_argument_is_500_witness :
  image_data example_root normpath 0 stored_files example_path ArgOther ArgAbsent
    = (Abort 500,
       [FsExists (resolve_dicom_path_for_viewer example_root normpath example_path);
        FsRead (resolve_dicom_path_for_viewer example_root normpath example_path)]).
Proof.
  apply (unparsable_window_argument_is_500 stored_files 0 example_root normpath
           example_path example_image ArgOther ArgAbsent).
  - vm_compute. reflexivity.
  - vm_compute. reflexivity.
  - left. reflexivity.
Defined.

Lemma view_study_never_answers_404_witness :
  view_study (fun l => l) (fun l => l) (Ok viewer_store) (Ok viewer_store) "9.9.9"
    = StudyViewer [] None [] (Some ("Study with UID '" +:+ "9.9.9" +:+ "' not found."))
        None.
Proof.
  apply (proj2 (view_study_never_answers_404 (fun l => l) (fun l => l)
                  (Ok viewer_store) (Ok viewer_store) "9.9.9") viewer_store).
  - reflexivity.
  - intros l. apply Permutation_refl.
  - vm_compute. reflexivity.
Defined.

Lemma studyid_opens_the_unique_match_witness :
  exists flashed study imgs error initial,
    studyid (fun l => l) (fun l => l) (fun l => l)
      (Ok viewer_store) (Ok viewer_store) (Ok viewer_store) example_args
      = StudyViewer flashed study imgs error initial.
Proof.
  destruct (studyid_opens_the_unique_match (fun l => l) (fun l => l) (fun l => l)
              viewer_store (Ok viewer_store) (Ok viewer_store) example_args
              (fun l => Permutation_refl l)) as [Hiff _].
  apply Hiff. split.
  - left. vm_compute. discriminate.
  - eexists. split; [vm_compute; reflexivity | vm_compute; discriminate].
Defined.

(** The link of the example opens the viewer on the requested instance. *)
Lemma example_link_renders :
  exists flashed study imgs error,
    studyid (fun l => l) (fun l => l) (fun l => l)
      (Ok viewer_store) (Ok viewer_store) (Ok viewer_store) example_args
      = StudyViewer flashed study imgs error (Some second_path).
Proof. vm_compute. do 4 eexists. reflexivity. Qed.

Lemma studyid_initial_image_witness :
  exists (flashed : list (string * string)) (imgs : list (Image.row * Series.row)),
    (Some second_path = None <-> imgs = []) /\
    (forall p, Some second_path = Some p ->
       exists img, In img imgs /\ Image.image_path_name (fst img) = p) /\
    (forall img,
       strip (args_get example_args "image_sop_instance_uid") <> "" ->
       List.find
         (fun img => String.eqb (Image.sop_instance_uid (fst img))
                       (strip (args_get example_args "image_sop_instance_uid")))
         imgs = Some img ->
       Image.image_path_name (fst img) <> "" ->
       Some second_path = Some (Image.image_path_name (fst img)) /\ flashed = []) /\
    (strip (args_get example_args "image_sop_instance_uid") = "" ->
     flashed = [] /\
     Some second_path
       = option_map (fun img => Image.image_path_name (fst img)) (List.head imgs)).
Proof.
  destruct example_link_renders as (flashed & study & imgs & error & H).
  exists flashed, imgs.
  apply (studyid_initial_image (fun l => l) (fun l => l) (fun l => l)
           (Ok viewer_store) (Ok viewer_store) (Ok viewer_store) example_args
           flashed study imgs error (Some second_path) H).
Defined.

Lemma series_keeps_raw_study_uid_witness :
  exists st s w1 w2,
    get_or_create_study example_repr ds_blank_study 1 example_path empty_world
      = (Ok (Study.study_prkey st), w1) /\
    get_or_create_series example_repr ds_blank_study (Study.study_prkey st)
        example_path w1
      = (Ok (Series.series_prkey s), w2) /\
    study (db w2) = extend (study (db empty_world)) st /\
    series (db w2) = extend (series (db empty_world)) s /\
    Study.study_instance_uid st
      = "UNKNOWN_STUDY_" +:+ py_str_value example_repr (PyScalar (SStr "1.2.3.4.5")) /\
    Series.study_prkey s = Study.study_prkey st /\
    Series.study_instance_uid s = "" /\
    Series.study_instance_uid s <> Study.study_instance_uid st.
Proof.
  apply (series_keeps_raw_study_uid example_repr ds_blank_study 1 example_path
           empty_world (PyScalar (SStr "1.2.3.4.5")) "1.2.3.4");
    vm_compute; reflexivity.
Defined.
